(** * GNU Radio module integration: block inventory, file correlation and
      name resolution

    A shallow embedding of [src/moduleTree.ts] ([getBlockFilesTree]) and of
    the validation and confirmation logic of [src/modtool.ts]
    ([validateBlockName], [removeBlock], [disableBlock],
    [createPythonBindings]).

    The host platform is kept abstract: the editor's file-system API
    ([workspace.fs.readDirectory], [Uri.joinPath]) and the regular-expression
    engine ([RegExp], [RegExp.prototype.test]) are records of operations, so
    that every general theorem holds for whatever the platform provides.
    The module [./blockFilter], which both source files import, is an
    interface record; one instance of it is written from the specification. *)

From Stdlib Require Import List NArith ZArith Bool String Ascii Lia.
Import ListNotations.

Set Implicit Arguments.

(* ================================================================== *)
(** ** JavaScript strings *)
(* ================================================================== *)

(** A JavaScript string is a sequence of UTF-16 code units. *)
Definition char16 := N.
Definition jsstring := list char16.

(** A literal written in the source. *)
Definition js (s : string) : jsstring :=
  List.map N_of_ascii (list_ascii_of_string s).

Definition jsstring_eq_dec (a b : jsstring) : {a = b} + {a <> b} :=
  list_eq_dec N.eq_dec a b.

(** [a === b] on strings. *)
Definition streq (a b : jsstring) : bool :=
  if jsstring_eq_dec a b then true else false.

(** [s.startsWith(p)] *)
Fixpoint startsWith (s p : jsstring) {struct p} : bool :=
  match p with
  | [] => true
  | c :: p' =>
      match s with
      | [] => false
      | d :: s' => (d =? c)%N && startsWith s' p'
      end
  end.

(** [s.endsWith(p)] *)
Definition endsWith (s p : jsstring) : bool :=
  startsWith (rev s) (rev p).

(** ECMAScript WhiteSpace and LineTerminator code units, the ones that
    [String.prototype.trim] strips. *)
Definition isWhiteSpace (c : char16) : bool :=
  ((9 <=? c) && (c <=? 13) || (c =? 32) || (c =? 160) || (c =? 5760)
   || (8192 <=? c) && (c <=? 8202)
   || (c =? 8232) || (c =? 8233) || (c =? 8239) || (c =? 8287)
   || (c =? 12288) || (c =? 65279))%N.

Fixpoint trimStart (s : jsstring) : jsstring :=
  match s with
  | [] => []
  | c :: s' => if isWhiteSpace c then trimStart s' else s
  end.

Definition trimEnd (s : jsstring) : jsstring := rev (trimStart (rev s)).

(** [s.trim()] *)
Definition trim (s : jsstring) : jsstring := trimEnd (trimStart s).

(** [s.slice(n)] for [0 <= n]. *)
Definition slice (s : jsstring) (n : nat) : jsstring := skipn n s.

(** [parts.join(sep)] *)
Fixpoint join (sep : jsstring) (parts : list jsstring) : jsstring :=
  match parts with
  | [] => []
  | [p] => p
  | p :: rest => p ++ sep ++ join sep rest
  end.

(** The double quote, code unit 34. *)
Definition dquote : jsstring := [34%N].

(** The class [\w] of a regular expression without the unicode flag. *)
Definition isWordChar (c : char16) : bool :=
  ((48 <=? c) && (c <=? 57) || (65 <=? c) && (c <=? 90)
   || (c =? 95) || (97 <=? c) && (c <=? 122))%N.

(* ================================================================== *)
(** ** Exceptions *)
(* ================================================================== *)

(** The values the modelled code throws or rejects with. *)
Inductive exn : Type :=
| Error (message : jsstring)        (* [throw Error(message)] *)
| SyntaxError (pattern : jsstring)  (* [RegExp(pattern)] on an invalid pattern *)
| FileNotFound.                     (* [readDirectory] on a missing directory *)

Inductive result (A : Type) : Type :=
| Ok (a : A)
| Err (e : exn).
Arguments Ok {A} a.
Arguments Err {A} e.

Definition bind {A B} (m : result A) (k : A -> result B) : result B :=
  match m with
  | Ok a => k a
  | Err e => Err e
  end.

Declare Scope js_scope.
Delimit Scope js_scope with js_monad.
Notation "x <- m ;; k" := (bind m (fun x => k))
  (at level 61, m at next level, right associativity) : js_scope.
Open Scope js_scope.

(** [l.map(f)] where [f] may throw: the first exception aborts the map. *)
Fixpoint mapM {A B} (f : A -> result B) (l : list A) : result (list B) :=
  match l with
  | [] => Ok []
  | a :: l' => b <- f a ;; bs <- mapM f l' ;; Ok (b :: bs)
  end.

(** [l.filter(f)] where [f] may throw. *)
Fixpoint filterM {A} (f : A -> result bool) (l : list A) : result (list A) :=
  match l with
  | [] => Ok []
  | a :: l' =>
      keep <- f a ;; rest <- filterM f l' ;;
      Ok (if keep then a :: rest else rest)
  end.

Definition isOk {A} (r : result A) : bool :=
  match r with Ok _ => true | Err _ => false end.

(* ================================================================== *)
(** ** [path.extname] (POSIX flavour of Node's [path] module) *)
(* ================================================================== *)

Module Path.

(** The loop state of [extname]; [-1] stands for "not seen yet". *)
Record state := mkState {
  startDot : Z;
  startPart : Z;
  end_ : Z;
  matchedSlash : bool;
  preDotState : Z;
  stopped : bool
}.

Definition init : state := mkState (-1) 0 (-1) true 0 false.

(** One iteration of the right-to-left scan, at index [i] on code [code]. *)
Definition step (st : state) (i : Z) (code : char16) : state :=
  if stopped st then st
  else if (code =? 47)%N then
    if negb (matchedSlash st)
    then mkState (startDot st) (i + 1) (end_ st) (matchedSlash st)
                 (preDotState st) true
    else st
  else
    let st1 :=
      if (end_ st =? -1)%Z
      then mkState (startDot st) (startPart st) (i + 1) false
                   (preDotState st) false
      else st in
    if (code =? 46)%N then
      if (startDot st1 =? -1)%Z
      then mkState i (startPart st1) (end_ st1) (matchedSlash st1)
                   (preDotState st1) false
      else if negb (preDotState st1 =? 1)%Z
      then mkState (startDot st1) (startPart st1) (end_ st1)
                   (matchedSlash st1) 1 false
      else st1
    else if negb (startDot st1 =? -1)%Z
    then mkState (startDot st1) (startPart st1) (end_ st1)
                 (matchedSlash st1) (-1) false
    else st1.

(** The scan over [path], from its last code unit to its first; [i] is the
    index of the head of [path]. *)
Fixpoint scan (path : jsstring) (i : Z) : state :=
  match path with
  | [] => init
  | code :: rest => step (scan rest (i + 1)) i code
  end.

Definition extname (path : jsstring) : jsstring :=
  let st := scan path 0 in
  if ((startDot st =? -1) || (end_ st =? -1) || (preDotState st =? 0)
      || ((preDotState st =? 1) && (startDot st =? end_ st - 1)
          && (startDot st =? startPart st + 1)))%Z
  then []
  else firstn (Z.to_nat (end_ st - startDot st))
              (skipn (Z.to_nat (startDot st)) path).

End Path.

(* ================================================================== *)
(** ** The host platform *)
(* ================================================================== *)

(** [vscode.FileType] is a bit mask: [File = 1], [Directory = 2],
    [SymbolicLink = 64]; a link to a file is reported as [65]. *)
Definition FileType := N.
Definition FileType_Unknown : FileType := 0%N.
Definition FileType_File : FileType := 1%N.
Definition FileType_Directory : FileType := 2%N.
Definition FileType_SymbolicLink : FileType := 64%N.

(** An element of the array [readDirectory] resolves to. *)
Definition dirent : Type := jsstring * FileType.

(** [vscode.Uri] and [vscode.workspace.fs], as far as the code uses them.
    [readDirectory] is [None] where the promise rejects (the directory is
    missing or cannot be read). *)
Record FileSystem : Type := {
  Uri : Type;
  Uri_file : jsstring -> Uri;
  Uri_joinPath : Uri -> list jsstring -> Uri;
  Uri_fsPath : Uri -> jsstring;
  readDirectory : Uri -> option (list dirent)
}.

(** The regular-expression engine.  [RegExp p] is [None] where the
    constructor throws a [SyntaxError].  [matcher r s i] is the engine's
    match attempt on the subject [s] anchored at index [i]. *)
Record RegExpEngine : Type := {
  regex : Type;
  RegExp : jsstring -> option regex;
  matcher : regex -> jsstring -> nat -> bool
}.

(** [r.test(s)] for a regular expression without the [g] and [y] flags:
    the match is attempted at index [0], then [1], ... up to the length of
    [s], and the first success wins. *)
Definition RegExp_test (E : RegExpEngine) (r : regex E) (s : jsstring) : bool :=
  existsb (matcher E r s) (seq 0 (S (List.length s))).

(** The module [./blockFilter] as [moduleTree.ts] and [modtool.ts] use it:
    the file-name predicates and the inventories.  The two files only call
    these functions, so they are an interface here; [BlockFilterSpec] below
    gives the instance the specification describes. *)
Record BlockFilter : Type := {
  filterGrcBlocks : jsstring -> bool;
  filterXmlBlocks : jsstring -> bool;
  filterCppBlocks : jsstring -> bool;
  filterPyBlocks : jsstring -> bool;
  filterBlockTests : jsstring -> bool;
  filterCppImplFiles : jsstring -> bool;
  getAllBlocks : jsstring -> jsstring -> result (list jsstring);
  getCppBlocks : jsstring -> jsstring -> result (list jsstring);
  getXmlBlocks : jsstring -> jsstring -> result (list jsstring);
  getCppImplFiles : jsstring -> result (list jsstring)
}.

(* ================================================================== *)
(** ** [moduleTree.ts] *)
(* ================================================================== *)

Module ModuleTree.

(** [item.command], over the type of resource identifiers. *)
Record Command (U : Type) : Type := {
  title : jsstring;
  command : jsstring;
  arguments : list U
}.

(** The fields of [vscode.TreeItem] the code sets. *)
Record TreeItem (U : Type) : Type := {
  resourceUri : U;
  description : bool;
  label : jsstring;
  item_command : Command U
}.

Section WithPlatform.

Variable fs : FileSystem.
Variable E : RegExpEngine.
Variable blocks : BlockFilter.

Section GetBlockFilesTree.

Variable block : jsstring.
Variable baseUri : Uri fs.
Variable moduleName : jsstring.

Definition readdir (pathSegments : list jsstring) : result (list dirent) :=
  match readDirectory fs (Uri_joinPath fs baseUri pathSegments) with
  | Some entries => Ok entries
  | None => Err FileNotFound
  end.

(** The item [mapBlockToTreeItem] builds for a regular file. *)
Definition treeItem (lbl : jsstring) (pathSegments : list jsstring)
    (name : jsstring) : TreeItem (Uri fs) :=
  let uri := Uri_joinPath fs baseUri (pathSegments ++ [name]) in
  {| resourceUri := uri;
     description := true;
     label := lbl;
     item_command := {| title := js "open";
                        command := js "vscode.open";
                        arguments := [uri] |} |}.

Definition mapBlockToTreeItem (lbl : jsstring) (pathSegments : list jsstring)
    (entry : dirent) : result (TreeItem (Uri fs)) :=
  let '(name, fileType) := entry in
  if negb (fileType =? FileType_File)%N
  then Err (Error (js "Expected a file, got something else"))
  else Ok (treeItem lbl pathSegments name).

(** The six filter callbacks, in the order of the source. *)
Definition isGrcFile (value : dirent) : bool :=
  startsWith (fst value) (moduleName ++ js "_" ++ block)
  && (filterGrcBlocks blocks (fst value) || filterXmlBlocks blocks (fst value)).

Definition isCppFile (value : dirent) : bool :=
  startsWith (fst value) block && filterCppBlocks blocks (fst value).

Definition isPyFile (value : dirent) : bool :=
  startsWith (fst value) block && filterPyBlocks blocks (fst value).

Definition isPyTestFile (value : dirent) : bool :=
  filterBlockTests blocks (fst value)
  && endsWith (fst value) (block ++ js ".py").

Definition isCppImplFile (value : dirent) : bool :=
  startsWith (fst value) block
  && (filterCppImplFiles blocks (fst value)
      || streq (Path.extname (fst value)) (js ".h")).

(** The pattern of the template literal: the backslash before the dot is
    consumed by the template, so the dot reaches [RegExp] unescaped. *)
Definition cppTestPattern : jsstring := block ++ js ".(cc|cpp|cxx)".

(** [&&] evaluates [RegExp(...)] only when [filterBlockTests] holds. *)
Definition isCppTestFile (value : dirent) : result bool :=
  if filterBlockTests blocks (fst value) then
    match RegExp E cppTestPattern with
    | Some re => Ok (RegExp_test E re (fst value))
    | None => Err (SyntaxError cppTestPattern)
    end
  else Ok false.

Definition mapCppImpl (value : dirent) : result (TreeItem (Uri fs)) :=
  item <- mapBlockToTreeItem (js "Implementation") [js "lib"] value ;;
  Ok {| resourceUri := resourceUri item;
        description := description item;
        label := label item ++
          (if streq (Path.extname (fst value)) (js ".h")
           then js " header" else js " source");
        item_command := item_command item |}.

Definition getBlockFilesTree : result (list (TreeItem (Uri fs))) :=
  grcDir <- readdir [js "grc"] ;;
  grcFiles <- mapM (mapBlockToTreeItem (js "Block definition") [js "grc"])
                   (filter isGrcFile grcDir) ;;
  cppDir <- readdir [js "include"; js "gnuradio"; moduleName] ;;
  cppFiles <- mapM (mapBlockToTreeItem (js "Public header")
                      [js "include"; js "gnuradio"; moduleName])
                   (filter isCppFile cppDir) ;;
  pyDir <- readdir [js "python"; moduleName] ;;
  pyFiles <- mapM (mapBlockToTreeItem (js "Implementation")
                     [js "python"; moduleName])
                  (filter isPyFile pyDir) ;;
  pyTestFiles <- mapM (mapBlockToTreeItem (js "Python Tests")
                         [js "python"; moduleName])
                      (filter isPyTestFile pyDir) ;;
  cppImplDir <- readdir [js "lib"] ;;
  cppImplFiles <- mapM mapCppImpl (filter isCppImplFile cppImplDir) ;;
  cppTestSel <- filterM isCppTestFile cppImplDir ;;
  cppTestFiles <- mapM (mapBlockToTreeItem (js "C++ Tests") [js "lib"])
                       cppTestSel ;;
  Ok (grcFiles ++ pyFiles ++ cppFiles ++ cppImplFiles
      ++ pyTestFiles ++ cppTestFiles).

(** The entries [mapBlockToTreeItem] accepts. *)
Definition isFile (entry : dirent) : bool :=
  (snd entry =? FileType_File)%N.

(** The exception of the sanity check. *)
Definition expectedFile : exn :=
  Error (js "Expected a file, got something else").

(** The item [mapCppImpl] builds for a regular file of [lib]. *)
Definition cppImplItem (name : jsstring) : TreeItem (Uri fs) :=
  let item := treeItem (js "Implementation") [js "lib"] name in
  {| resourceUri := resourceUri item;
     description := description item;
     label := label item ++
       (if streq (Path.extname name) (js ".h")
        then js " header" else js " source");
     item_command := item_command item |}.

(** The four directories the function lists. *)
Definition facetDirs : list (list jsstring) :=
  [ [js "grc"];
    [js "include"; js "gnuradio"; moduleName];
    [js "python"; moduleName];
    [js "lib"] ].

(** [entry] is listed in a facet directory and passes one of the filter
    callbacks applied to that directory. *)
Inductive matchesBlock (entry : dirent) : Prop :=
| matches_grc (d : list dirent) :
    readdir [js "grc"] = Ok d -> In entry d ->
    isGrcFile entry = true -> matchesBlock entry
| matches_cpp (d : list dirent) :
    readdir [js "include"; js "gnuradio"; moduleName] = Ok d ->
    In entry d -> isCppFile entry = true -> matchesBlock entry
| matches_py (d : list dirent) :
    readdir [js "python"; moduleName] = Ok d -> In entry d ->
    isPyFile entry = true -> matchesBlock entry
| matches_pyTest (d : list dirent) :
    readdir [js "python"; moduleName] = Ok d -> In entry d ->
    isPyTestFile entry = true -> matchesBlock entry
| matches_cppImpl (d : list dirent) :
    readdir [js "lib"] = Ok d -> In entry d ->
    isCppImplFile entry = true -> matchesBlock entry
| matches_cppTest (d : list dirent) :
    readdir [js "lib"] = Ok d -> In entry d ->
    isCppTestFile entry = Ok true -> matchesBlock entry.

End GetBlockFilesTree.

(** The role labels of the two test sections. *)
Definition isTestLabel (lbl : jsstring) : bool :=
  streq lbl (js "Python Tests") || streq lbl (js "C++ Tests").

End WithPlatform.
End ModuleTree.

(* ================================================================== *)
(** ** [modtool.ts] *)
(* ================================================================== *)

Module InputBoxValidationSeverity.
Inductive t : Type := Info | Warning | Error.
End InputBoxValidationSeverity.

Module Modtool.

(** The object literals [validateBlockName] returns; [then_null] records
    the extra [then: null] property of the warning. *)
Record InputBoxValidationMessage : Type := {
  message : jsstring;
  severity : InputBoxValidationSeverity.t;
  then_null : bool
}.

(** [existingBlocks.has(name)] on a [Set<string>], and
    [cppBlocks.includes(name)] on a [string[]]. *)
Definition has (existingBlocks : list jsstring) (name : jsstring) : bool :=
  existsb (streq name) existingBlocks.

(** The class [[\w,\_]]: a word character, a comma or an underscore. *)
Definition inNameClass (c : char16) : bool :=
  (isWordChar c || (c =? 44) || (c =? 95))%N.

(** [/^([\w,\_]+)$/.test(name)]: one or more code units, all of the class,
    from the start of the input to its end. *)
Definition nameRegexTest (name : jsstring) : bool :=
  match name with
  | [] => false
  | _ :: _ => forallb inNameClass name
  end.

(** [null] is [None]. *)
Definition validateBlockName (existingBlocks : list jsstring)
    (value : jsstring) : option InputBoxValidationMessage :=
  let name := trim value in
  if (List.length name =? 0)%nat then
    Some {| message := js "Name cannot be empty";
            severity := InputBoxValidationSeverity.Error;
            then_null := false |}
  else if negb (nameRegexTest name) then
    Some {| message :=
              js "Name can only contain ASCII letters, digits and underscores";
            severity := InputBoxValidationSeverity.Error;
            then_null := false |}
  else if (List.length name <? 3)%nat then
    Some {| message := js "Descriptive names usually contain at least 3 symbols";
            severity := InputBoxValidationSeverity.Warning;
            then_null := true |}
  else if has existingBlocks name then
    Some {| message := js "Block with that name is already present";
            severity := InputBoxValidationSeverity.Error;
            then_null := false |}
  else None.

(** What a command has computed when it opens its confirmation dialog:
    the dialog's message, the lines of its detail (joined with
    ["\n- "] for display), the message shown after the tool succeeds, and
    the argument handed to the external tool. *)
Record Confirmation : Type := {
  warningMessage : jsstring;
  detailMessage : list jsstring;
  successMessage : jsstring;
  toolArgument : jsstring
}.

(** What [createPythonBindings] does once the block name is known. *)
Inductive BindPlan : Type :=
| NoHeadersFound                                   (* 'No C++ headers found' *)
| Bind (toolArg : jsstring) (success : jsstring).  (* [execModtool('bind', ..)] *)

(** The template that puts [block] between double quotes. *)
Definition quoted (block : jsstring) : jsstring := dquote ++ block ++ dquote.

Section WithPlatform.

Variable fs : FileSystem.
Variable E : RegExpEngine.
Variable blocks : BlockFilter.
(** [join] of Node's [path] module. *)
Variable path_join : list jsstring -> jsstring.

(** [existingBlocks.forEach(block => { if (re.test(block))
    detailMessage.push(quoted block) })], started from [detailMessage]. *)
Definition pushMatching (re : regex E) (existingBlocks : list jsstring)
    (detail : list jsstring) : list jsstring :=
  fold_left
    (fun acc block =>
       if RegExp_test E re block then acc ++ [quoted block] else acc)
    existingBlocks detail.

(** [disableBlock], from the point where [blockName] is known to the
    confirmation dialog.  In the pattern branch the comma operator
    discards [detailMessage.join(', ')], so [successMessage] is the bare
    prefix. *)
Definition disableBlock (cwd moduleName blockName : jsstring)
    : result Confirmation :=
  existingBlocks <- getAllBlocks blocks cwd moduleName ;;
  if has existingBlocks blockName then
    Ok {| warningMessage :=
            js "Are you sure you want to disable " ++ quoted blockName ++ js "?";
          detailMessage := [];
          successMessage :=
            js "Block " ++ quoted blockName ++ js " was disabled";
          toolArgument := blockName |}
  else
    match RegExp E blockName with
    | None => Err (SyntaxError blockName)
    | Some re =>
        let detail := pushMatching re existingBlocks [] in
        Ok {| warningMessage :=
                js "Are you sure you want to disable multiple blocks?";
              detailMessage :=
                js "The following blocks will be disabled:" :: detail;
              successMessage := js "Matching blocks were disabled: ";
              toolArgument := blockName |}
    end.

(** [removeBlock], from the point where [blockName] is known to the
    confirmation dialog. *)
Definition removeBlock (cwd moduleName blockName : jsstring)
    : result Confirmation :=
  existingBlocks <- getAllBlocks blocks cwd moduleName ;;
  if has existingBlocks blockName then
    items <- ModuleTree.getBlockFilesTree fs E blocks blockName
               (Uri_file fs cwd) moduleName ;;
    Ok {| warningMessage :=
            js "Are you sure you want to remove " ++ quoted blockName ++ js "?";
          detailMessage :=
            js "The following files will be deleted:" ::
            List.map (fun item =>
                   slice (Uri_fsPath fs (ModuleTree.resourceUri item))
                         (List.length cwd + 1))
                items;
          successMessage :=
            js "Block " ++ quoted blockName ++ js " was removed";
          toolArgument := blockName |}
  else
    match RegExp E blockName with
    | None => Err (SyntaxError blockName)
    | Some re =>
        let detail := pushMatching re existingBlocks [] in
        Ok {| warningMessage :=
                js "Are you sure you want to remove multiple blocks?";
              detailMessage :=
                js "The following blocks will be removed:" :: detail;
              successMessage :=
                js "Matching blocks were removed: " ++ join (js ", ") detail;
              toolArgument := blockName |}
    end.

(** [createPythonBindings], from the point where [blockName] is known to
    the call of the external tool.  In the pattern branch
    [matchingBlocks] is computed and then dropped by the comma
    operator. *)
Definition createPythonBindings (cwd moduleName blockName : jsstring)
    : result BindPlan :=
  cppBlocks <- getCppBlocks blocks cwd moduleName ;;
  if (List.length cppBlocks =? 0)%nat then Ok NoHeadersFound
  else if has cppBlocks blockName then
    let blockBindPath :=
      path_join [js "python"; moduleName; js "bindings";
                 blockName ++ js "_python.cc"] in
    Ok (Bind blockName
          (js "Python bindings written to " ++ quoted blockBindPath))
  else
    match RegExp E blockName with
    | None => Err (SyntaxError blockName)
    | Some re =>
        let matchingBlocks := filter (RegExp_test E re) cppBlocks in
        Ok (Bind blockName (js "Python bindings created for blocks: "))
    end.

End WithPlatform.

End Modtool.

(* ================================================================== *)
(** ** [blockFilter.ts], from the specification *)
(* ================================================================== *)

Module BlockFilterSpec.

(** [s] without its last [n] code units. *)
Definition dropEnd (s : jsstring) (n : nat) : jsstring :=
  firstn (List.length s - n) s.

(** Modelled from the spec: the body of [filterBlockTests] of
    [blockFilter.ts] is missing; a test file matches a reserved pattern,
    prefixed with [qa_] or, before its extension, suffixed [_test]. *)
Definition filterBlockTests (name : jsstring) : bool :=
  startsWith name (js "qa_")
  || endsWith (dropEnd name (List.length (Path.extname name))) (js "_test").

(** Modelled from the spec: the body of [filterXmlBlocks] is missing; the
    one-argument, suffix-only match of a legacy definition. *)
Definition filterXmlBlocks (name : jsstring) : bool :=
  endsWith name (js ".xml").

(** Modelled from the spec: the body of [filterGrcBlocks] is missing; a
    name ending [.block.yml], with or without the module prefix. *)
Definition filterGrcBlocks (name : jsstring) : bool :=
  endsWith name (js ".block.yml").

(** Modelled from the spec: the body of [filterCppBlocks] is missing; a
    public header [<blockId>.h] that is not the [api] header. *)
Definition filterCppBlocks (name : jsstring) : bool :=
  endsWith name (js ".h") && negb (streq name (js "api.h")).

(** Modelled from the spec: the body of [filterPyBlocks] is missing;
    [<blockId>.py], except [__init__.py] and test files. *)
Definition filterPyBlocks (name : jsstring) : bool :=
  endsWith name (js ".py") && negb (streq name (js "__init__.py"))
  && negb (filterBlockTests name).

(** Modelled from the spec: the bindings pattern [<blockId>_python.cc]. *)
Definition isBinding (name : jsstring) : bool :=
  endsWith name (js "_python.cc").

(** Modelled from the spec: the source-extension family of the library
    implementation directory; the length of the extension, if any. *)
Definition sourceExt (name : jsstring) : option nat :=
  if endsWith name (js ".cc") then Some 3%nat
  else if endsWith name (js ".cpp") || endsWith name (js ".cxx")
  then Some 4%nat else None.

(** Modelled from the spec: the body of [filterCppImplFiles] is missing; a
    source file that is neither a test nor a generated binding. *)
Definition filterCppImplFiles (name : jsstring) : bool :=
  match sourceExt name with
  | Some _ => negb (filterBlockTests name) && negb (isBinding name)
  | None => false
  end.

(** Modelled from the spec: the body of [mapCppImplFiles] is missing; the
    extension is stripped, then the [_impl] suffix when present. *)
Definition mapCppImplFiles (name : jsstring) : jsstring :=
  let stem :=
    match sourceExt name with
    | Some n => dropEnd name n
    | None => name
    end in
  if endsWith stem (js "_impl") then dropEnd stem 5 else stem.

(** Modelled from the spec: the strict form
    [<moduleName>_<blockId><suffix>] of a definition file. *)
Definition isGrcNamed (moduleName suffix name : jsstring) : bool :=
  startsWith name (moduleName ++ js "_") && endsWith name suffix
  && (List.length moduleName + 1 + List.length suffix <=? List.length name)%nat.

(** Modelled from the spec: the body of [mapGrcBlocks] is missing; both the
    module prefix and the suffix are stripped. *)
Definition mapGrcBlocks (moduleName suffix name : jsstring) : jsstring :=
  skipn (List.length moduleName + 1) (dropEnd name (List.length suffix)).

(** Modelled from the spec: the body of [mapCppBlocks] is missing; the
    header name without [.h]. *)
Definition mapCppBlocks (name : jsstring) : jsstring := dropEnd name 2.

(** Modelled from the spec: the body of [mapPyBlocks] is missing; the
    file name without [.py]. *)
Definition mapPyBlocks (name : jsstring) : jsstring := dropEnd name 3.

Section Inventory.

Variable fs : FileSystem.

(** Modelled from the spec: the names of one facet directory; a missing
    subdirectory is zero matches, not an error. *)
Definition listNames (cwd : jsstring) (pathSegments : list jsstring)
    : list jsstring :=
  match readDirectory fs (Uri_joinPath fs (Uri_file fs cwd) pathSegments) with
  | Some entries => List.map fst entries
  | None => []
  end.

(** Modelled from the spec: a project root that cannot be listed is
    reported to the caller. *)
Definition requireRoot (cwd : jsstring) : result unit :=
  match readDirectory fs (Uri_file fs cwd) with
  | Some _ => Ok tt
  | None => Err FileNotFound
  end.

(** Modelled from the spec: header-derived identifiers of
    [include/gnuradio/<moduleName>], the umbrella header named after the
    module left out. *)
Definition cppBlockNames (cwd moduleName : jsstring) : list jsstring :=
  filter (fun b => negb (streq b moduleName))
    (List.map mapCppBlocks
       (filter filterCppBlocks
          (listNames cwd [js "include"; js "gnuradio"; moduleName]))).

(** Modelled from the spec: identifiers of the definitions of [grc] with
    the given suffix. *)
Definition grcBlockNames (suffix cwd moduleName : jsstring) : list jsstring :=
  List.map (mapGrcBlocks moduleName suffix)
    (filter (isGrcNamed moduleName suffix) (listNames cwd [js "grc"])).

(** Modelled from the spec: identifiers of the Python implementations of
    [python/<moduleName>]. *)
Definition pyBlockNames (cwd moduleName : jsstring) : list jsstring :=
  List.map mapPyBlocks
    (filter filterPyBlocks (listNames cwd [js "python"; moduleName])).

(** Modelled from the spec: identifiers of the implementation sources of
    [lib]. *)
Definition cppImplNames (cwd : jsstring) : list jsstring :=
  List.map mapCppImplFiles
    (filter filterCppImplFiles (listNames cwd [js "lib"])).

(** Modelled from the spec: the body of [getCppBlocks] is missing. *)
Definition getCppBlocks (cwd moduleName : jsstring) : result (list jsstring) :=
  _ <- requireRoot cwd ;;
  Ok (nodup jsstring_eq_dec (cppBlockNames cwd moduleName)).

(** Modelled from the spec: the body of [getXmlBlocks] is missing. *)
Definition getXmlBlocks (cwd moduleName : jsstring) : result (list jsstring) :=
  _ <- requireRoot cwd ;;
  Ok (nodup jsstring_eq_dec (grcBlockNames (js ".xml") cwd moduleName)).

(** Modelled from the spec: the body of [getCppImplFiles] is missing. *)
Definition getCppImplFiles (cwd : jsstring) : result (list jsstring) :=
  _ <- requireRoot cwd ;;
  Ok (nodup jsstring_eq_dec (cppImplNames cwd)).

(** Modelled from the spec: the body of [getAllBlocks] is missing; the
    union across public headers, current definitions, legacy
    definitions, Python implementations and library implementations,
    as a set. *)
Definition getAllBlocks (cwd moduleName : jsstring) : result (list jsstring) :=
  _ <- requireRoot cwd ;;
  Ok (nodup jsstring_eq_dec
        (cppBlockNames cwd moduleName
         ++ grcBlockNames (js ".block.yml") cwd moduleName
         ++ grcBlockNames (js ".xml") cwd moduleName
         ++ pyBlockNames cwd moduleName
         ++ cppImplNames cwd)).

(** Modelled from the spec: the module [blockFilter.ts] over the file
    system [fs]. *)
Definition specBlocks : BlockFilter :=
  Build_BlockFilter
    filterGrcBlocks filterXmlBlocks filterCppBlocks filterPyBlocks
    filterBlockTests filterCppImplFiles
    getAllBlocks getCppBlocks getXmlBlocks getCppImplFiles.

End Inventory.

End BlockFilterSpec.

(* ================================================================== *)
(** ** Concrete platforms, for scenarios *)
(* ================================================================== *)

(** A file system given by a table from directory paths to their entries;
    a path is joined to its segments with [/], and a directory that is not in
    the table does not exist. *)
Module TableFS.

Definition joinPath (base : jsstring) (pathSegments : list jsstring) : jsstring :=
  base ++ List.concat (List.map (fun seg => js "/" ++ seg) pathSegments).

Fixpoint lookup (table : list (jsstring * list dirent)) (uri : jsstring)
    : option (list dirent) :=
  match table with
  | [] => None
  | (dir, entries) :: rest =>
      if streq dir uri then Some entries else lookup rest uri
  end.

Definition make (table : list (jsstring * list dirent)) : FileSystem :=
  {| Uri := jsstring;
     Uri_file := fun path => path;
     Uri_joinPath := joinPath;
     Uri_fsPath := fun uri => uri;
     readDirectory := lookup table |}.

(** [path.join] on segments that need no normalisation. *)
Definition path_join (segments : list jsstring) : jsstring :=
  join (js "/") segments.

End TableFS.

(** A regular-expression engine for the fragment of the pattern language
    made of literal characters, the wildcard [.], groups and alternation,
    which is where the pattern of [getBlockFilesTree] lies when the block
    name has no special character.  Any other special character is
    rejected by this engine. *)
Module FragmentRegExp.

Inductive re : Type :=
| Eps
| Chr (c : char16)
| Dot
| Cat (a b : re)
| Alt (a b : re).

Definition isLineTerminator (c : char16) : bool :=
  ((c =? 10) || (c =? 13) || (c =? 8232) || (c =? 8233))%N.

(** Backtracking match of [r] at the head of [s], then [k] on the rest. *)
Fixpoint matchRe (r : re) (s : jsstring) (k : jsstring -> bool) : bool :=
  match r with
  | Eps => k s
  | Chr c =>
      match s with
      | d :: s' => (d =? c)%N && k s'
      | [] => false
      end
  | Dot =>
      match s with
      | d :: s' => negb (isLineTerminator d) && k s'
      | [] => false
      end
  | Cat a b => matchRe a s (fun s' => matchRe b s' k)
  | Alt a b => matchRe a s k || matchRe b s k
  end.

Definition matcher (r : re) (s : jsstring) (i : nat) : bool :=
  (i <=? List.length s)%nat && matchRe r (skipn i s) (fun _ => true).

(** The syntax characters of a pattern other than [.], [(], [)] and [|]:
    backslash, [^], [$], [*], [+], [?], brackets and braces. *)
Definition isUnsupported (c : char16) : bool :=
  ((c =? 92) || (c =? 94) || (c =? 36) || (c =? 42) || (c =? 43) || (c =? 63)
   || (c =? 91) || (c =? 93) || (c =? 123) || (c =? 125))%N.

Definition close (alts : option re) (cur : re) : re :=
  match alts with
  | None => cur
  | Some a => Alt a cur
  end.

(** One pass over the pattern: [cur] is the sequence being read, [alts]
    the alternatives to its left, [stack] the enclosing groups. *)
Fixpoint parse (p : jsstring) (cur : re) (alts : option re)
    (stack : list (re * option re)) : option re :=
  match p with
  | [] =>
      match stack with
      | [] => Some (close alts cur)
      | _ :: _ => None
      end
  | c :: p' =>
      if (c =? 40)%N then parse p' Eps None ((cur, alts) :: stack)
      else if (c =? 41)%N then
        match stack with
        | [] => None
        | (cur0, alts0) :: stack' =>
            parse p' (Cat cur0 (close alts cur)) alts0 stack'
        end
      else if (c =? 124)%N then parse p' Eps (Some (close alts cur)) stack
      else if (c =? 46)%N then parse p' (Cat cur Dot) alts stack
      else if isUnsupported c then None
      else parse p' (Cat cur (Chr c)) alts stack
  end.

Definition engine : RegExpEngine :=
  Build_RegExpEngine (fun p => parse p Eps None []) matcher.

End FragmentRegExp.

(** The projects of the scenarios, all rooted at [/m] with the module
    [mymod]. *)
Module Scenario.

Definition cwd : jsstring := js "/m".
Definition moduleName : jsstring := js "mymod".

Definition file (name : string) : dirent := (js name, FileType_File).
Definition dir (name : string) : dirent := (js name, FileType_Directory).

(** A facet directory, when it exists. *)
Definition facet (path : string) (entries : option (list dirent))
    : list (jsstring * list dirent) :=
  match entries with
  | Some es => [(js path, es)]
  | None => []
  end.

Definition project (grc include python lib : option (list dirent))
    : list (jsstring * list dirent) :=
  [(js "/m", [dir "grc"; dir "include"; dir "python"; dir "lib"])]
  ++ facet "/m/grc" grc
  ++ facet "/m/include/gnuradio/mymod" include
  ++ facet "/m/python/mymod" python
  ++ facet "/m/lib" lib.

(** [lib] holds [foo_impl.cc] and [qa_foo.cc]; the other facets are
    empty. *)
Definition libOnly : FileSystem :=
  TableFS.make
    (project (Some []) (Some []) (Some [])
             (Some [file "foo_impl.cc"; file "qa_foo.cc"])).

(** A header [foo.h] and no [grc] directory. *)
Definition noGrc : FileSystem :=
  TableFS.make
    (project None (Some [file "foo.h"]) (Some []) (Some [])).

(** [grc] holds a current and a legacy definition. *)
Definition twoDefinitions : FileSystem :=
  TableFS.make
    (project (Some [file "mymod_foo.block.yml"; file "mymod_bar.xml"])
             (Some []) (Some []) (Some [])).

(** The public headers with the [api] and the umbrella header. *)
Definition threeHeaders : FileSystem :=
  TableFS.make
    (project (Some []) (Some [file "foo.h"; file "api.h"; file "mymod.h"])
             (Some []) (Some [])).

(** The public-header directory holds a subdirectory named [foo.h]. *)
Definition headerIsDirectory : FileSystem :=
  TableFS.make
    (project (Some []) (Some [dir "foo.h"]) (Some []) (Some [])).

(** Two blocks, [foo] and [foobar], with a file in every facet. *)
Definition prefixedGrc : list dirent :=
  [file "mymod_foo.block.yml"; file "mymod_foobar.block.yml"].
Definition prefixedInclude : list dirent :=
  [file "foo.h"; file "foobar.h"; file "api.h"].
Definition prefixedPython : list dirent :=
  [file "__init__.py"; file "foo.py"; file "foobar.py";
   file "qa_foo.py"; file "qa_foobar.py"].
Definition prefixedLib : list dirent :=
  [file "foo_impl.cc"; file "foo_impl.h"; file "foobar_impl.cc";
   file "qa_foo.cc"; file "qa_foobar.cc"].

Definition prefixed : FileSystem :=
  TableFS.make
    (project (Some prefixedGrc) (Some prefixedInclude)
             (Some prefixedPython) (Some prefixedLib)).

(** The correlation of [foo] in that project, evaluated. *)
Definition fooItems : list (ModuleTree.TreeItem (Uri prefixed)) :=
  Eval vm_compute in
    match ModuleTree.getBlockFilesTree prefixed FragmentRegExp.engine
            (BlockFilterSpec.specBlocks prefixed) (js "foo")
            (Uri_file prefixed cwd) moduleName with
    | Ok items => items
    | Err _ => []
    end.

(** A pattern parsed by the fragment engine, [Eps] if it is rejected. *)
Definition parsed (pattern : string) : FragmentRegExp.re :=
  match FragmentRegExp.parse (js pattern) FragmentRegExp.Eps None [] with
  | Some r => r
  | None => FragmentRegExp.Eps
  end.

(** The test pattern of [getBlockFilesTree] for the block [foo]. *)
Definition fooTestRegex : FragmentRegExp.re :=
  Eval vm_compute in parsed "foo.(cc|cpp|cxx)".

(** A fragment typed into the picker that is no block name. *)
Definition obaRegex : FragmentRegExp.re :=
  Eval vm_compute in parsed "oba".

End Scenario.

(* ================================================================== *)
(** ** [moduleTree.ts]: the tree data provider *)
(* ================================================================== *)

Module TreeProvider.

(** [vscode.TreeItemCollapsibleState] *)
Inductive TreeItemCollapsibleState : Type := StateNone | Collapsed | Expanded.

(** The item [getChildren] builds for a block:
    [new TreeItem(name, TreeItemCollapsibleState.Collapsed)] with its
    [contextValue]. *)
Record BlockItem : Type := {
  label : jsstring;
  collapsibleState : TreeItemCollapsibleState;
  contextValue : jsstring
}.

(** What [getChildren] resolves to.  [Leaf] is the branch of an element
    without a label: its state is set to [None] and [[]] is returned. *)
Inductive Children (U : Type) : Type :=
| Leaf
| Files (items : list (ModuleTree.TreeItem U))
| Blocks (items : list BlockItem).
Arguments Leaf {U}.
Arguments Blocks {U} items.

Section WithPlatform.

Variable fs : FileSystem.
Variable E : RegExpEngine.
Variable blocks : BlockFilter.
Variables cwd moduleName : jsstring.

(** The callback of [Array.from(...).map] in [getChildren]. *)
Definition blockItem (cppBlocks xmlBlocks : list jsstring) (name : jsstring)
    : BlockItem :=
  let contextValue0 := js "block" in
  let contextValue1 :=
    if Modtool.has cppBlocks name then contextValue0 ++ js ".cpp"
    else contextValue0 in
  let contextValue2 :=
    if Modtool.has xmlBlocks name then contextValue1 ++ js ".xml"
    else contextValue1 in
  {| label := name;
     collapsibleState := Collapsed;
     contextValue := contextValue2 |}.

(** [getChildren(element)]: [element] is [None] for the root; otherwise it
    carries the element's label, [None] when the label is undefined. *)
Definition getChildren (element : option (option jsstring))
    : result (Children (Uri fs)) :=
  match element with
  | Some elementLabel =>
      match elementLabel with
      | None => Ok Leaf
      | Some [] => Ok Leaf
      | Some lbl =>
          items <- ModuleTree.getBlockFilesTree fs E blocks lbl
                     (Uri_file fs cwd) moduleName ;;
          Ok (Files items)
      end
  | None =>
      cppBlocks <- getCppBlocks blocks cwd moduleName ;;
      xmlBlocks <- getXmlBlocks blocks cwd moduleName ;;
      allBlocks <- getAllBlocks blocks cwd moduleName ;;
      Ok (Blocks (List.map (blockItem cppBlocks xmlBlocks) allBlocks))
  end.

End WithPlatform.

End TreeProvider.

(* ================================================================== *)
(** ** [modtool.ts]: the other commands *)
(* ================================================================== *)

(** The [validateInput] callback of [createModule]. *)
Module CreateModule.

(** The class [[\w,\_,\-,\.]]: a word character, a comma, an underscore, a
    hyphen or a dot. *)
Definition inNameClass (c : char16) : bool :=
  (isWordChar c || (c =? 44) || (c =? 95) || (c =? 45) || (c =? 46))%N.

(** [/^([\w,\_,\-,\.]+)$/.test(name)] *)
Definition nameRegexTest (name : jsstring) : bool :=
  match name with
  | [] => false
  | _ :: _ => forallb inNameClass name
  end.

Definition validateInput (value : jsstring)
    : option Modtool.InputBoxValidationMessage :=
  let name := trim value in
  if (List.length name =? 0)%nat then
    Some {| Modtool.message := js "Name cannot be empty";
            Modtool.severity := InputBoxValidationSeverity.Error;
            Modtool.then_null := false |}
  else if negb (nameRegexTest name) then
    Some {| Modtool.message :=
              js "Name can only contain ASCII letters, digits, and the characters . - _";
            Modtool.severity := InputBoxValidationSeverity.Error;
            Modtool.then_null := false |}
  else if (List.length name <? 3)%nat then
    Some {| Modtool.message :=
              js "Descriptive names usually contain at least 3 symbols";
            Modtool.severity := InputBoxValidationSeverity.Warning;
            Modtool.then_null := true |}
  else None.

End CreateModule.

(** [vscode.QuickPickItem] and the handlers of [quickPickWithRegex]. *)
Module QuickPick.

(** [iconPath] is a [Uri] or a [ThemeIcon]. *)
Inductive IconPath (U : Type) : Type :=
| IconUri (uri : U)
| ThemeIcon (id : jsstring).
Arguments ThemeIcon {U} id.

Record QuickPickItem (U : Type) : Type := {
  label : jsstring;
  description : option jsstring;
  detail : option jsstring;
  iconPath : option (IconPath U)
}.

Section RegexPicker.

Variable U : Type.
(** The [items] argument of [quickPickWithRegex]. *)
Variable items : list jsstring.

(** [{ label }] *)
Definition plainItem (lbl : jsstring) : QuickPickItem U :=
  {| label := lbl; description := None; detail := None; iconPath := None |}.

(** [regexPick] for the typed value. *)
Definition regexPick (value : jsstring) : QuickPickItem U :=
  {| label := value;
     description := Some (js "Regular expression");
     detail := None;
     iconPath := Some (ThemeIcon (js "filter")) |}.

(** [blockPick.items] when the picker is shown. *)
Definition initialItems : list (QuickPickItem U) := List.map plainItem items.

(** The [onDidChangeValue] handler: [current] is [blockPick.items] before
    the event, [value] is [blockPick.value]; the result is [blockPick.items]
    after it. *)
Definition onDidChangeValue (current : list (QuickPickItem U))
    (value : jsstring) : list (QuickPickItem U) :=
  if negb (Modtool.has items value) then
    let picks := List.map plainItem items in
    if Modtool.has items value then picks ++ [regexPick value]
    else regexPick value :: picks
  else current.

(** [blockPick.items] after the user has typed the values in turn. *)
Definition itemsAfter (values : list jsstring) : list (QuickPickItem U) :=
  fold_left onDidChangeValue values initialItems.

(** The [onDidAccept] handler on [selection = blockPick.selectedItems[0]]:
    the string the promise resolves to. *)
Definition onDidAccept (selection : QuickPickItem U) : jsstring :=
  match description selection with
  | Some d =>
      if streq d (js "Regular expression")
      then js ".*" ++ label selection ++ js ".*"
      else label selection
  | None => label selection
  end.

End RegexPicker.

End QuickPick.

(** The multi-step input of [createBlock]. *)
Module CreateBlock.

Section WithPlatform.

Variable fs : FileSystem.
(** [extRoot], the root of the extension, where the icons are. *)
Variable extRoot : Uri fs.

Definition Item : Type := QuickPick.QuickPickItem (Uri fs).

Record State : Type := {
  title : jsstring;
  step : option nat;
  totalSteps : nat;
  copyright : option jsstring;
  name : option jsstring;
  blockType : option Item;
  language : option Item;
  addCppTest : option bool;
  addPythonTest : option bool;
  finished : bool
}.

(** The step a step function hands over to. *)
Inductive Step : Type :=
| InputName | PickBlockType | PickLanguage | PickTests.

(** The outcome of a step: the state it leaves and the step it returns, or
    the [TypeError] of reading a property of [undefined]. *)
Inductive StepResult : Type :=
| Continue (st : State) (next : option Step)
| TypeError.

Definition typeItem (lbl descr det : string) : Item :=
  {| QuickPick.label := js lbl;
     QuickPick.description := Some (js descr);
     QuickPick.detail := Some (js det);
     QuickPick.iconPath := None |}.

(** [{ label: 'noblock', detail: 'C++ or Python class' }] *)
Definition noblockItem : Item :=
  {| QuickPick.label := js "noblock";
     QuickPick.description := None;
     QuickPick.detail := Some (js "C++ or Python class");
     QuickPick.iconPath := None |}.

(** The items of [pickBlockType]. *)
Definition blockTypeItems : list Item :=
  [ typeItem "general" "gr::block" "General-purpose block type";
    typeItem "sync" "gr::sync_block"
      "Block with synchronous 1:1 input-to-output";
    typeItem "decimator" "gr::sync_decimator"
      "Block with synchronous N:1 input-to-output";
    typeItem "interpolator" "gr::sync_interpolator"
      "Block with synchronous N:1 input-to-output";
    typeItem "source" "gr::sync_block"
      "Source block with outputs, but no stream inputs";
    typeItem "sink" "gr::sync_block"
      "Sink block with inputs, but no stream outputs";
    typeItem "tagged_stream" "gr::tagged_stream_block"
      "Block with input-to-output flow controlled by input stream tags (e.g. packetized streams)";
    typeItem "hier" "gr::hier_block2"
      "Hierarchical container block for other blocks; usually can be described by a flowgraph";
    noblockItem ].

Definition pythonItem : Item :=
  {| QuickPick.label := js "Python";
     QuickPick.description := Some (js "python");
     QuickPick.detail := None;
     QuickPick.iconPath :=
       Some (QuickPick.IconUri
               (Uri_joinPath fs extRoot [js "media"; js "file_type_python.svg"])) |}.

Definition cppItem : Item :=
  {| QuickPick.label := js "C++";
     QuickPick.description := Some (js "cpp");
     QuickPick.detail := None;
     QuickPick.iconPath :=
       Some (QuickPick.IconUri
               (Uri_joinPath fs extRoot [js "media"; js "file_type_cpp3.svg"])) |}.

(** The items of [pickLanguage]. *)
Definition languageItems : list Item := [pythonItem; cppItem].

(** [a === lit] where [a] may be [undefined]. *)
Definition isString (a : option jsstring) (lit : string) : bool :=
  match a with
  | Some s => streq s (js lit)
  | None => false
  end.

(** [state.blockType?.label] and [state.language?.description] *)
Definition blockTypeLabel (st : State) : option jsstring :=
  option_map (@QuickPick.label _) (blockType st).

Definition languageDescription (st : State) : option jsstring :=
  match language st with
  | Some item => QuickPick.description item
  | None => None
  end.

(** The initial state; [gitUserName] is the output of
    [git config user.name], [None] when [execSync] throws. *)
Definition initialState (gitUserName : option jsstring) : State :=
  {| title := js "GNURadio: Create Block";
     step := None;
     totalSteps := 5;
     copyright := gitUserName;
     name := None;
     blockType := None;
     language := None;
     addCppTest := None;
     addPythonTest := None;
     finished := false |}.

(** [inputAuthor], on the text the input box resolves to. *)
Definition inputAuthor (st : State) (answer : jsstring) : StepResult :=
  Continue
    {| title := title st; step := step st; totalSteps := totalSteps st;
       copyright := Some answer;
       name := name st; blockType := blockType st; language := language st;
       addCppTest := addCppTest st; addPythonTest := addPythonTest st;
       finished := finished st |}
    (Some InputName).

(** [inputName] *)
Definition inputName (st : State) (answer : jsstring) : StepResult :=
  Continue
    {| title := title st; step := step st; totalSteps := totalSteps st;
       copyright := copyright st;
       name := Some answer;
       blockType := blockType st; language := language st;
       addCppTest := addCppTest st; addPythonTest := addPythonTest st;
       finished := finished st |}
    (Some PickBlockType).

(** [pickBlockType], on the array the quick pick resolves to. *)
Definition pickBlockType (st : State) (pick : list Item) : StepResult :=
  match pick with
  | [] => TypeError
  | item :: _ =>
      Continue
        {| title := title st; step := step st;
           totalSteps :=
             if streq (QuickPick.label item) (js "noblock") then 4 else 5;
           copyright := copyright st; name := name st;
           blockType := Some item;
           language := language st;
           addCppTest := addCppTest st; addPythonTest := addPythonTest st;
           finished := finished st |}
        (Some PickLanguage)
  end.

(** [pickLanguage] *)
Definition pickLanguage (st : State) (pick : list Item) : StepResult :=
  let st1 :=
    {| title := title st; step := step st; totalSteps := totalSteps st;
       copyright := copyright st; name := name st; blockType := blockType st;
       language := hd_error pick;
       addCppTest := addCppTest st; addPythonTest := addPythonTest st;
       finished := finished st |} in
  if isString (blockTypeLabel st1) "noblock"
     && isString (languageDescription st1) "python"
  then
    Continue
      {| title := title st1; step := step st1; totalSteps := totalSteps st1;
         copyright := copyright st1; name := name st1;
         blockType := blockType st1; language := language st1;
         addCppTest := addCppTest st1; addPythonTest := addPythonTest st1;
         finished := true |}
      None
  else
    Continue
      {| title := title st1; step := step st1; totalSteps := 5;
         copyright := copyright st1; name := name st1;
         blockType := blockType st1; language := language st1;
         addCppTest := addCppTest st1; addPythonTest := addPythonTest st1;
         finished := finished st1 |}
      (Some PickTests).

(** [testLanguages] of [pickTests]. *)
Definition testLanguages (st : State) : list Item :=
  (if negb (isString (blockTypeLabel st) "noblock") then [pythonItem] else [])
  ++ (if isString (languageDescription st) "cpp" then [cppItem] else []).

(** The body of the [for] loop of [pickTests]. *)
Definition markPick (st : State) (pick : Item) : State :=
  if isString (QuickPick.description pick) "cpp" then
    {| title := title st; step := step st; totalSteps := totalSteps st;
       copyright := copyright st; name := name st; blockType := blockType st;
       language := language st;
       addCppTest := Some true;
       addPythonTest := addPythonTest st; finished := finished st |}
  else if isString (QuickPick.description pick) "python" then
    {| title := title st; step := step st; totalSteps := totalSteps st;
       copyright := copyright st; name := name st; blockType := blockType st;
       language := language st; addCppTest := addCppTest st;
       addPythonTest := Some true;
       finished := finished st |}
  else st.

(** Whether some pick has the description ['cpp'], or ['python']. *)
Definition picksCpp (picks : list Item) : bool :=
  existsb (fun p => isString (QuickPick.description p) "cpp") picks.

Definition picksPython (picks : list Item) : bool :=
  existsb (fun p => isString (QuickPick.description p) "python") picks.

(** [pickTests], on the picks of the multi-selection. *)
Definition pickTests (st : State) (picks : list Item) : StepResult :=
  let st1 := fold_left markPick picks st in
  Continue
    {| title := title st1; step := step st1; totalSteps := totalSteps st1;
       copyright := copyright st1; name := name st1; blockType := blockType st1;
       language := language st1; addCppTest := addCppTest st1;
       addPythonTest := addPythonTest st1;
       finished := true |}
    None.

(** The arguments handed to [execModtool('add', ...)]; [None] where the
    source would read a field that is unset. *)
Definition addArguments (st : State) : option (list jsstring) :=
  match name st, blockType st, languageDescription st with
  | Some n, Some ty, Some lang =>
      Some ([n; js "--block-type"; QuickPick.label ty; js "--lang"; lang]
            ++ (match copyright st with
                | Some (c :: cs) => [js "--copyright"; c :: cs]
                | _ => []
                end)
            ++ (match addCppTest st with
                | Some true => [js "--add-cpp-qa"]
                | _ => []
                end)
            ++ (match addPythonTest st with
                | Some true => [js "--add-python-qa"]
                | _ => []
                end))
  | _, _, _ => None
  end.

(** The steps in the order each one hands over to the next, when every
    prompt is answered and none is cancelled or revisited: the text of the
    two input boxes, then the picks of the three quick picks. *)
Definition runForward (gitUserName : option jsstring)
    (author blockName : jsstring) (typePick langPick testPicks : list Item)
    : StepResult :=
  match inputAuthor (initialState gitUserName) author with
  | Continue st1 (Some InputName) =>
      match inputName st1 blockName with
      | Continue st2 (Some PickBlockType) =>
          match pickBlockType st2 typePick with
          | Continue st3 (Some PickLanguage) =>
              match pickLanguage st3 langPick with
              | Continue st4 (Some PickTests) => pickTests st4 testPicks
              | r => r
              end
          | r => r
          end
      | r => r
      end
  | r => r
  end.

(** What [createBlock] does after the steps: nothing when the input did not
    finish, otherwise the call of the tool and, for its success, the
    segments of the path of the file to open. *)
Inductive Outcome : Type :=
| NotFinished
| Add (args : list jsstring) (blockPath : list jsstring)
| Undefined.  (* an unset field is read or passed on *)

Definition afterSteps (cwd moduleName : jsstring) (r : StepResult) : Outcome :=
  match r with
  | TypeError => Undefined
  | Continue st _ =>
      if negb (finished st) then NotFinished
      else
        match addArguments st, name st with
        | Some args, Some n =>
            Add args
              (if isString (languageDescription st) "python"
               then [cwd; js "python"; moduleName; n ++ js ".py"]
               else [cwd; js "include"; js "gnuradio"; moduleName; n ++ js ".h"])
        | _, _ => Undefined
        end
  end.

(** [createBlock] on the answers of a user who goes through the steps. *)
Definition createBlock (cwd moduleName : jsstring)
    (gitUserName : option jsstring) (author blockName : jsstring)
    (typePick langPick testPicks : list Item) : Outcome :=
  afterSteps cwd moduleName
    (runForward gitUserName author blockName typePick langPick testPicks).

End WithPlatform.

End CreateBlock.

(** The failure of the external tool, [PythonShellError] of [./python] as
    the commands read it, and the texts they make of it. *)
Module ShellErrors.

Record PythonShellError : Type := {
  message : jsstring;
  log : option jsstring
}.

(** [os.EOL] on POSIX. *)
Definition EOL : jsstring := [10%N].

(** [s.split(EOL)] *)
Fixpoint splitLines (s : jsstring) : list jsstring :=
  match s with
  | [] => [[]]
  | c :: s' =>
      if (c =? 10)%N then [] :: splitLines s'
      else
        match splitLines s' with
        | line :: lines => (c :: line) :: lines
        | [] => [[c]]
        end
  end.

(** [os.EOL] on Windows. *)
Definition EOL_win32 : jsstring := [13%N; 10%N].

(** The search of [s.split(separator)] through the rest [s] of the string:
    where the separator starts, the piece read so far ([piece], last code
    unit first) is closed and the search goes on behind the separator;
    elsewhere the code unit joins the piece.  [fuel] bounds the steps by the
    length of the rest. *)
Fixpoint splitFrom (fuel : nat) (separator piece s : jsstring)
    : list jsstring :=
  match s, fuel with
  | [], _ => [rev piece]
  | _, O => [rev piece ++ s]
  | c :: s', S fuel' =>
      if startsWith s separator
      then rev piece
           :: splitFrom fuel' separator [] (skipn (List.length separator) s)
      else splitFrom fuel' separator (c :: piece) s'
  end.

(** [s.split(separator)] for a string [separator]: the code units of [s]
    when the separator is empty. *)
Definition split (s separator : jsstring) : list jsstring :=
  match separator with
  | [] => List.map (fun c => [c]) s
  | _ :: _ => splitFrom (List.length s) separator [] s
  end.

(** [lines.pop()], [None] for [undefined]. *)
Definition pop (lines : list jsstring) : option jsstring :=
  match rev lines with
  | line :: _ => Some line
  | [] => None
  end.

(** [s.includes(p)] *)
Definition includes (s p : jsstring) : bool :=
  existsb (fun i => startsWith (skipn i s) p) (seq 0 (S (List.length s))).

(** [result.log ?? result.message], the message of the [ModtoolError] of
    [createBlock], [createPythonBindings], [makeYamlFromImpl],
    [disableBlock], [removeBlock] and [renameBlock]. *)
Definition logOrMessage (e : PythonShellError) : jsstring :=
  match log e with
  | Some l => l
  | None => message e
  end.

(** [result.log?.trimEnd().split(EOL).pop() ?? result.message], the message
    of the [ModtoolError] of [convertXmlToYaml], on the host whose [os.EOL]
    is [eol]. *)
Definition lastLogLine (eol : jsstring) (e : PythonShellError) : jsstring :=
  match log e with
  | Some l =>
      match pop (split (trimEnd l) eol) with
      | Some line => line
      | None => message e
      end
  | None => message e
  end.

(** The message of the [ModtoolError] of [getModuleInfo]. *)
Definition moduleInfoError (e : PythonShellError) : jsstring :=
  if match log e with
     | Some l => includes l (js "ImportError")
     | None => false
     end
  then js "Python modules for GNURadio not found. "
       ++ js "Please check if GNURadio is installed on your system."
  else message e.


End ShellErrors.

(** [renameBlock], from the point where [blockName] is known to the
    confirmation dialog. *)
Module RenameBlock.

Record Confirmation : Type := {
  warningMessage : jsstring;
  detailMessage : list jsstring;
  successMessage : jsstring;
  toolArguments : list jsstring
}.

Section WithPlatform.

Variable fs : FileSystem.
Variable E : RegExpEngine.
Variable blocks : BlockFilter.

(** [newBlockName] is what the input box resolves to, [None] for
    [undefined]; the result is [None] where the command returns without a
    dialog. *)
Definition renameBlock (cwd moduleName blockName : jsstring)
    (newBlockName : option jsstring) : result (option Confirmation) :=
  existingBlocks <- getAllBlocks blocks cwd moduleName ;;
  match newBlockName with
  | None => Ok None
  | Some [] => Ok None
  | Some newName =>
      items <- ModuleTree.getBlockFilesTree fs E blocks blockName
                 (Uri_file fs cwd) moduleName ;;
      Ok (Some
            {| warningMessage :=
                 js "Are you sure you want to rename " ++ Modtool.quoted blockName
                 ++ js " to " ++ Modtool.quoted newName ++ js "?";
               detailMessage :=
                 js "The following files will be renamed:" ::
                 List.map (fun item =>
                        slice (Uri_fsPath fs (ModuleTree.resourceUri item))
                              (List.length cwd + 1))
                     items;
               successMessage :=
                 js "Block " ++ Modtool.quoted blockName ++ js " was renamed to "
                 ++ Modtool.quoted newName;
               toolArguments := [blockName; newName] |})
  end.

End WithPlatform.

End RenameBlock.

(** More inputs for the scenarios. *)
Module MoreScenarios.

(** The correlation of [bar], a suffix of [foobar], in the project with the
    blocks [foo] and [foobar], evaluated. *)
Definition barItems : list (ModuleTree.TreeItem (Uri Scenario.prefixed)) :=
  Eval vm_compute in
    match ModuleTree.getBlockFilesTree Scenario.prefixed FragmentRegExp.engine
            (BlockFilterSpec.specBlocks Scenario.prefixed) (js "bar")
            (Uri_file Scenario.prefixed Scenario.cwd) Scenario.moduleName with
    | Ok items => items
    | Err _ => []
    end.

(** The root of the extension. *)
Definition extRoot : Uri Scenario.prefixed := js "/ext".

(** The state of [createBlock] after a [noblock] was picked. *)
Definition noblockPicked : CreateBlock.State Scenario.prefixed :=
  {| CreateBlock.title := js "GNURadio: Create Block";
     CreateBlock.step := None;
     CreateBlock.totalSteps := 4;
     CreateBlock.copyright := Some (js "A. Author");
     CreateBlock.name := Some (js "helper");
     CreateBlock.blockType := Some (CreateBlock.noblockItem Scenario.prefixed);
     CreateBlock.language := None;
     CreateBlock.addCppTest := None;
     CreateBlock.addPythonTest := None;
     CreateBlock.finished := false |}.

(** [lib] holds [foo_impl.cc] and [qa_foo.cc]; [python/mymod] holds the
    package file and the [bindings] directory. *)
Definition libWithBindings : FileSystem :=
  TableFS.make
    (Scenario.project (Some []) (Some [])
       (Some [Scenario.file "__init__.py"; Scenario.dir "bindings"])
       (Some [Scenario.file "foo_impl.cc"; Scenario.file "qa_foo.cc"])).

(** [lib] holds [foo_impl.cc] and [qa_foo.cc] and is the only directory of
    the project. *)
Definition libAlone : FileSystem :=
  TableFS.make
    [(js "/m", [Scenario.dir "lib"]);
     (js "/m/lib", [Scenario.file "foo_impl.cc"; Scenario.file "qa_foo.cc"])].

(** A failure of the tool on Windows, its log in two lines. *)
Definition crlfFailure : ShellErrors.PythonShellError :=
  {| ShellErrors.message := js "process exited with code 1";
     ShellErrors.log :=
       Some (js "Traceback (most recent call last):" ++ ShellErrors.EOL_win32
             ++ js "ModToolException: no block found"
             ++ ShellErrors.EOL_win32) |}.

End MoreScenarios.

(* ================================================================== *)
(** * Properties *)
(* ================================================================== *)

(** ** The definitions on small inputs *)

Example extname_h : Path.extname (js "foo_impl.h") = js ".h".
Proof. reflexivity. Qed.

Example extname_cc : Path.extname (js "qa_foo.cc") = js ".cc".
Proof. reflexivity. Qed.

Example extname_last_dot : Path.extname (js "mymod_foo.block.yml") = js ".yml".
Proof. reflexivity. Qed.

Example extname_dotfile : Path.extname (js ".h") = [].
Proof. reflexivity. Qed.

Example extname_dotfile_ext : Path.extname (js ".index.md") = js ".md".
Proof. reflexivity. Qed.

Example extname_trailing_dot : Path.extname (js "index.") = js ".".
Proof. reflexivity. Qed.

Example extname_none : Path.extname (js "Makefile") = [].
Proof. reflexivity. Qed.

Example extname_dotdot : Path.extname (js "..") = [].
Proof. reflexivity. Qed.

Example extname_last_component : Path.extname (js "lib.d/foo") = [].
Proof. reflexivity. Qed.

Example trim_both_ends : trim (js "  ab  ") = js "ab".
Proof. reflexivity. Qed.

Example trim_keeps_inner : trim (js " a b ") = js "a b".
Proof. reflexivity. Qed.

Example endsWith_py : endsWith (js "qa_foo.py") (js "foo.py") = true.
Proof. reflexivity. Qed.

Example endsWith_longer : endsWith (js "qa_foobar.py") (js "foo.py") = false.
Proof. reflexivity. Qed.

Example fragment_search :
  RegExp_test FragmentRegExp.engine Scenario.fooTestRegex (js "qa_foo.cc") = true
  /\ RegExp_test FragmentRegExp.engine Scenario.fooTestRegex (js "qa_foobar.cc")
     = false
  /\ RegExp_test FragmentRegExp.engine Scenario.fooTestRegex (js "qa_fooXcxx")
     = true.
Proof. repeat split; vm_compute; reflexivity. Qed.

Example fragment_unbalanced :
  RegExp FragmentRegExp.engine (js "(.(cc|cpp|cxx)") = None.
Proof. reflexivity. Qed.

(** The scenarios the specification gives for the validation. *)
Example validate_empty :
  option_map Modtool.message (Modtool.validateBlockName [js "foo"] (js ""))
  = Some (js "Name cannot be empty").
Proof. vm_compute. reflexivity. Qed.

Example validate_short :
  option_map Modtool.severity (Modtool.validateBlockName [js "foo"] (js "ab"))
  = Some InputBoxValidationSeverity.Warning.
Proof. vm_compute. reflexivity. Qed.

Example validate_existing :
  option_map Modtool.message (Modtool.validateBlockName [js "foo"] (js "foo"))
  = Some (js "Block with that name is already present").
Proof. vm_compute. reflexivity. Qed.

Example validate_fresh :
  Modtool.validateBlockName [js "foo"] (js "foo_2") = None.
Proof. vm_compute. reflexivity. Qed.

Example validate_dash :
  option_map Modtool.message (Modtool.validateBlockName [js "foo"] (js "a-b"))
  = Some (js "Name can only contain ASCII letters, digits and underscores").
Proof. vm_compute. reflexivity. Qed.

(** The scenarios the specification gives for the inventory, on the
    inventory written from it. *)
Example inventory_two_definitions :
  BlockFilterSpec.getAllBlocks Scenario.twoDefinitions Scenario.cwd
    Scenario.moduleName = Ok [js "foo"; js "bar"]
  /\ BlockFilterSpec.getXmlBlocks Scenario.twoDefinitions Scenario.cwd
       Scenario.moduleName = Ok [js "bar"].
Proof. split; vm_compute; reflexivity. Qed.

Example inventory_three_headers :
  BlockFilterSpec.getCppBlocks Scenario.threeHeaders Scenario.cwd
    Scenario.moduleName = Ok [js "foo"].
Proof. vm_compute. reflexivity. Qed.

Example inventory_prefixed :
  BlockFilterSpec.getAllBlocks Scenario.prefixed Scenario.cwd
    Scenario.moduleName = Ok [js "foo"; js "foobar"].
Proof. vm_compute. reflexivity. Qed.

(** ** Strings *)

Lemma streq_true (a b : jsstring) : streq a b = true <-> a = b.
Proof.
  unfold streq. destruct (jsstring_eq_dec a b); split; congruence.
Qed.

Lemma streq_refl (a : jsstring) : streq a a = true.
Proof. now apply streq_true. Qed.

Lemma startsWith_app (p t : jsstring) : startsWith (p ++ t) p = true.
Proof.
  induction p as [|c p IH]; simpl; [reflexivity|].
  now rewrite N.eqb_refl.
Qed.

Lemma startsWith_inv (s p : jsstring) :
  startsWith s p = true -> exists t, s = p ++ t.
Proof.
  revert s. induction p as [|c p IH]; intros s H.
  - now exists s.
  - destruct s as [|d s]; simpl in H; [discriminate|].
    apply andb_true_iff in H as [Hc Hs].
    apply N.eqb_eq in Hc. subst d.
    destruct (IH _ Hs) as [t ->]. now exists t.
Qed.

Lemma startsWith_iff (s p : jsstring) :
  startsWith s p = true <-> exists t, s = p ++ t.
Proof.
  split; [apply startsWith_inv|].
  intros [t ->]. apply startsWith_app.
Qed.

(** A prefix of a prefix is a prefix. *)
Lemma startsWith_trans (s b a : jsstring) :
  startsWith s b = true -> startsWith b a = true -> startsWith s a = true.
Proof.
  intros Hb Ha.
  apply startsWith_inv in Hb as [t ->].
  apply startsWith_inv in Ha as [u ->].
  rewrite <- app_assoc. apply startsWith_app.
Qed.

(** The same below a common head, as in [`${moduleName}_${block}`]. *)
Lemma startsWith_trans_under (s h b a : jsstring) :
  startsWith s (h ++ b) = true -> startsWith b a = true ->
  startsWith s (h ++ a) = true.
Proof.
  intros Hb Ha.
  apply startsWith_inv in Hb as [t ->].
  apply startsWith_inv in Ha as [u ->].
  rewrite <- !app_assoc, app_assoc. apply startsWith_app.
Qed.

Lemma startsWith_firstn (s : jsstring) (n : nat) :
  startsWith s (firstn n s) = true.
Proof.
  apply startsWith_iff. exists (skipn n s). symmetry. apply firstn_skipn.
Qed.

Lemma has_In (S : list jsstring) (x : jsstring) :
  Modtool.has S x = true <-> In x S.
Proof.
  unfold Modtool.has. rewrite existsb_exists. split.
  - intros [y [Hy Heq]]. apply streq_true in Heq. now subst.
  - intros H. exists x. split; [assumption|apply streq_refl].
Qed.

Lemma has_false (S : list jsstring) (x : jsstring) :
  Modtool.has S x = false <-> ~ In x S.
Proof.
  rewrite <- has_In. destruct (Modtool.has S x); split; congruence.
Qed.

(** ** [validateBlockName] *)

Lemma isWordChar_inNameClass (c : char16) :
  isWordChar c = true -> Modtool.inNameClass c = true.
Proof.
  unfold Modtool.inNameClass. intros ->. reflexivity.
Qed.

Lemma nameRegexTest_word (name : jsstring) :
  name <> [] -> forallb isWordChar name = true ->
  Modtool.nameRegexTest name = true.
Proof.
  intros Hne Hall. destruct name as [|c name]; [congruence|].
  unfold Modtool.nameRegexTest.
  rewrite forallb_forall in *. intros x Hx.
  apply isWordChar_inNameClass. now apply Hall.
Qed.

(** The verdicts of [validateBlockName], in the order of its tests. *)
Lemma validateBlockName_cases (S : list jsstring) (v : jsstring) :
  let name := trim v in
  (name = [] ->
     option_map Modtool.message (Modtool.validateBlockName S v)
     = Some (js "Name cannot be empty"))
  /\ (name <> [] -> Modtool.nameRegexTest name = false ->
      option_map Modtool.message (Modtool.validateBlockName S v)
      = Some (js "Name can only contain ASCII letters, digits and underscores"))
  /\ (Modtool.nameRegexTest name = true -> (List.length name < 3)%nat ->
      option_map Modtool.severity (Modtool.validateBlockName S v)
      = Some InputBoxValidationSeverity.Warning)
  /\ (Modtool.nameRegexTest name = true -> (3 <= List.length name)%nat ->
      In name S ->
      option_map Modtool.message (Modtool.validateBlockName S v)
      = Some (js "Block with that name is already present"))
  /\ (Modtool.nameRegexTest name = true -> (3 <= List.length name)%nat ->
      ~ In name S ->
      Modtool.validateBlockName S v = None).
Proof.
  intros name. unfold Modtool.validateBlockName. fold name.
  repeat split.
  - intros ->. reflexivity.
  - intros Hne Hre. destruct name; [congruence|]. simpl List.length.
    simpl Nat.eqb. cbv iota. now rewrite Hre.
  - intros Hre Hlen. destruct name as [|c n]; [discriminate|].
    simpl Nat.eqb. cbv iota. rewrite Hre. simpl negb. cbv iota.
    apply Nat.ltb_lt in Hlen. now rewrite Hlen.
  - intros Hre Hlen Hin. destruct name as [|c n] eqn:En; [simpl in Hlen; lia|].
    simpl Nat.eqb. cbv iota. rewrite Hre. simpl negb. cbv iota.
    assert (Hl : (List.length (c :: n) <? 3)%nat = false)
      by (apply Nat.ltb_ge; exact Hlen).
    rewrite Hl. apply has_In in Hin. now rewrite Hin.
  - intros Hre Hlen Hin. destruct name as [|c n] eqn:En; [simpl in Hlen; lia|].
    simpl Nat.eqb. cbv iota. rewrite Hre. simpl negb. cbv iota.
    assert (Hl : (List.length (c :: n) <? 3)%nat = false)
      by (apply Nat.ltb_ge; exact Hlen).
    rewrite Hl. apply has_false in Hin. now rewrite Hin.
Qed.

(** C4: [validateBlockName] does not reject every name with a character
    other than an ASCII letter, a digit or an underscore: the class
    [[\w,\_]] of its pattern also holds the comma, so the name [a,b] passes
    all four tests and gets the valid verdict [null], against the message
    of the test it passed ("Name can only contain ASCII letters, digits and
    underscores"). *)
Theorem validateBlockName_accepts_comma :
  Modtool.validateBlockName [js "foo"] (js "a,b") = None
  /\ forallb isWordChar (trim (js "a,b")) = false.
Proof. split; reflexivity. Qed.

(** C8: for a name that trims to one or two allowed characters and is already
    in the set of existing blocks, [validateBlockName] returns the
    shorter-than-3 warning, not the collision error: the length test comes
    first. *)
Theorem short_colliding_name_gets_warning (S : list jsstring) (v : jsstring) :
  (List.length (trim v) = 1 \/ List.length (trim v) = 2)%nat ->
  forallb isWordChar (trim v) = true ->
  In (trim v) S ->
  Modtool.validateBlockName S v
  = Some {| Modtool.message :=
              js "Descriptive names usually contain at least 3 symbols";
            Modtool.severity := InputBoxValidationSeverity.Warning;
            Modtool.then_null := true |}
  /\ option_map Modtool.message (Modtool.validateBlockName S v)
     <> Some (js "Block with that name is already present").
Proof.
  intros Hlen Hall Hin.
  assert (Hne : trim v <> []) by (intros E; rewrite E in Hlen; simpl in Hlen; lia).
  pose proof (nameRegexTest_word Hne Hall) as Hre.
  assert (Hv : Modtool.validateBlockName S v
               = Some {| Modtool.message :=
                           js "Descriptive names usually contain at least 3 symbols";
                         Modtool.severity := InputBoxValidationSeverity.Warning;
                         Modtool.then_null := true |}).
  { unfold Modtool.validateBlockName.
    destruct (trim v) as [|c n] eqn:En; [congruence|].
    simpl Nat.eqb. cbv iota. rewrite Hre. simpl negb. cbv iota.
    assert (Hl : (List.length (c :: n) <? 3)%nat = true)
      by (apply Nat.ltb_lt; lia).
    now rewrite Hl. }
  split; [exact Hv|].
  rewrite Hv. simpl. intros H. inversion H.
Qed.

(** C8 at the set [{abc, ab}] and the input [" ab "]. *)
Lemma short_colliding_name_gets_warning_witness :
  Modtool.validateBlockName [js "abc"; js "ab"] (js " ab ")
  = Some {| Modtool.message :=
              js "Descriptive names usually contain at least 3 symbols";
            Modtool.severity := InputBoxValidationSeverity.Warning;
            Modtool.then_null := true |}
  /\ option_map Modtool.message
       (Modtool.validateBlockName [js "abc"; js "ab"] (js " ab "))
     <> Some (js "Block with that name is already present").
Proof.
  apply (@short_colliding_name_gets_warning [js "abc"; js "ab"] (js " ab ")).
  - right. reflexivity.
  - reflexivity.
  - right. left. reflexivity.
Defined.

(** ** Name resolution in [disableBlock], [removeBlock] and
       [createPythonBindings] *)

Lemma RegExp_test_search (E : RegExpEngine) (r : regex E) (s : jsstring) :
  RegExp_test E r s = true
  <-> exists i, (i <= List.length s)%nat /\ matcher E r s i = true.
Proof.
  unfold RegExp_test. rewrite existsb_exists. split.
  - intros [i [Hi Hm]]. apply in_seq in Hi. exists i. split; [lia|assumption].
  - intros [i [Hi Hm]]. exists i. split; [apply in_seq; lia|assumption].
Qed.

(** The [forEach] loop pushes the matching blocks, quoted, in the order of
    the set. *)
Lemma pushMatching_filter (E : RegExpEngine) (re : regex E)
    (S detail : list jsstring) :
  Modtool.pushMatching E re S detail
  = detail ++ List.map Modtool.quoted (filter (RegExp_test E re) S).
Proof.
  unfold Modtool.pushMatching. revert detail.
  induction S as [|b S IH]; intros detail; simpl.
  - now rewrite app_nil_r.
  - rewrite IH. destruct (RegExp_test E re b); simpl.
    + now rewrite <- app_assoc.
    + reflexivity.
Qed.

Lemma filter_nil_iff {A} (f : A -> bool) (l : list A) :
  filter f l = [] <-> forall x, In x l -> f x = false.
Proof.
  induction l as [|a l IH]; simpl.
  - split; [intros _ x []|reflexivity].
  - destruct (f a) eqn:Fa; split.
    + discriminate.
    + intros H. specialize (H a (or_introl eq_refl)). congruence.
    + intros H x [<-|Hx]; [assumption|]. now apply IH.
    + intros H. apply IH. intros x Hx. apply H. now right.
Qed.

(** C5: when the candidate [c] is an existing identifier, each command takes
    its single-block branch on [c]: [disableBlock] and [removeBlock] ask
    about the one block [c] (and [removeBlock] lists the files of [c] only),
    [createPythonBindings] reports the bindings file of [c].  No regular
    expression is built, so this holds whatever [c] would match as a
    pattern. *)
Theorem exact_match_takes_single_block_branch
    (fs : FileSystem) (E : RegExpEngine) (blocks : BlockFilter)
    (path_join : list jsstring -> jsstring)
    (cwd moduleName c : jsstring) (S C : list jsstring) :
  getAllBlocks blocks cwd moduleName = Ok S ->
  getCppBlocks blocks cwd moduleName = Ok C ->
  (In c S ->
     Modtool.disableBlock E blocks cwd moduleName c
     = Ok {| Modtool.warningMessage :=
               js "Are you sure you want to disable " ++ Modtool.quoted c ++ js "?";
             Modtool.detailMessage := [];
             Modtool.successMessage :=
               js "Block " ++ Modtool.quoted c ++ js " was disabled";
             Modtool.toolArgument := c |}
     /\ Modtool.removeBlock fs E blocks cwd moduleName c
        = (items <- ModuleTree.getBlockFilesTree fs E blocks c
                      (Uri_file fs cwd) moduleName ;;
           Ok {| Modtool.warningMessage :=
                   js "Are you sure you want to remove " ++ Modtool.quoted c
                   ++ js "?";
                 Modtool.detailMessage :=
                   js "The following files will be deleted:" ::
                   List.map (fun item =>
                          slice (Uri_fsPath fs (ModuleTree.resourceUri item))
                                (List.length cwd + 1))
                       items;
                 Modtool.successMessage :=
                   js "Block " ++ Modtool.quoted c ++ js " was removed";
                 Modtool.toolArgument := c |}))
  /\ (In c C ->
      Modtool.createPythonBindings E blocks path_join cwd moduleName c
      = Ok (Modtool.Bind c
              (js "Python bindings written to "
               ++ Modtool.quoted
                    (path_join [js "python"; moduleName; js "bindings";
                                c ++ js "_python.cc"])))).
Proof.
  intros HS HC. split.
  - intros Hin. apply has_In in Hin.
    unfold Modtool.disableBlock, Modtool.removeBlock.
    rewrite HS. simpl bind. rewrite Hin. split; reflexivity.
  - intros Hin.
    unfold Modtool.createPythonBindings. rewrite HC. simpl bind.
    destruct C as [|c0 C']; [destruct Hin|].
    simpl Nat.eqb. cbv iota.
    apply has_In in Hin. now rewrite Hin.
Qed.

(** C6: when the pattern [p] is no existing identifier (and is a pattern the
    engine accepts), the blocks listed by [removeBlock] and [disableBlock]
    are exactly the identifiers of the inventory on which the search for [p]
    succeeds at some index; they are identifiers of the inventory, and there
    is none iff the search fails on every identifier. *)
Theorem pattern_resolution_is_search_filter
    (fs : FileSystem) (E : RegExpEngine) (blocks : BlockFilter)
    (cwd moduleName p : jsstring) (S : list jsstring) (re : regex E) :
  getAllBlocks blocks cwd moduleName = Ok S ->
  ~ In p S ->
  RegExp E p = Some re ->
  let selected := filter (RegExp_test E re) S in
  Modtool.removeBlock fs E blocks cwd moduleName p
  = Ok {| Modtool.warningMessage :=
            js "Are you sure you want to remove multiple blocks?";
          Modtool.detailMessage :=
            js "The following blocks will be removed:"
            :: List.map Modtool.quoted selected;
          Modtool.successMessage :=
            js "Matching blocks were removed: "
            ++ join (js ", ") (List.map Modtool.quoted selected);
          Modtool.toolArgument := p |}
  /\ Modtool.disableBlock E blocks cwd moduleName p
     = Ok {| Modtool.warningMessage :=
               js "Are you sure you want to disable multiple blocks?";
             Modtool.detailMessage :=
               js "The following blocks will be disabled:"
               :: List.map Modtool.quoted selected;
             Modtool.successMessage := js "Matching blocks were disabled: ";
             Modtool.toolArgument := p |}
  /\ (forall b, In b selected
                <-> In b S /\ exists i, (i <= List.length b)%nat
                                        /\ matcher E re b i = true)
  /\ incl selected S
  /\ (selected = []
      <-> forall b, In b S ->
            forall i, (i <= List.length b)%nat -> matcher E re b i = false).
Proof.
  intros HS Hnot Hre selected.
  apply has_false in Hnot.
  unfold Modtool.removeBlock, Modtool.disableBlock.
  rewrite HS. simpl bind. rewrite Hnot, Hre.
  rewrite pushMatching_filter. simpl app. fold selected.
  split; [reflexivity|]. split; [reflexivity|].
  split; [|split].
  - intros b. unfold selected. rewrite filter_In, RegExp_test_search.
    reflexivity.
  - intros b Hb. apply filter_In in Hb. tauto.
  - split.
    + intros Hnil b Hb i Hi.
      unfold selected in Hnil. rewrite filter_nil_iff in Hnil.
      specialize (Hnil b Hb).
      destruct (matcher E re b i) eqn:Hm; [|reflexivity].
      assert (RegExp_test E re b = true)
        by (apply RegExp_test_search; now exists i).
      congruence.
    + intros Hall. unfold selected. apply filter_nil_iff.
      intros b Hb. destruct (RegExp_test E re b) eqn:Ht; [|reflexivity].
      apply RegExp_test_search in Ht as [i [Hi Hm]].
      rewrite (Hall b Hb i Hi) in Hm. discriminate.
Qed.

(** ** [getBlockFilesTree] *)

Section CorrelatorFacts.

Variable fs : FileSystem.
Variable E : RegExpEngine.
Variable blocks : BlockFilter.

Lemma mapM_mapBlockToTreeItem (baseUri : Uri fs) (lbl : jsstring)
    (segs : list jsstring) (l : list dirent) :
  mapM (ModuleTree.mapBlockToTreeItem fs baseUri lbl segs) l
  = if forallb ModuleTree.isFile l
    then Ok (List.map (fun e => ModuleTree.treeItem fs baseUri lbl segs (fst e)) l)
    else Err ModuleTree.expectedFile.
Proof.
  induction l as [|[name ty] l IH]; [reflexivity|].
  cbn [mapM forallb]. rewrite IH.
  change (ModuleTree.isFile (name, ty)) with (ty =? FileType_File)%N.
  unfold ModuleTree.mapBlockToTreeItem.
  destruct (ty =? FileType_File)%N; cbn [negb bind andb]; [|reflexivity].
  destruct (forallb ModuleTree.isFile l); reflexivity.
Qed.

Lemma mapM_mapCppImpl (baseUri : Uri fs) (l : list dirent) :
  mapM (ModuleTree.mapCppImpl fs baseUri) l
  = if forallb ModuleTree.isFile l
    then Ok (List.map (fun e => ModuleTree.cppImplItem fs baseUri (fst e)) l)
    else Err ModuleTree.expectedFile.
Proof.
  induction l as [|[name ty] l IH]; [reflexivity|].
  cbn [mapM forallb]. rewrite IH.
  change (ModuleTree.isFile (name, ty)) with (ty =? FileType_File)%N.
  unfold ModuleTree.mapCppImpl, ModuleTree.mapBlockToTreeItem.
  destruct (ty =? FileType_File)%N; cbn [negb bind andb]; [|reflexivity].
  destruct (forallb ModuleTree.isFile l); reflexivity.
Qed.

(** The test filter: a pure filter when the pattern compiles; otherwise it
    throws as soon as an entry passes [filterBlockTests]. *)
Lemma filterM_isCppTestFile (block : jsstring) (l : list dirent) :
  filterM (ModuleTree.isCppTestFile E blocks block) l
  = match RegExp E (ModuleTree.cppTestPattern block) with
    | Some re =>
        Ok (filter (fun v => filterBlockTests blocks (fst v)
                             && RegExp_test E re (fst v)) l)
    | None =>
        if existsb (fun v => filterBlockTests blocks (fst v)) l
        then Err (SyntaxError (ModuleTree.cppTestPattern block))
        else Ok []
    end.
Proof.
  induction l as [|v l IH].
  - cbn. now destruct (RegExp E (ModuleTree.cppTestPattern block)).
  - cbn [filterM filter existsb]. unfold ModuleTree.isCppTestFile at 1.
    rewrite IH.
    destruct (RegExp E (ModuleTree.cppTestPattern block)) as [re|].
    + destruct (filterBlockTests blocks (fst v)); cbn [bind andb];
        [|reflexivity].
      now destruct (RegExp_test E re (fst v)).
    + destruct (filterBlockTests blocks (fst v)); cbn [bind orb];
        [reflexivity|].
      match goal with
      | |- context [existsb ?f l] => destruct (existsb f l); reflexivity
      end.
Qed.

Lemma isCppTestFile_true (block : jsstring) (v : dirent) :
  ModuleTree.isCppTestFile E blocks block v = Ok true ->
  exists re, RegExp E (ModuleTree.cppTestPattern block) = Some re
             /\ filterBlockTests blocks (fst v) = true
             /\ RegExp_test E re (fst v) = true.
Proof.
  unfold ModuleTree.isCppTestFile.
  destruct (filterBlockTests blocks (fst v)); [|discriminate].
  destruct (RegExp E (ModuleTree.cppTestPattern block)) as [re|];
    [|discriminate].
  intros H. exists re. repeat split. congruence.
Qed.

Section OneQuery.

Variable block : jsstring.
Variable baseUri : Uri fs.
Variable moduleName : jsstring.

Let item := ModuleTree.treeItem fs baseUri.
Let grcSegs := [js "grc"].
Let cppSegs := [js "include"; js "gnuradio"; moduleName].
Let pySegs := [js "python"; moduleName].
Let libSegs := [js "lib"].

(** The result of the query once the four directories are listed. *)
Lemma getBlockFilesTree_listed (grcDir cppDir pyDir libDir : list dirent) :
  readDirectory fs (Uri_joinPath fs baseUri grcSegs) = Some grcDir ->
  readDirectory fs (Uri_joinPath fs baseUri cppSegs) = Some cppDir ->
  readDirectory fs (Uri_joinPath fs baseUri pySegs) = Some pyDir ->
  readDirectory fs (Uri_joinPath fs baseUri libSegs) = Some libDir ->
  let grcSel := filter (ModuleTree.isGrcFile blocks block moduleName) grcDir in
  let cppSel := filter (ModuleTree.isCppFile blocks block) cppDir in
  let pySel := filter (ModuleTree.isPyFile blocks block) pyDir in
  let pyTestSel := filter (ModuleTree.isPyTestFile blocks block) pyDir in
  let implSel := filter (ModuleTree.isCppImplFile blocks block) libDir in
  ModuleTree.getBlockFilesTree fs E blocks block baseUri moduleName
  = if forallb ModuleTree.isFile grcSel
       && forallb ModuleTree.isFile cppSel
       && forallb ModuleTree.isFile pySel
       && forallb ModuleTree.isFile pyTestSel
       && forallb ModuleTree.isFile implSel
    then
      cppTestSel <- filterM (ModuleTree.isCppTestFile E blocks block) libDir ;;
      if forallb ModuleTree.isFile cppTestSel
      then Ok (List.map (fun e => item (js "Block definition") grcSegs (fst e)) grcSel
               ++ List.map (fun e => item (js "Implementation") pySegs (fst e)) pySel
               ++ List.map (fun e => item (js "Public header") cppSegs (fst e)) cppSel
               ++ List.map (fun e => ModuleTree.cppImplItem fs baseUri (fst e)) implSel
               ++ List.map (fun e => item (js "Python Tests") pySegs (fst e)) pyTestSel
               ++ List.map (fun e => item (js "C++ Tests") libSegs (fst e)) cppTestSel)
      else Err ModuleTree.expectedFile
    else Err ModuleTree.expectedFile.
Proof.
  intros Hgrc Hcpp Hpy Hlib grcSel cppSel pySel pyTestSel implSel.
  unfold ModuleTree.getBlockFilesTree, ModuleTree.readdir.
  fold grcSegs cppSegs pySegs libSegs.
  rewrite Hgrc, Hcpp, Hpy, Hlib. cbn [bind].
  rewrite !mapM_mapBlockToTreeItem, mapM_mapCppImpl.
  fold grcSel cppSel pySel pyTestSel implSel.
  destruct (forallb ModuleTree.isFile grcSel); cbn [bind andb]; [|reflexivity].
  destruct (forallb ModuleTree.isFile cppSel); cbn [bind andb]; [|reflexivity].
  destruct (forallb ModuleTree.isFile pySel); cbn [bind andb]; [|reflexivity].
  destruct (forallb ModuleTree.isFile pyTestSel); cbn [bind andb]; [|reflexivity].
  destruct (forallb ModuleTree.isFile implSel); cbn [bind andb]; [|reflexivity].
  destruct (filterM (ModuleTree.isCppTestFile E blocks block) libDir)
    as [sel|e]; cbn [bind]; [|reflexivity].
  rewrite mapM_mapBlockToTreeItem.
  destruct (forallb ModuleTree.isFile sel); reflexivity.
Qed.

(** A query that returns has listed the four directories. *)
Lemma getBlockFilesTree_Ok_listed (items : list (ModuleTree.TreeItem (Uri fs))) :
  ModuleTree.getBlockFilesTree fs E blocks block baseUri moduleName = Ok items ->
  exists grcDir cppDir pyDir libDir,
    readDirectory fs (Uri_joinPath fs baseUri grcSegs) = Some grcDir
    /\ readDirectory fs (Uri_joinPath fs baseUri cppSegs) = Some cppDir
    /\ readDirectory fs (Uri_joinPath fs baseUri pySegs) = Some pyDir
    /\ readDirectory fs (Uri_joinPath fs baseUri libSegs) = Some libDir.
Proof.
  unfold ModuleTree.getBlockFilesTree, ModuleTree.readdir.
  fold grcSegs cppSegs pySegs libSegs.
  destruct (readDirectory fs (Uri_joinPath fs baseUri grcSegs)) as [grcDir|];
    cbn [bind]; [|discriminate].
  destruct (mapM _ (filter _ grcDir)); cbn [bind]; [|discriminate].
  destruct (readDirectory fs (Uri_joinPath fs baseUri cppSegs)) as [cppDir|];
    cbn [bind]; [|discriminate].
  destruct (mapM _ (filter _ cppDir)); cbn [bind]; [|discriminate].
  destruct (readDirectory fs (Uri_joinPath fs baseUri pySegs)) as [pyDir|];
    cbn [bind]; [|discriminate].
  destruct (mapM _ (filter _ pyDir)); cbn [bind]; [|discriminate].
  destruct (mapM _ (filter _ pyDir)); cbn [bind]; [|discriminate].
  destruct (readDirectory fs (Uri_joinPath fs baseUri libSegs)) as [libDir|];
    cbn [bind]; [|discriminate].
  intros _. now exists grcDir, cppDir, pyDir, libDir.
Qed.

End OneQuery.

End CorrelatorFacts.

Lemma forallb_isFile_false (l : list dirent) (entry : dirent) :
  In entry l -> snd entry <> FileType_File ->
  forallb ModuleTree.isFile l = false.
Proof.
  intros Hin Hty.
  destruct (forallb ModuleTree.isFile l) eqn:Hall; [|reflexivity].
  rewrite forallb_forall in Hall. specialize (Hall entry Hin).
  unfold ModuleTree.isFile in Hall. apply N.eqb_eq in Hall. contradiction.
Qed.

Lemma readdir_Ok (fs : FileSystem) (baseUri : Uri fs)
    (segs : list jsstring) (d : list dirent) :
  ModuleTree.readdir fs baseUri segs = Ok d
  <-> readDirectory fs (Uri_joinPath fs baseUri segs) = Some d.
Proof.
  unfold ModuleTree.readdir.
  destruct (readDirectory fs (Uri_joinPath fs baseUri segs));
    split; congruence.
Qed.

Lemma cppImplItem_label (fs : FileSystem) (baseUri : Uri fs) (name : jsstring) :
  ModuleTree.label (ModuleTree.cppImplItem fs baseUri name)
  = js "Implementation source"
  \/ ModuleTree.label (ModuleTree.cppImplItem fs baseUri name)
     = js "Implementation header".
Proof.
  unfold ModuleTree.cppImplItem. cbn [ModuleTree.label ModuleTree.treeItem].
  destruct (streq (Path.extname name) (js ".h")); [right|left]; reflexivity.
Qed.

(** C2: the list [getBlockFilesTree] returns is six consecutive runs, in this
    order: the definitions of [grc] ("Block definition"), the implementations
    of [python/<moduleName>] ("Implementation"), the public headers of
    [include/gnuradio/<moduleName>] ("Public header"), the implementation
    sources and headers of [lib] ("Implementation source" or
    "Implementation header"), then the tests, those of
    [python/<moduleName>] ("Python Tests") before those of [lib]
    ("C++ Tests"). *)
Theorem getBlockFilesTree_role_order
    (fs : FileSystem) (E : RegExpEngine) (blocks : BlockFilter)
    (block : jsstring) (baseUri : Uri fs) (moduleName : jsstring)
    (items : list (ModuleTree.TreeItem (Uri fs))) :
  ModuleTree.getBlockFilesTree fs E blocks block baseUri moduleName = Ok items ->
  let run lbl segs :=
    Forall (fun it =>
      ModuleTree.label it = lbl
      /\ exists name,
           ModuleTree.resourceUri it
           = Uri_joinPath fs baseUri (segs ++ [name])) in
  exists defs impls hdrs libs pyTests cppTests,
    items = defs ++ impls ++ hdrs ++ libs ++ pyTests ++ cppTests
    /\ run (js "Block definition") [js "grc"] defs
    /\ run (js "Implementation") [js "python"; moduleName] impls
    /\ run (js "Public header") [js "include"; js "gnuradio"; moduleName] hdrs
    /\ Forall (fun it =>
         (ModuleTree.label it = js "Implementation source"
          \/ ModuleTree.label it = js "Implementation header")
         /\ exists name,
              ModuleTree.resourceUri it
              = Uri_joinPath fs baseUri ([js "lib"] ++ [name])) libs
    /\ run (js "Python Tests") [js "python"; moduleName] pyTests
    /\ run (js "C++ Tests") [js "lib"] cppTests.
Proof.
  intros Hok run.
  destruct (@getBlockFilesTree_Ok_listed fs E blocks block baseUri moduleName items Hok)
    as (grcDir & cppDir & pyDir & libDir & Hgrc & Hcpp & Hpy & Hlib).
  rewrite (getBlockFilesTree_listed fs E blocks block baseUri moduleName
             Hgrc Hcpp Hpy Hlib) in Hok.
  cbv zeta in Hok.
  destruct (_ && _)%bool in Hok; [|discriminate].
  destruct (filterM _ libDir) as [sel|] in Hok; cbn [bind] in Hok; [|discriminate].
  destruct (forallb ModuleTree.isFile sel) in Hok; [|discriminate].
  injection Hok as <-.
  do 6 eexists. split; [reflexivity|].
  assert (Hrun : forall lbl segs (l : list dirent),
             run lbl segs
               (List.map (fun e => ModuleTree.treeItem fs baseUri lbl segs (fst e)) l)).
  { intros lbl segs l. unfold run. apply Forall_forall. intros it Hit.
    apply in_map_iff in Hit as [e [<- _]]. split; [reflexivity|].
    now exists (fst e). }
  repeat (split; [apply Hrun|]).
  split; [|split; apply Hrun].
  apply Forall_forall. intros it Hit.
  apply in_map_iff in Hit as [e [<- _]].
  split; [apply cppImplItem_label|]. now exists (fst e).
Qed.

(** C10: when an entry of a listed facet directory passes one of the filters
    for the queried block and is not a regular file, [getBlockFilesTree]
    does not return: the query fails as a whole, and when the four
    directories can be listed it fails with the error
    'Expected a file, got something else'. *)
Theorem non_file_match_fails_query
    (fs : FileSystem) (E : RegExpEngine) (blocks : BlockFilter)
    (block : jsstring) (baseUri : Uri fs) (moduleName : jsstring)
    (entry : dirent) :
  ModuleTree.matchesBlock fs E blocks block baseUri moduleName entry ->
  snd entry <> FileType_File ->
  isOk (ModuleTree.getBlockFilesTree fs E blocks block baseUri moduleName) = false
  /\ ((forall d, In d (ModuleTree.facetDirs moduleName) ->
                 readDirectory fs (Uri_joinPath fs baseUri d) <> None) ->
      ModuleTree.getBlockFilesTree fs E blocks block baseUri moduleName
      = Err (Error (js "Expected a file, got something else"))).
Proof.
  intros Hmatch Hty.
  assert (Hlisted : forall grcDir cppDir pyDir libDir,
    readDirectory fs (Uri_joinPath fs baseUri [js "grc"]) = Some grcDir ->
    readDirectory fs (Uri_joinPath fs baseUri
                        [js "include"; js "gnuradio"; moduleName]) = Some cppDir ->
    readDirectory fs (Uri_joinPath fs baseUri [js "python"; moduleName]) = Some pyDir ->
    readDirectory fs (Uri_joinPath fs baseUri [js "lib"]) = Some libDir ->
    ModuleTree.getBlockFilesTree fs E blocks block baseUri moduleName
    = Err ModuleTree.expectedFile).
  { intros grcDir cppDir pyDir libDir Hgrc Hcpp Hpy Hlib.
    rewrite (getBlockFilesTree_listed fs E blocks block baseUri moduleName
               Hgrc Hcpp Hpy Hlib).
    cbv zeta.
    assert (Hstage : forall (f : dirent -> bool) (d : list dirent),
               In entry d -> f entry = true ->
               forallb ModuleTree.isFile (filter f d) = false).
    { intros f d Hin Hf. apply (@forallb_isFile_false (filter f d) entry).
      - apply filter_In. now split.
      - assumption. }
    destruct Hmatch as [d Hd Hin Hf|d Hd Hin Hf|d Hd Hin Hf
                       |d Hd Hin Hf|d Hd Hin Hf|d Hd Hin Hf];
      apply readdir_Ok in Hd.
    - assert (d = grcDir) by congruence. subst d.
      now rewrite (Hstage _ _ Hin Hf).
    - assert (d = cppDir) by congruence. subst d.
      now rewrite (Hstage _ _ Hin Hf), !andb_false_r.
    - assert (d = pyDir) by congruence. subst d.
      now rewrite (Hstage _ _ Hin Hf), !andb_false_r.
    - assert (d = pyDir) by congruence. subst d.
      now rewrite (Hstage _ _ Hin Hf), !andb_false_r.
    - assert (d = libDir) by congruence. subst d.
      now rewrite (Hstage _ _ Hin Hf), !andb_false_r.
    - assert (d = libDir) by congruence. subst d.
      destruct (_ && _)%bool; [|reflexivity].
      rewrite filterM_isCppTestFile.
      destruct (@isCppTestFile_true E blocks block entry Hf)
        as (re & Hre & Hft & Ht).
      rewrite Hre. cbn [bind].
      rewrite (Hstage _ _ Hin); [reflexivity|].
      now rewrite Hft, Ht. }
  split.
  - destruct (ModuleTree.getBlockFilesTree fs E blocks block baseUri moduleName)
      as [items|e] eqn:Hres; [|reflexivity].
    destruct (@getBlockFilesTree_Ok_listed fs E blocks block baseUri moduleName items Hres)
      as (grcDir & cppDir & pyDir & libDir & Hgrc & Hcpp & Hpy & Hlib).
    pose proof (Hlisted _ _ _ _ Hgrc Hcpp Hpy Hlib) as Herr. congruence.
  - intros Hall.
    assert (Hd : forall d, In d (ModuleTree.facetDirs moduleName) ->
                 exists l, readDirectory fs (Uri_joinPath fs baseUri d) = Some l).
    { intros d Hd. specialize (Hall d Hd).
      destruct (readDirectory fs (Uri_joinPath fs baseUri d)) as [l|];
        [now exists l|congruence]. }
    destruct (Hd [js "grc"]) as [grcDir Hgrc];
      [now left|].
    destruct (Hd [js "include"; js "gnuradio"; moduleName]) as [cppDir Hcpp];
      [now right; left|].
    destruct (Hd [js "python"; moduleName]) as [pyDir Hpy];
      [now right; right; left|].
    destruct (Hd [js "lib"]) as [libDir Hlib];
      [now right; right; right; left|].
    exact (Hlisted _ _ _ _ Hgrc Hcpp Hpy Hlib).
Qed.

Lemma getBlockFilesTree_unlisted
    (fs : FileSystem) (E : RegExpEngine) (blocks : BlockFilter)
    (block : jsstring) (baseUri : Uri fs) (moduleName : jsstring)
    (d : list jsstring) :
  In d (ModuleTree.facetDirs moduleName) ->
  readDirectory fs (Uri_joinPath fs baseUri d) = None ->
  isOk (ModuleTree.getBlockFilesTree fs E blocks block baseUri moduleName) = false.
Proof.
  intros Hd Hnone.
  destruct (ModuleTree.getBlockFilesTree fs E blocks block baseUri moduleName)
    as [items|e] eqn:Hres; [|reflexivity].
  destruct (@getBlockFilesTree_Ok_listed fs E blocks block baseUri moduleName
              items Hres)
    as (grcDir & cppDir & pyDir & libDir & Hgrc & Hcpp & Hpy & Hlib).
  destruct Hd as [<-|[<-|[<-|[<-|[]]]]]; congruence.
Qed.

(** C3, as the code has it: a facet directory that cannot be listed is zero
    matches for the inventory queries only.  [getBlockFilesTree] lists the
    four facet directories itself and does not return when one of them is
    missing (the listing error itself comes out when [grc], the first one
    listed, is the missing one); the inventory queries still return when the
    project root can be listed, and report a root that cannot. *)
Theorem missing_facet_directory_fails_correlation
    (fs : FileSystem) (E : RegExpEngine) (blocks : BlockFilter)
    (block cwd moduleName : jsstring) (d : list jsstring) :
  In d (ModuleTree.facetDirs moduleName) ->
  readDirectory fs (Uri_joinPath fs (Uri_file fs cwd) d) = None ->
  isOk (ModuleTree.getBlockFilesTree fs E blocks block (Uri_file fs cwd)
          moduleName) = false
  /\ (d = [js "grc"] ->
      ModuleTree.getBlockFilesTree fs E blocks block (Uri_file fs cwd) moduleName
      = Err FileNotFound)
  /\ BlockFilterSpec.listNames fs cwd d = []
  /\ (readDirectory fs (Uri_file fs cwd) <> None ->
      isOk (BlockFilterSpec.getAllBlocks fs cwd moduleName) = true
      /\ isOk (BlockFilterSpec.getCppBlocks fs cwd moduleName) = true
      /\ isOk (BlockFilterSpec.getXmlBlocks fs cwd moduleName) = true
      /\ isOk (BlockFilterSpec.getCppImplFiles fs cwd) = true)
  /\ (readDirectory fs (Uri_file fs cwd) = None ->
      BlockFilterSpec.getAllBlocks fs cwd moduleName = Err FileNotFound).
Proof.
  intros Hd Hnone. split; [|split; [|split; [|split]]].
  - now apply getBlockFilesTree_unlisted with (d := d).
  - intros ->. unfold ModuleTree.getBlockFilesTree, ModuleTree.readdir.
    now rewrite Hnone.
  - unfold BlockFilterSpec.listNames. now rewrite Hnone.
  - intros Hroot.
    unfold BlockFilterSpec.getAllBlocks, BlockFilterSpec.getCppBlocks,
      BlockFilterSpec.getXmlBlocks, BlockFilterSpec.getCppImplFiles,
      BlockFilterSpec.requireRoot.
    destruct (readDirectory fs (Uri_file fs cwd)); [|congruence].
    repeat split.
  - intros Hroot.
    unfold BlockFilterSpec.getAllBlocks, BlockFilterSpec.requireRoot.
    now rewrite Hroot.
Qed.

(** C3 as stated fails: in a project whose root exists and whose [grc]
    directory does not, the inventory returns [foo] but the correlation
    query for [foo] is rejected with the listing error. *)
Lemma missing_grc_rejects_correlation :
  readDirectory Scenario.noGrc (Uri_file Scenario.noGrc Scenario.cwd) <> None
  /\ readDirectory Scenario.noGrc
       (Uri_joinPath Scenario.noGrc (Uri_file Scenario.noGrc Scenario.cwd)
          [js "grc"]) = None
  /\ BlockFilterSpec.getAllBlocks Scenario.noGrc Scenario.cwd Scenario.moduleName
     = Ok [js "foo"]
  /\ ModuleTree.getBlockFilesTree Scenario.noGrc FragmentRegExp.engine
       (BlockFilterSpec.specBlocks Scenario.noGrc) (js "foo")
       (Uri_file Scenario.noGrc Scenario.cwd) Scenario.moduleName
     = Err FileNotFound.
Proof.
  split; [|split; [|split]]; try (vm_compute; reflexivity).
  vm_compute. discriminate.
Qed.

(** C3 at the project without a [grc] directory. *)
Lemma missing_facet_directory_fails_correlation_witness :
  isOk (ModuleTree.getBlockFilesTree Scenario.noGrc FragmentRegExp.engine
          (BlockFilterSpec.specBlocks Scenario.noGrc) (js "foo")
          (Uri_file Scenario.noGrc Scenario.cwd) Scenario.moduleName) = false
  /\ isOk (BlockFilterSpec.getAllBlocks Scenario.noGrc Scenario.cwd
             Scenario.moduleName) = true.
Proof.
  destruct (@missing_facet_directory_fails_correlation
              Scenario.noGrc FragmentRegExp.engine
              (BlockFilterSpec.specBlocks Scenario.noGrc)
              (js "foo") Scenario.cwd Scenario.moduleName [js "grc"])
    as (Hfail & _ & _ & Hinv & _).
  - left. reflexivity.
  - reflexivity.
  - split; [exact Hfail|]. apply Hinv. discriminate.
Defined.

(** The filters of the four [startsWith] sections are monotone in the block
    name: what passes for [b] passes for every prefix [a] of [b]. *)
Section PrefixBlocks.

Variable blocks : BlockFilter.
Variables a b moduleName : jsstring.
Hypothesis Hab : startsWith b a = true.

Lemma isGrcFile_prefix (e : dirent) :
  ModuleTree.isGrcFile blocks b moduleName e = true ->
  ModuleTree.isGrcFile blocks a moduleName e = true.
Proof.
  unfold ModuleTree.isGrcFile. rewrite !andb_true_iff.
  intros [Hs Hf]. split; [|assumption].
  rewrite app_assoc in *. now apply startsWith_trans_under with (b := b).
Qed.

Lemma isCppFile_prefix (e : dirent) :
  ModuleTree.isCppFile blocks b e = true ->
  ModuleTree.isCppFile blocks a e = true.
Proof.
  unfold ModuleTree.isCppFile. rewrite !andb_true_iff.
  intros [Hs Hf]. split; [|assumption].
  now apply startsWith_trans with (b := b).
Qed.

Lemma isPyFile_prefix (e : dirent) :
  ModuleTree.isPyFile blocks b e = true ->
  ModuleTree.isPyFile blocks a e = true.
Proof.
  unfold ModuleTree.isPyFile. rewrite !andb_true_iff.
  intros [Hs Hf]. split; [|assumption].
  now apply startsWith_trans with (b := b).
Qed.

Lemma isCppImplFile_prefix (e : dirent) :
  ModuleTree.isCppImplFile blocks b e = true ->
  ModuleTree.isCppImplFile blocks a e = true.
Proof.
  unfold ModuleTree.isCppImplFile. rewrite !andb_true_iff.
  intros [Hs Hf]. split; [|assumption].
  now apply startsWith_trans with (b := b).
Qed.

End PrefixBlocks.

(** C9: when [a] is a prefix of [b], the correlation of [a] holds every file
    of [b] of the definition, public-header, Python-implementation and
    library-implementation sections: each entry that passes the section's
    filter for [b] is listed for [a] under the same role, and so is every
    non-test item of the correlation of [b]. *)
Theorem prefix_block_collects_longer_block_files
    (fs : FileSystem) (E : RegExpEngine) (blocks : BlockFilter)
    (a b : jsstring) (baseUri : Uri fs) (moduleName : jsstring)
    (la : list (ModuleTree.TreeItem (Uri fs))) :
  startsWith b a = true ->
  ModuleTree.getBlockFilesTree fs E blocks a baseUri moduleName = Ok la ->
  (forall d e,
     readDirectory fs (Uri_joinPath fs baseUri [js "grc"]) = Some d ->
     In e d -> ModuleTree.isGrcFile blocks b moduleName e = true ->
     In (ModuleTree.treeItem fs baseUri (js "Block definition") [js "grc"] (fst e))
        la)
  /\ (forall d e,
        readDirectory fs (Uri_joinPath fs baseUri
                            [js "include"; js "gnuradio"; moduleName]) = Some d ->
        In e d -> ModuleTree.isCppFile blocks b e = true ->
        In (ModuleTree.treeItem fs baseUri (js "Public header")
              [js "include"; js "gnuradio"; moduleName] (fst e)) la)
  /\ (forall d e,
        readDirectory fs (Uri_joinPath fs baseUri [js "python"; moduleName])
        = Some d ->
        In e d -> ModuleTree.isPyFile blocks b e = true ->
        In (ModuleTree.treeItem fs baseUri (js "Implementation")
              [js "python"; moduleName] (fst e)) la)
  /\ (forall d e,
        readDirectory fs (Uri_joinPath fs baseUri [js "lib"]) = Some d ->
        In e d -> ModuleTree.isCppImplFile blocks b e = true ->
        In (ModuleTree.cppImplItem fs baseUri (fst e)) la)
  /\ (forall lb,
        ModuleTree.getBlockFilesTree fs E blocks b baseUri moduleName = Ok lb ->
        forall it, In it lb ->
                   ModuleTree.isTestLabel (ModuleTree.label it) = false ->
                   In it la).
Proof.
  intros Hab Hok.
  destruct (@getBlockFilesTree_Ok_listed fs E blocks a baseUri moduleName la Hok)
    as (grcDir & cppDir & pyDir & libDir & Hgrc & Hcpp & Hpy & Hlib).
  pose proof Hok as Hla.
  rewrite (getBlockFilesTree_listed fs E blocks a baseUri moduleName
             Hgrc Hcpp Hpy Hlib) in Hla.
  cbv zeta in Hla.
  destruct (_ && _)%bool in Hla; [|discriminate].
  destruct (filterM _ libDir) as [sel|] in Hla; cbn [bind] in Hla; [|discriminate].
  destruct (forallb ModuleTree.isFile sel) in Hla; [|discriminate].
  injection Hla as Hla.
  assert (Hg : forall d e,
     readDirectory fs (Uri_joinPath fs baseUri [js "grc"]) = Some d ->
     In e d -> ModuleTree.isGrcFile blocks b moduleName e = true ->
     In (ModuleTree.treeItem fs baseUri (js "Block definition") [js "grc"] (fst e))
        la).
  { intros d e Hd Hin Hf. assert (d = grcDir) by congruence. subst d.
    rewrite <- Hla. apply in_or_app. left.
    apply (in_map (fun e => ModuleTree.treeItem fs baseUri _ _ (fst e))).
    apply filter_In. split; [assumption|].
    now apply isGrcFile_prefix with (b := b). }
  assert (Hc : forall d e,
        readDirectory fs (Uri_joinPath fs baseUri
                            [js "include"; js "gnuradio"; moduleName]) = Some d ->
        In e d -> ModuleTree.isCppFile blocks b e = true ->
        In (ModuleTree.treeItem fs baseUri (js "Public header")
              [js "include"; js "gnuradio"; moduleName] (fst e)) la).
  { intros d e Hd Hin Hf. assert (d = cppDir) by congruence. subst d.
    rewrite <- Hla. apply in_or_app. right. apply in_or_app. right.
    apply in_or_app. left.
    apply (in_map (fun e => ModuleTree.treeItem fs baseUri _ _ (fst e))).
    apply filter_In. split; [assumption|].
    now apply isCppFile_prefix with (b := b). }
  assert (Hp : forall d e,
        readDirectory fs (Uri_joinPath fs baseUri [js "python"; moduleName])
        = Some d ->
        In e d -> ModuleTree.isPyFile blocks b e = true ->
        In (ModuleTree.treeItem fs baseUri (js "Implementation")
              [js "python"; moduleName] (fst e)) la).
  { intros d e Hd Hin Hf. assert (d = pyDir) by congruence. subst d.
    rewrite <- Hla. apply in_or_app. right. apply in_or_app. left.
    apply (in_map (fun e => ModuleTree.treeItem fs baseUri _ _ (fst e))).
    apply filter_In. split; [assumption|].
    now apply isPyFile_prefix with (b := b). }
  assert (Hi : forall d e,
        readDirectory fs (Uri_joinPath fs baseUri [js "lib"]) = Some d ->
        In e d -> ModuleTree.isCppImplFile blocks b e = true ->
        In (ModuleTree.cppImplItem fs baseUri (fst e)) la).
  { intros d e Hd Hin Hf. assert (d = libDir) by congruence. subst d.
    rewrite <- Hla. do 3 (apply in_or_app; right). apply in_or_app. left.
    apply (in_map (fun e => ModuleTree.cppImplItem fs baseUri (fst e))).
    apply filter_In. split; [assumption|].
    now apply isCppImplFile_prefix with (b := b). }
  repeat (split; [assumption|]).
  intros lb Hlb it Hit Hlabel.
  rewrite (getBlockFilesTree_listed fs E blocks b baseUri moduleName
             Hgrc Hcpp Hpy Hlib) in Hlb.
  cbv zeta in Hlb.
  destruct (_ && _)%bool in Hlb; [|discriminate].
  destruct (filterM _ libDir) as [selb|] in Hlb; cbn [bind] in Hlb; [|discriminate].
  destruct (forallb ModuleTree.isFile selb) in Hlb; [|discriminate].
  injection Hlb as <-.
  repeat (apply in_app_or in Hit as [Hit|Hit]);
    apply in_map_iff in Hit as [e [<- He]];
    try (apply filter_In in He as [He Hf]).
  - now apply Hg with (d := grcDir).
  - now apply Hp with (d := pyDir).
  - now apply Hc with (d := cppDir).
  - now apply Hi with (d := libDir).
  - discriminate Hlabel.
  - discriminate Hlabel.
Qed.

(** C7, as the code has it: when [lib] holds exactly the regular files
    [foo_impl.cc] and [qa_foo.cc], the other three facet directories can be
    listed, and each of their entries that passes one of the filters for
    [foo] is a regular file (whatever else they hold), the
    implementation-derived block set is [{foo}], and the correlation for
    [foo] lists [lib/foo_impl.cc] under "Implementation source" and
    [lib/qa_foo.cc] under "C++ Tests", the only items taken from [lib]. *)
Theorem lib_scenario_impl_and_test
    (fs : FileSystem) (E : RegExpEngine) (cwd moduleName : jsstring)
    (grcDir cppDir pyDir : list dirent) (re : regex E) :
  let root := Uri_file fs cwd in
  let blocks := BlockFilterSpec.specBlocks fs in
  readDirectory fs root <> None ->
  readDirectory fs (Uri_joinPath fs root [js "grc"]) = Some grcDir ->
  readDirectory fs (Uri_joinPath fs root [js "include"; js "gnuradio"; moduleName])
  = Some cppDir ->
  readDirectory fs (Uri_joinPath fs root [js "python"; moduleName]) = Some pyDir ->
  readDirectory fs (Uri_joinPath fs root [js "lib"])
  = Some [(js "foo_impl.cc", FileType_File); (js "qa_foo.cc", FileType_File)] ->
  forallb ModuleTree.isFile
    (filter (ModuleTree.isGrcFile blocks (js "foo") moduleName) grcDir) = true ->
  forallb ModuleTree.isFile
    (filter (ModuleTree.isCppFile blocks (js "foo")) cppDir) = true ->
  forallb ModuleTree.isFile
    (filter (ModuleTree.isPyFile blocks (js "foo")) pyDir) = true ->
  forallb ModuleTree.isFile
    (filter (ModuleTree.isPyTestFile blocks (js "foo")) pyDir) = true ->
  RegExp E (js "foo.(cc|cpp|cxx)") = Some re ->
  RegExp_test E re (js "qa_foo.cc") = true ->
  let implItem := ModuleTree.cppImplItem fs root (js "foo_impl.cc") in
  let testItem :=
    ModuleTree.treeItem fs root (js "C++ Tests") [js "lib"] (js "qa_foo.cc") in
  BlockFilterSpec.getCppImplFiles fs cwd = Ok [js "foo"]
  /\ ModuleTree.label implItem = js "Implementation source"
  /\ ModuleTree.resourceUri implItem
     = Uri_joinPath fs root [js "lib"; js "foo_impl.cc"]
  /\ ModuleTree.resourceUri testItem
     = Uri_joinPath fs root [js "lib"; js "qa_foo.cc"]
  /\ exists before between,
       ModuleTree.getBlockFilesTree fs E blocks (js "foo") root moduleName
       = Ok (before ++ [implItem] ++ between ++ [testItem])
       /\ Forall (fun it =>
            In (ModuleTree.label it)
               [js "Block definition"; js "Implementation"; js "Public header"])
            before
       /\ Forall (fun it => ModuleTree.label it = js "Python Tests") between.
Proof.
  intros root blocks Hroot Hgrc Hcpp Hpy Hlib Fgrc Fcpp Fpy Fpyt Hre Htest
    implItem testItem.
  subst blocks.
  assert (Himpl :
    filter (ModuleTree.isCppImplFile (BlockFilterSpec.specBlocks fs) (js "foo"))
      [(js "foo_impl.cc", FileType_File); (js "qa_foo.cc", FileType_File)]
    = [(js "foo_impl.cc", FileType_File)]) by (vm_compute; reflexivity).
  assert (Hnames :
    nodup jsstring_eq_dec
      (List.map BlockFilterSpec.mapCppImplFiles
         (filter BlockFilterSpec.filterCppImplFiles
            (List.map fst
               [(js "foo_impl.cc", FileType_File); (js "qa_foo.cc", FileType_File)])))
    = [js "foo"]) by (vm_compute; reflexivity).
  assert (Hpat : ModuleTree.cppTestPattern (js "foo") = js "foo.(cc|cpp|cxx)")
    by (vm_compute; reflexivity).
  assert (Ht1 : filterBlockTests (BlockFilterSpec.specBlocks fs) (js "foo_impl.cc")
                = false) by (vm_compute; reflexivity).
  assert (Ht2 : filterBlockTests (BlockFilterSpec.specBlocks fs) (js "qa_foo.cc")
                = true) by (vm_compute; reflexivity).
  assert (Hlabel : ModuleTree.label implItem = js "Implementation source")
    by (vm_compute; reflexivity).
  split; [|split; [exact Hlabel|split; [reflexivity|split; [reflexivity|]]]].
  - unfold BlockFilterSpec.getCppImplFiles, BlockFilterSpec.requireRoot.
    fold root. destruct (readDirectory fs root); [|congruence].
    cbn [bind]. unfold BlockFilterSpec.cppImplNames, BlockFilterSpec.listNames.
    fold root. rewrite Hlib. now rewrite Hnames.
  - rewrite (getBlockFilesTree_listed fs E (BlockFilterSpec.specBlocks fs)
               (js "foo") root moduleName Hgrc Hcpp Hpy Hlib).
    cbv zeta.
    rewrite Fgrc, Fcpp, Fpy, Fpyt.
    rewrite Himpl, filterM_isCppTestFile, Hpat, Hre.
    cbn [bind filter fst]. rewrite Ht1, Ht2, Htest.
    cbn [andb forallb List.map fst].
    unfold ModuleTree.isFile. cbn [snd]. rewrite N.eqb_refl. cbn [andb].
    match goal with
    | |- exists _ _, Ok (?defs ++ ?impls ++ ?hdrs ++ _ ++ ?pyTests ++ _) = _ /\ _ =>
        exists (defs ++ impls ++ hdrs), pyTests
    end.
    split; [now rewrite <- !app_assoc|].
    split.
    + rewrite !Forall_app. repeat split; apply Forall_forall; intros it Hit;
        apply in_map_iff in Hit as [e [<- _]];
        cbn [ModuleTree.label ModuleTree.treeItem].
      * now left.
      * now right; left.
      * now right; right; left.
    + apply Forall_forall. intros it Hit.
      now apply in_map_iff in Hit as [e [<- _]].
Qed.

(** ** The inventory of the specification against the correlator *)

Lemma startsWith_dropEnd (s : jsstring) (n : nat) :
  startsWith s (BlockFilterSpec.dropEnd s n) = true.
Proof. apply startsWith_firstn. Qed.

Lemma startsWith_mapCppImplFiles (name : jsstring) :
  startsWith name (BlockFilterSpec.mapCppImplFiles name) = true.
Proof.
  unfold BlockFilterSpec.mapCppImplFiles.
  set (stem := match BlockFilterSpec.sourceExt name with
               | Some n => BlockFilterSpec.dropEnd name n
               | None => name
               end).
  assert (Hstem : startsWith name stem = true).
  { unfold stem. destruct (BlockFilterSpec.sourceExt name).
    - apply startsWith_dropEnd.
    - apply startsWith_iff. exists []. now rewrite app_nil_r. }
  destruct (endsWith stem (js "_impl")); [|assumption].
  apply startsWith_trans with (b := stem); [assumption|].
  apply startsWith_dropEnd.
Qed.

Lemma startsWith_mapGrcBlocks (moduleName suffix name : jsstring) :
  BlockFilterSpec.isGrcNamed moduleName suffix name = true ->
  startsWith name
    (moduleName ++ js "_" ++ BlockFilterSpec.mapGrcBlocks moduleName suffix name)
  = true.
Proof.
  unfold BlockFilterSpec.isGrcNamed, BlockFilterSpec.mapGrcBlocks,
    BlockFilterSpec.dropEnd.
  rewrite !andb_true_iff. intros [[Hpre _] Hlen].
  apply Nat.leb_le in Hlen.
  apply startsWith_inv in Hpre as [t ->].
  set (h := moduleName ++ js "_") in *.
  assert (Hh : List.length h = (List.length moduleName + 1)%nat).
  { unfold h. rewrite length_app. reflexivity. }
  rewrite <- Hh in *.
  set (n := (List.length (h ++ t) - List.length suffix)%nat).
  assert (Hn : (List.length h <= n)%nat) by (unfold n; lia).
  rewrite firstn_app, (firstn_all2 h) by assumption.
  rewrite skipn_app, skipn_all, Nat.sub_diag. cbn [app skipn].
  rewrite app_assoc. fold h.
  apply startsWith_iff. exists (skipn (n - List.length h) t).
  rewrite <- app_assoc. f_equal. symmetry. apply firstn_skipn.
Qed.

Lemma In_listNames (fs : FileSystem) (cwd : jsstring) (segs : list jsstring)
    (d : list dirent) (name : jsstring) :
  readDirectory fs (Uri_joinPath fs (Uri_file fs cwd) segs) = Some d ->
  In name (BlockFilterSpec.listNames fs cwd segs) ->
  exists e, In e d /\ fst e = name.
Proof.
  intros Hd. unfold BlockFilterSpec.listNames. rewrite Hd.
  intros Hin. apply in_map_iff in Hin as [e [He Hin]]. now exists e.
Qed.

(** C1, as the code has it: when the four facet directories can be listed,
    every entry that passes a filter for the block is a regular file, and
    the test pattern built from the block name is accepted by the engine
    whenever [lib] holds a test file, the correlation of every block of the
    inventory returns, and returns at least one item. *)
Theorem inventory_block_has_correlated_file
    (fs : FileSystem) (E : RegExpEngine) (cwd moduleName b : jsstring)
    (S : list jsstring) (grcDir cppDir pyDir libDir : list dirent) :
  let root := Uri_file fs cwd in
  let blocks := BlockFilterSpec.specBlocks fs in
  BlockFilterSpec.getAllBlocks fs cwd moduleName = Ok S ->
  In b S ->
  readDirectory fs (Uri_joinPath fs root [js "grc"]) = Some grcDir ->
  readDirectory fs (Uri_joinPath fs root [js "include"; js "gnuradio"; moduleName])
  = Some cppDir ->
  readDirectory fs (Uri_joinPath fs root [js "python"; moduleName]) = Some pyDir ->
  readDirectory fs (Uri_joinPath fs root [js "lib"]) = Some libDir ->
  (forall e, ModuleTree.matchesBlock fs E blocks b root moduleName e ->
             snd e = FileType_File) ->
  (forall e, In e libDir -> filterBlockTests blocks (fst e) = true ->
             RegExp E (ModuleTree.cppTestPattern b) <> None) ->
  exists items,
    ModuleTree.getBlockFilesTree fs E blocks b root moduleName = Ok items
    /\ items <> [].
Proof.
  intros root blocks HS Hin Hgrc Hcpp Hpy Hlib Hfiles Hre.
  assert (Hstage : forall (f : dirent -> bool) (d : list dirent),
    (forall e, In e d -> f e = true ->
               ModuleTree.matchesBlock fs E blocks b root moduleName e) ->
    forallb ModuleTree.isFile (filter f d) = true).
  { intros f d Hm. apply forallb_forall. intros e He.
    apply filter_In in He as [He Hf].
    unfold ModuleTree.isFile. apply N.eqb_eq. apply Hfiles. now apply Hm. }
  rewrite (getBlockFilesTree_listed fs E blocks b root moduleName
             Hgrc Hcpp Hpy Hlib).
  cbv zeta.
  rewrite (Hstage (ModuleTree.isGrcFile blocks b moduleName) grcDir)
    by (intros e He Hf; apply ModuleTree.matches_grc with (d := grcDir);
        [now apply readdir_Ok|assumption|assumption]).
  rewrite (Hstage (ModuleTree.isCppFile blocks b) cppDir)
    by (intros e He Hf; apply ModuleTree.matches_cpp with (d := cppDir);
        [now apply readdir_Ok|assumption|assumption]).
  rewrite (Hstage (ModuleTree.isPyFile blocks b) pyDir)
    by (intros e He Hf; apply ModuleTree.matches_py with (d := pyDir);
        [now apply readdir_Ok|assumption|assumption]).
  rewrite (Hstage (ModuleTree.isPyTestFile blocks b) pyDir)
    by (intros e He Hf; apply ModuleTree.matches_pyTest with (d := pyDir);
        [now apply readdir_Ok|assumption|assumption]).
  rewrite (Hstage (ModuleTree.isCppImplFile blocks b) libDir)
    by (intros e He Hf; apply ModuleTree.matches_cppImpl with (d := libDir);
        [now apply readdir_Ok|assumption|assumption]).
  cbn [andb].
  assert (Hsel0 : exists sel,
    filterM (ModuleTree.isCppTestFile E blocks b) libDir = Ok sel
    /\ forallb ModuleTree.isFile sel = true).
  { rewrite filterM_isCppTestFile.
    destruct (RegExp E (ModuleTree.cppTestPattern b)) as [re|] eqn:Ere.
    - eexists. split; [reflexivity|].
      apply Hstage. intros e He Hf.
      apply andb_true_iff in Hf as [Hft Ht].
      apply ModuleTree.matches_cppTest with (d := libDir);
        [now apply readdir_Ok|assumption|].
      unfold ModuleTree.isCppTestFile. now rewrite Hft, Ere, Ht.
    - destruct (existsb (fun v => filterBlockTests blocks (fst v)) libDir)
        eqn:Hex.
      + apply existsb_exists in Hex as [e [He Hft]].
        now destruct (Hre e He Hft).
      + exists []. now split. }
  destruct Hsel0 as [sel [-> Hsel0]]. cbn [bind]. rewrite Hsel0.
  eexists. split; [reflexivity|].
  (* one of the four [startsWith] sections holds the file [b] comes from *)
  assert (Hsel :
    (exists e, In e (filter (ModuleTree.isGrcFile blocks b moduleName) grcDir))
    \/ (exists e, In e (filter (ModuleTree.isPyFile blocks b) pyDir))
    \/ (exists e, In e (filter (ModuleTree.isCppFile blocks b) cppDir))
    \/ (exists e, In e (filter (ModuleTree.isCppImplFile blocks b) libDir))).
  { unfold BlockFilterSpec.getAllBlocks, BlockFilterSpec.requireRoot in HS.
    destruct (readDirectory fs (Uri_file fs cwd)); [|discriminate].
    cbn [bind] in HS. injection HS as <-.
    apply nodup_In in Hin.
    assert (Hgrcs : forall suffix,
      (suffix = js ".block.yml" \/ suffix = js ".xml") ->
      In b (BlockFilterSpec.grcBlockNames fs suffix cwd moduleName) ->
      exists e, In e (filter (ModuleTree.isGrcFile blocks b moduleName) grcDir)).
    { intros suffix Hsuf Hb. unfold BlockFilterSpec.grcBlockNames in Hb.
      apply in_map_iff in Hb as [name [<- Hname]].
      apply filter_In in Hname as [Hname Hnamed].
      destruct (@In_listNames fs cwd _ _ name Hgrc Hname) as [e [He <-]].
      exists e. apply filter_In. split; [assumption|].
      unfold ModuleTree.isGrcFile. apply andb_true_iff. split.
      - now apply startsWith_mapGrcBlocks.
      - unfold BlockFilterSpec.isGrcNamed in Hnamed.
        rewrite !andb_true_iff in Hnamed. destruct Hnamed as [[_ Hend] _].
        cbn [filterGrcBlocks filterXmlBlocks blocks BlockFilterSpec.specBlocks].
        unfold BlockFilterSpec.filterGrcBlocks, BlockFilterSpec.filterXmlBlocks.
        destruct Hsuf as [-> | ->]; rewrite Hend;
          [reflexivity|apply orb_true_r]. }
    repeat (apply in_app_or in Hin as [Hin|Hin]).
    - right; right; left.
      unfold BlockFilterSpec.cppBlockNames in Hin.
      apply filter_In in Hin as [Hin _].
      apply in_map_iff in Hin as [name [<- Hname]].
      apply filter_In in Hname as [Hname Hf].
      destruct (@In_listNames fs cwd _ _ name Hcpp Hname) as [e [He <-]].
      exists e. apply filter_In. split; [assumption|].
      unfold ModuleTree.isCppFile. apply andb_true_iff. split.
      + apply startsWith_dropEnd.
      + exact Hf.
    - left. apply Hgrcs with (suffix := js ".block.yml"); [now left|assumption].
    - left. apply Hgrcs with (suffix := js ".xml"); [now right|assumption].
    - right; left.
      unfold BlockFilterSpec.pyBlockNames in Hin.
      apply in_map_iff in Hin as [name [<- Hname]].
      apply filter_In in Hname as [Hname Hf].
      destruct (@In_listNames fs cwd _ _ name Hpy Hname) as [e [He <-]].
      exists e. apply filter_In. split; [assumption|].
      unfold ModuleTree.isPyFile. apply andb_true_iff. split.
      + apply startsWith_dropEnd.
      + exact Hf.
    - right; right; right.
      unfold BlockFilterSpec.cppImplNames in Hin.
      apply in_map_iff in Hin as [name [<- Hname]].
      apply filter_In in Hname as [Hname Hf].
      destruct (@In_listNames fs cwd _ _ name Hlib Hname) as [e [He <-]].
      exists e. apply filter_In. split; [assumption|].
      unfold ModuleTree.isCppImplFile. apply andb_true_iff. split.
      + apply startsWith_mapCppImplFiles.
      + cbn [filterCppImplFiles blocks BlockFilterSpec.specBlocks].
        now rewrite Hf. }
  intros Hnil.
  repeat (apply app_eq_nil in Hnil as [? Hnil]).
  destruct Hsel as [[e He]|[[e He]|[[e He]|[e He]]]];
    match goal with
    | H : List.map ?f (filter ?p ?d) = [], He : In e (filter ?p ?d) |- _ =>
        apply (in_map f) in He; rewrite H in He; destruct He
    end.
Qed.

(** C1 as stated fails: when the public-header directory holds a
    subdirectory named [foo.h], [foo] is in the inventory and its
    correlation does not return a list: the sanity check throws. *)
Lemma directory_named_like_header_breaks_invariant :
  BlockFilterSpec.getAllBlocks Scenario.headerIsDirectory Scenario.cwd
    Scenario.moduleName = Ok [js "foo"]
  /\ ModuleTree.getBlockFilesTree Scenario.headerIsDirectory FragmentRegExp.engine
       (BlockFilterSpec.specBlocks Scenario.headerIsDirectory) (js "foo")
       (Uri_file Scenario.headerIsDirectory Scenario.cwd) Scenario.moduleName
     = Err (Error (js "Expected a file, got something else")).
Proof. split; vm_compute; reflexivity. Qed.

(** ** The theorems at the scenarios *)

(** C1 at the project with the blocks [foo] and [foobar]. *)
Lemma inventory_block_has_correlated_file_witness :
  exists items,
    ModuleTree.getBlockFilesTree Scenario.prefixed FragmentRegExp.engine
      (BlockFilterSpec.specBlocks Scenario.prefixed) (js "foo")
      (Uri_file Scenario.prefixed Scenario.cwd) Scenario.moduleName = Ok items
    /\ items <> [].
Proof.
  apply (@inventory_block_has_correlated_file
           Scenario.prefixed FragmentRegExp.engine Scenario.cwd
           Scenario.moduleName (js "foo") [js "foo"; js "foobar"]
           Scenario.prefixedGrc Scenario.prefixedInclude
           Scenario.prefixedPython Scenario.prefixedLib).
  - vm_compute. reflexivity.
  - left. reflexivity.
  - vm_compute. reflexivity.
  - vm_compute. reflexivity.
  - vm_compute. reflexivity.
  - vm_compute. reflexivity.
  - assert (Hall : forall (segs : list jsstring) (d l : list dirent) (e : dirent),
      ModuleTree.readdir Scenario.prefixed
        (Uri_file Scenario.prefixed Scenario.cwd) segs = Ok d ->
      readDirectory Scenario.prefixed
        (Uri_joinPath Scenario.prefixed
           (Uri_file Scenario.prefixed Scenario.cwd) segs) = Some l ->
      forallb ModuleTree.isFile l = true ->
      In e d -> snd e = FileType_File).
    { intros segs d l e Hd Hl Hf He. apply readdir_Ok in Hd.
      assert (d = l) by congruence. subst d.
      rewrite forallb_forall in Hf. specialize (Hf e He).
      unfold ModuleTree.isFile in Hf. now apply N.eqb_eq in Hf. }
    intros e [d Hd He _|d Hd He _|d Hd He _|d Hd He _|d Hd He _|d Hd He _].
    + apply (Hall _ d Scenario.prefixedGrc e Hd); [|vm_compute|]; trivial.
    + apply (Hall _ d Scenario.prefixedInclude e Hd); [|vm_compute|]; trivial.
    + apply (Hall _ d Scenario.prefixedPython e Hd); [|vm_compute|]; trivial.
    + apply (Hall _ d Scenario.prefixedPython e Hd); [|vm_compute|]; trivial.
    + apply (Hall _ d Scenario.prefixedLib e Hd); [|vm_compute|]; trivial.
    + apply (Hall _ d Scenario.prefixedLib e Hd); [|vm_compute|]; trivial.
  - intros e _ _. vm_compute. discriminate.
Defined.

(** C2 at the correlation of [foo] in the project with two blocks. *)
Lemma getBlockFilesTree_role_order_witness :
  ModuleTree.getBlockFilesTree Scenario.prefixed FragmentRegExp.engine
    (BlockFilterSpec.specBlocks Scenario.prefixed) (js "foo")
    (Uri_file Scenario.prefixed Scenario.cwd) Scenario.moduleName
  = Ok Scenario.fooItems
  /\ exists defs impls hdrs libs pyTests cppTests,
       Scenario.fooItems = defs ++ impls ++ hdrs ++ libs ++ pyTests ++ cppTests
       /\ Forall (fun it => ModuleTree.label it = js "Python Tests") pyTests
       /\ Forall (fun it => ModuleTree.label it = js "C++ Tests") cppTests.
Proof.
  assert (Hres :
    ModuleTree.getBlockFilesTree Scenario.prefixed FragmentRegExp.engine
      (BlockFilterSpec.specBlocks Scenario.prefixed) (js "foo")
      (Uri_file Scenario.prefixed Scenario.cwd) Scenario.moduleName
    = Ok Scenario.fooItems) by (vm_compute; reflexivity).
  split; [exact Hres|].
  destruct (@getBlockFilesTree_role_order _ _ _ _ _ _ _ Hres)
    as (defs & impls & hdrs & libs & pyTests & cppTests
        & Heq & _ & _ & _ & _ & Hpy & Hcpp).
  exists defs, impls, hdrs, libs, pyTests, cppTests.
  split; [exact Heq|]. split.
  - eapply Forall_impl; [|exact Hpy]. now intros it [Hl _].
  - eapply Forall_impl; [|exact Hcpp]. now intros it [Hl _].
Defined.

(** C10 at the project whose header directory holds a directory [foo.h]. *)
Lemma non_file_match_fails_query_witness :
  ModuleTree.getBlockFilesTree Scenario.headerIsDirectory FragmentRegExp.engine
    (BlockFilterSpec.specBlocks Scenario.headerIsDirectory) (js "foo")
    (Uri_file Scenario.headerIsDirectory Scenario.cwd) Scenario.moduleName
  = Err (Error (js "Expected a file, got something else")).
Proof.
  destruct (@non_file_match_fails_query
              Scenario.headerIsDirectory FragmentRegExp.engine
              (BlockFilterSpec.specBlocks Scenario.headerIsDirectory) (js "foo")
              (Uri_file Scenario.headerIsDirectory Scenario.cwd)
              Scenario.moduleName (Scenario.dir "foo.h")) as [_ Herr].
  - apply ModuleTree.matches_cpp with (d := [Scenario.dir "foo.h"]).
    + vm_compute. reflexivity.
    + left. reflexivity.
    + vm_compute. reflexivity.
  - vm_compute. discriminate.
  - apply Herr. intros d [<-|[<-|[<-|[<-|[]]]]]; vm_compute; discriminate.
Defined.

(** C9 at the blocks [foo] and [foobar]. *)
Lemma prefix_block_collects_longer_block_files_witness :
  ModuleTree.getBlockFilesTree Scenario.prefixed FragmentRegExp.engine
    (BlockFilterSpec.specBlocks Scenario.prefixed) (js "foo")
    (Uri_file Scenario.prefixed Scenario.cwd) Scenario.moduleName
  = Ok Scenario.fooItems
  /\ In (ModuleTree.treeItem Scenario.prefixed
           (Uri_file Scenario.prefixed Scenario.cwd) (js "Public header")
           [js "include"; js "gnuradio"; Scenario.moduleName] (js "foobar.h"))
        Scenario.fooItems
  /\ In (ModuleTree.cppImplItem Scenario.prefixed
           (Uri_file Scenario.prefixed Scenario.cwd) (js "foobar_impl.cc"))
        Scenario.fooItems.
Proof.
  assert (Hres :
    ModuleTree.getBlockFilesTree Scenario.prefixed FragmentRegExp.engine
      (BlockFilterSpec.specBlocks Scenario.prefixed) (js "foo")
      (Uri_file Scenario.prefixed Scenario.cwd) Scenario.moduleName
    = Ok Scenario.fooItems) by (vm_compute; reflexivity).
  split; [exact Hres|].
  destruct (@prefix_block_collects_longer_block_files
              Scenario.prefixed FragmentRegExp.engine
              (BlockFilterSpec.specBlocks Scenario.prefixed)
              (js "foo") (js "foobar")
              (Uri_file Scenario.prefixed Scenario.cwd) Scenario.moduleName
              Scenario.fooItems)
    as (_ & Hhdr & _ & Himpl & _).
  - vm_compute. reflexivity.
  - exact Hres.
  - split.
    + apply (Hhdr Scenario.prefixedInclude (Scenario.file "foobar.h")).
      * vm_compute. reflexivity.
      * right. left. reflexivity.
      * vm_compute. reflexivity.
    + apply (Himpl Scenario.prefixedLib (Scenario.file "foobar_impl.cc")).
      * vm_compute. reflexivity.
      * right. right. left. reflexivity.
      * vm_compute. reflexivity.
Defined.

(** C7 at the project whose [python/mymod] holds the [bindings] directory:
    an entry that is no regular file and passes no filter for [foo]. *)
Lemma lib_scenario_impl_and_test_witness :
  forallb ModuleTree.isFile
    [Scenario.file "__init__.py"; Scenario.dir "bindings"] = false
  /\ BlockFilterSpec.getCppImplFiles MoreScenarios.libWithBindings Scenario.cwd
     = Ok [js "foo"]
  /\ exists before between,
       ModuleTree.getBlockFilesTree MoreScenarios.libWithBindings
         FragmentRegExp.engine
         (BlockFilterSpec.specBlocks MoreScenarios.libWithBindings) (js "foo")
         (Uri_file MoreScenarios.libWithBindings Scenario.cwd)
         Scenario.moduleName
       = Ok (before
             ++ [ModuleTree.cppImplItem MoreScenarios.libWithBindings
                   (Uri_file MoreScenarios.libWithBindings Scenario.cwd)
                   (js "foo_impl.cc")]
             ++ between
             ++ [ModuleTree.treeItem MoreScenarios.libWithBindings
                   (Uri_file MoreScenarios.libWithBindings Scenario.cwd)
                   (js "C++ Tests") [js "lib"] (js "qa_foo.cc")]).
Proof.
  split; [reflexivity|].
  destruct (@lib_scenario_impl_and_test
              MoreScenarios.libWithBindings FragmentRegExp.engine Scenario.cwd
              Scenario.moduleName [] []
              [Scenario.file "__init__.py"; Scenario.dir "bindings"]
              Scenario.fooTestRegex)
    as (Hset & _ & _ & _ & before & between & Hres & _).
  - vm_compute. discriminate.
  - vm_compute. reflexivity.
  - vm_compute. reflexivity.
  - vm_compute. reflexivity.
  - vm_compute. reflexivity.
  - reflexivity.
  - reflexivity.
  - vm_compute. reflexivity.
  - vm_compute. reflexivity.
  - vm_compute. reflexivity.
  - vm_compute. reflexivity.
  - split; [exact Hset|]. now exists before, between.
Defined.

(** C7 as stated fails: when [lib] holds the two files and the project has
    no other directory, the implementation-derived block set is [{foo}]
    and the correlation for [foo] lists nothing: listing [grc] fails and
    the failure is the outcome of the query. *)
Lemma lib_alone_fails_correlation :
  readDirectory MoreScenarios.libAlone
    (Uri_joinPath MoreScenarios.libAlone
       (Uri_file MoreScenarios.libAlone Scenario.cwd) [js "lib"])
  = Some [Scenario.file "foo_impl.cc"; Scenario.file "qa_foo.cc"]
  /\ BlockFilterSpec.getCppImplFiles MoreScenarios.libAlone Scenario.cwd
     = Ok [js "foo"]
  /\ ModuleTree.getBlockFilesTree MoreScenarios.libAlone FragmentRegExp.engine
       (BlockFilterSpec.specBlocks MoreScenarios.libAlone) (js "foo")
       (Uri_file MoreScenarios.libAlone Scenario.cwd) Scenario.moduleName
     = Err FileNotFound.
Proof. repeat split; vm_compute; reflexivity. Qed.

(** C5 at the identifier [foo], which as a pattern also finds [foobar]. *)
Lemma exact_match_takes_single_block_branch_witness :
  RegExp_test FragmentRegExp.engine (Scenario.parsed "foo") (js "foobar") = true
  /\ Modtool.disableBlock FragmentRegExp.engine
       (BlockFilterSpec.specBlocks Scenario.prefixed)
       Scenario.cwd Scenario.moduleName (js "foo")
     = Ok {| Modtool.warningMessage :=
               js "Are you sure you want to disable "
               ++ Modtool.quoted (js "foo") ++ js "?";
             Modtool.detailMessage := [];
             Modtool.successMessage :=
               js "Block " ++ Modtool.quoted (js "foo") ++ js " was disabled";
             Modtool.toolArgument := js "foo" |}
  /\ Modtool.createPythonBindings FragmentRegExp.engine
       (BlockFilterSpec.specBlocks Scenario.prefixed) TableFS.path_join
       Scenario.cwd Scenario.moduleName (js "foo")
     = Ok (Modtool.Bind (js "foo")
             (js "Python bindings written to "
              ++ Modtool.quoted
                   (TableFS.path_join
                      [js "python"; Scenario.moduleName; js "bindings";
                       js "foo" ++ js "_python.cc"]))).
Proof.
  destruct (@exact_match_takes_single_block_branch
              Scenario.prefixed FragmentRegExp.engine
              (BlockFilterSpec.specBlocks Scenario.prefixed) TableFS.path_join
              Scenario.cwd Scenario.moduleName (js "foo")
              [js "foo"; js "foobar"] [js "foo"; js "foobar"])
    as [Hall Hcpp].
  - vm_compute. reflexivity.
  - vm_compute. reflexivity.
  - split; [vm_compute; reflexivity|]. split.
    + apply Hall. left. reflexivity.
    + apply Hcpp. left. reflexivity.
Defined.

(** C6 at the pattern [oba], which finds [foobar] only. *)
Lemma pattern_resolution_is_search_filter_witness :
  filter (RegExp_test FragmentRegExp.engine Scenario.obaRegex)
    [js "foo"; js "foobar"] = [js "foobar"]
  /\ Modtool.disableBlock FragmentRegExp.engine
       (BlockFilterSpec.specBlocks Scenario.prefixed)
       Scenario.cwd Scenario.moduleName (js "oba")
     = Ok {| Modtool.warningMessage :=
               js "Are you sure you want to disable multiple blocks?";
             Modtool.detailMessage :=
               js "The following blocks will be disabled:"
               :: List.map Modtool.quoted
                    (filter (RegExp_test FragmentRegExp.engine Scenario.obaRegex)
                       [js "foo"; js "foobar"]);
             Modtool.successMessage := js "Matching blocks were disabled: ";
             Modtool.toolArgument := js "oba" |}.
Proof.
  destruct (@pattern_resolution_is_search_filter
              Scenario.prefixed FragmentRegExp.engine
              (BlockFilterSpec.specBlocks Scenario.prefixed)
              Scenario.cwd Scenario.moduleName (js "oba")
              [js "foo"; js "foobar"] Scenario.obaRegex)
    as (_ & Hdisable & _).
  - vm_compute. reflexivity.
  - intros [H|[H|[]]]; vm_compute in H; discriminate H.
  - vm_compute. reflexivity.
  - split; [vm_compute; reflexivity|exact Hdisable].
Defined.

(* ================================================================== *)
(** * Further properties of the two files *)
(* ================================================================== *)

(** ** Trimming *)

Lemma trimStart_head (s : jsstring) :
  trimStart s = [] \/ exists c t, trimStart s = c :: t /\ isWhiteSpace c = false.
Proof.
  induction s as [|c s IH]; [now left|].
  simpl. destruct (isWhiteSpace c) eqn:Hc; [exact IH|].
  right. now exists c, s.
Qed.

Lemma trimStart_fixed (c : char16) (t : jsstring) :
  isWhiteSpace c = false -> trimStart (c :: t) = c :: t.
Proof. intros Hc. simpl. now rewrite Hc. Qed.

Lemma trimStart_idem (s : jsstring) : trimStart (trimStart s) = trimStart s.
Proof.
  destruct (trimStart_head s) as [->|(c & t & -> & Hc)]; [reflexivity|].
  now apply trimStart_fixed.
Qed.

Lemma trimStart_app_solid (l r : jsstring) (c : char16) :
  isWhiteSpace c = false ->
  trimStart (l ++ c :: r) = trimStart l ++ c :: r.
Proof.
  intros Hc. induction l as [|x l IH]; simpl.
  - now rewrite Hc.
  - destruct (isWhiteSpace x); [exact IH|reflexivity].
Qed.

Lemma trimEnd_cons_solid (c : char16) (t : jsstring) :
  isWhiteSpace c = false -> trimEnd (c :: t) = c :: trimEnd t.
Proof.
  intros Hc. unfold trimEnd. simpl rev.
  rewrite (@trimStart_app_solid (rev t) [] c Hc).
  now rewrite rev_app_distr.
Qed.

Lemma trimEnd_idem (s : jsstring) : trimEnd (trimEnd s) = trimEnd s.
Proof.
  unfold trimEnd. now rewrite rev_involutive, trimStart_idem.
Qed.

Lemma trim_idem (s : jsstring) : trim (trim s) = trim s.
Proof.
  unfold trim at 1.
  assert (Hstart : trimStart (trim s) = trim s).
  { unfold trim.
    destruct (trimStart_head s) as [->|(c & t & -> & Hc)]; [reflexivity|].
    rewrite (@trimEnd_cons_solid c t Hc). now apply trimStart_fixed. }
  rewrite Hstart. unfold trim. apply trimEnd_idem.
Qed.

(** A trimmed string neither starts nor ends with white space. *)
Lemma trimEnd_last (s : jsstring) :
  trimEnd s = [] \/ exists t c, trimEnd s = t ++ [c] /\ isWhiteSpace c = false.
Proof.
  unfold trimEnd.
  destruct (trimStart_head (rev s)) as [->|(c & t & -> & Hc)]; [now left|].
  right. exists (rev t), c. now split.
Qed.

(** ** The two name validators *)

Lemma inNameClass_module (c : char16) :
  Modtool.inNameClass c = true -> CreateModule.inNameClass c = true.
Proof.
  unfold Modtool.inNameClass, CreateModule.inNameClass.
  intros ->. reflexivity.
Qed.

Lemma nameRegexTest_module (name : jsstring) :
  Modtool.nameRegexTest name = true -> CreateModule.nameRegexTest name = true.
Proof.
  destruct name as [|c name]; [discriminate|].
  unfold Modtool.nameRegexTest, CreateModule.nameRegexTest.
  rewrite !forallb_forall. intros H x Hx. apply inNameClass_module. now apply H.
Qed.

Lemma nameRegexTest_forallb (name : jsstring) :
  Modtool.nameRegexTest name = true
  <-> name <> [] /\ forallb Modtool.inNameClass name = true.
Proof.
  destruct name as [|c name]; unfold Modtool.nameRegexTest.
  - split; [discriminate|intros [H _]; congruence].
  - split; [intros H; split; [discriminate|exact H]|tauto].
Qed.

(** X1: [validateBlockName] sees its input only through [trim]: white space
    around the candidate never changes the verdict. *)
Theorem validateBlockName_ignores_outer_space (S : list jsstring) (v : jsstring) :
  Modtool.validateBlockName S (trim v) = Modtool.validateBlockName S v.
Proof.
  unfold Modtool.validateBlockName. now rewrite trim_idem.
Qed.

(** X2: the three verdicts of [validateBlockName], exactly.  The name is
    accepted iff it trims to at least three characters of the class
    [[\w,\_]] and is no existing block; it is warned about iff it trims to
    one or two characters of the class; it is rejected in every other case.
    An accepted name is therefore never one of the existing blocks. *)
Theorem validateBlockName_verdicts (S : list jsstring) (v : jsstring) :
  let name := trim v in
  let verdict := option_map Modtool.severity (Modtool.validateBlockName S v) in
  (verdict = None
   <-> (3 <= List.length name)%nat
       /\ forallb Modtool.inNameClass name = true /\ ~ In name S)
  /\ (verdict = Some InputBoxValidationSeverity.Warning
      <-> (1 <= List.length name < 3)%nat
          /\ forallb Modtool.inNameClass name = true)
  /\ (verdict = Some InputBoxValidationSeverity.Error
      <-> name = []
          \/ forallb Modtool.inNameClass name = false
          \/ ((3 <= List.length name)%nat /\ In name S))
  /\ verdict <> Some InputBoxValidationSeverity.Info.
Proof.
  intros name verdict. unfold verdict, Modtool.validateBlockName. fold name.
  destruct name as [|c n] eqn:En.
  - cbn. intuition (try discriminate; try (simpl in *; lia)).
  - change (List.length (c :: n) =? 0)%nat with false. cbv iota.
    change (Modtool.nameRegexTest (c :: n))
      with (forallb Modtool.inNameClass (c :: n)).
    destruct (forallb Modtool.inNameClass (c :: n)) eqn:Hcls; cbn [negb].
    + destruct (List.length (c :: n) <? 3)%nat eqn:Hlen;
        [apply Nat.ltb_lt in Hlen|apply Nat.ltb_ge in Hlen].
      * cbn [option_map Modtool.severity]. cbn [List.length] in *.
        intuition (try discriminate; try lia).
      * destruct (Modtool.has S (c :: n)) eqn:Hhas;
          [apply has_In in Hhas|apply has_false in Hhas];
          cbn [option_map Modtool.severity]; cbn [List.length] in *;
          intuition (try discriminate; try lia).
    + cbn [option_map Modtool.severity].
      intuition (try discriminate; try congruence).
Qed.

(** X3: the validator of [createModule] is the laxer of the two: whatever
    it rejects, [validateBlockName] rejects for every set of existing
    blocks, and a block name accepted for some set is accepted as a module
    name. *)
Theorem module_validator_is_laxer (S : list jsstring) (v : jsstring) :
  (option_map Modtool.severity (CreateModule.validateInput v)
   = Some InputBoxValidationSeverity.Error ->
   option_map Modtool.severity (Modtool.validateBlockName S v)
   = Some InputBoxValidationSeverity.Error)
  /\ (Modtool.validateBlockName S v = None ->
      CreateModule.validateInput v = None).
Proof.
  unfold CreateModule.validateInput, Modtool.validateBlockName.
  destruct (trim v) as [|c n] eqn:En; [split; [reflexivity|discriminate]|].
  change (List.length (c :: n) =? 0)%nat with false. cbv iota.
  destruct (Modtool.nameRegexTest (c :: n)) eqn:Hb.
  - rewrite (@nameRegexTest_module (c :: n) Hb). cbn [negb].
    destruct (List.length (c :: n) <? 3)%nat; split; try discriminate.
    reflexivity.
  - cbn [negb]. split; [reflexivity|discriminate].
Qed.

(** ** More on [getBlockFilesTree] *)

Section CorrelatorShape.

Variable fs : FileSystem.
Variable E : RegExpEngine.
Variable blocks : BlockFilter.
Variable block : jsstring.
Variable baseUri : Uri fs.
Variable moduleName : jsstring.

Let item := ModuleTree.treeItem fs baseUri.
Let grcSegs := [js "grc"].
Let cppSegs := [js "include"; js "gnuradio"; moduleName].
Let pySegs := [js "python"; moduleName].
Let libSegs := [js "lib"].

(** What a query that returns has gone through, and what it returns. *)
Lemma getBlockFilesTree_Ok_inv (items : list (ModuleTree.TreeItem (Uri fs))) :
  ModuleTree.getBlockFilesTree fs E blocks block baseUri moduleName = Ok items ->
  exists grcDir cppDir pyDir libDir sel,
    readDirectory fs (Uri_joinPath fs baseUri grcSegs) = Some grcDir
    /\ readDirectory fs (Uri_joinPath fs baseUri cppSegs) = Some cppDir
    /\ readDirectory fs (Uri_joinPath fs baseUri pySegs) = Some pyDir
    /\ readDirectory fs (Uri_joinPath fs baseUri libSegs) = Some libDir
    /\ filterM (ModuleTree.isCppTestFile E blocks block) libDir = Ok sel
    /\ forallb ModuleTree.isFile
         (filter (ModuleTree.isGrcFile blocks block moduleName) grcDir) = true
    /\ forallb ModuleTree.isFile
         (filter (ModuleTree.isCppFile blocks block) cppDir) = true
    /\ forallb ModuleTree.isFile
         (filter (ModuleTree.isPyFile blocks block) pyDir) = true
    /\ forallb ModuleTree.isFile
         (filter (ModuleTree.isPyTestFile blocks block) pyDir) = true
    /\ forallb ModuleTree.isFile
         (filter (ModuleTree.isCppImplFile blocks block) libDir) = true
    /\ forallb ModuleTree.isFile sel = true
    /\ items
       = List.map (fun e => item (js "Block definition") grcSegs (fst e))
           (filter (ModuleTree.isGrcFile blocks block moduleName) grcDir)
         ++ List.map (fun e => item (js "Implementation") pySegs (fst e))
              (filter (ModuleTree.isPyFile blocks block) pyDir)
         ++ List.map (fun e => item (js "Public header") cppSegs (fst e))
              (filter (ModuleTree.isCppFile blocks block) cppDir)
         ++ List.map (fun e => ModuleTree.cppImplItem fs baseUri (fst e))
              (filter (ModuleTree.isCppImplFile blocks block) libDir)
         ++ List.map (fun e => item (js "Python Tests") pySegs (fst e))
              (filter (ModuleTree.isPyTestFile blocks block) pyDir)
         ++ List.map (fun e => item (js "C++ Tests") libSegs (fst e)) sel.
Proof.
  intros Hok.
  destruct (@getBlockFilesTree_Ok_listed fs E blocks block baseUri moduleName
              items Hok)
    as (grcDir & cppDir & pyDir & libDir & Hgrc & Hcpp & Hpy & Hlib).
  rewrite (getBlockFilesTree_listed fs E blocks block baseUri moduleName
             Hgrc Hcpp Hpy Hlib) in Hok.
  cbv zeta in Hok.
  destruct (forallb ModuleTree.isFile
              (filter (ModuleTree.isGrcFile blocks block moduleName) grcDir))
    eqn:F1; cbn [andb] in Hok; [|discriminate].
  destruct (forallb ModuleTree.isFile
              (filter (ModuleTree.isCppFile blocks block) cppDir))
    eqn:F2; cbn [andb] in Hok; [|discriminate].
  destruct (forallb ModuleTree.isFile
              (filter (ModuleTree.isPyFile blocks block) pyDir))
    eqn:F3; cbn [andb] in Hok; [|discriminate].
  destruct (forallb ModuleTree.isFile
              (filter (ModuleTree.isPyTestFile blocks block) pyDir))
    eqn:F4; cbn [andb] in Hok; [|discriminate].
  destruct (forallb ModuleTree.isFile
              (filter (ModuleTree.isCppImplFile blocks block) libDir))
    eqn:F5; cbn [andb] in Hok; [|discriminate].
  destruct (filterM (ModuleTree.isCppTestFile E blocks block) libDir)
    as [sel|] eqn:Hsel; cbn [bind] in Hok; [|discriminate].
  destruct (forallb ModuleTree.isFile sel) eqn:F6; [|discriminate].
  injection Hok as <-.
  exists grcDir, cppDir, pyDir, libDir, sel. repeat (split; [assumption|]).
  reflexivity.
Qed.

(** The entries the test filter keeps. *)
Lemma filterM_isCppTestFile_In (l sel : list dirent) (e : dirent) :
  filterM (ModuleTree.isCppTestFile E blocks block) l = Ok sel ->
  In e sel <-> In e l /\ ModuleTree.isCppTestFile E blocks block e = Ok true.
Proof.
  rewrite filterM_isCppTestFile. unfold ModuleTree.isCppTestFile.
  destruct (RegExp E (ModuleTree.cppTestPattern block)) as [re|].
  - intros [= <-]. rewrite filter_In.
    destruct (filterBlockTests blocks (fst e)); cbn [andb].
    + split; intros [H1 H2]; (split; [exact H1|]); congruence.
    + split; intros [H1 H2]; discriminate.
  - destruct (existsb (fun v => filterBlockTests blocks (fst v)) l) eqn:Hex;
      [discriminate|].
    intros [= <-]. split; [intros []|].
    intros [Hin Ht].
    destruct (filterBlockTests blocks (fst e)) eqn:Hft; [|discriminate].
    assert (existsb (fun v => filterBlockTests blocks (fst v)) l = true)
      by (apply existsb_exists; now exists e).
    congruence.
Qed.

(** The test filter fails only on a pattern the engine rejects, and then
    only when an entry passes [filterBlockTests]. *)
Lemma filterM_isCppTestFile_Err (l : list dirent) (x : exn) :
  filterM (ModuleTree.isCppTestFile E blocks block) l = Err x ->
  x = SyntaxError (ModuleTree.cppTestPattern block)
  /\ RegExp E (ModuleTree.cppTestPattern block) = None
  /\ exists e, In e l /\ filterBlockTests blocks (fst e) = true.
Proof.
  rewrite filterM_isCppTestFile.
  destruct (RegExp E (ModuleTree.cppTestPattern block)) as [re|];
    [discriminate|].
  destruct (existsb (fun v => filterBlockTests blocks (fst v)) l) eqn:Hex;
    [|discriminate].
  intros [= <-]. repeat split.
  apply existsb_exists in Hex as [e [He Hf]]. now exists e.
Qed.

End CorrelatorShape.

(** X4: [getBlockFilesTree] returns a list exactly when the four facet
    directories can be listed, every entry passing one of its filters is a
    regular file, and the test pattern is accepted by the engine whenever
    [lib] holds an entry that passes [filterBlockTests]. *)
Theorem getBlockFilesTree_returns_iff
    (fs : FileSystem) (E : RegExpEngine) (blocks : BlockFilter)
    (block : jsstring) (baseUri : Uri fs) (moduleName : jsstring) :
  (exists items,
     ModuleTree.getBlockFilesTree fs E blocks block baseUri moduleName = Ok items)
  <-> (forall d, In d (ModuleTree.facetDirs moduleName) ->
                 readDirectory fs (Uri_joinPath fs baseUri d) <> None)
      /\ (forall e, ModuleTree.matchesBlock fs E blocks block baseUri moduleName e ->
                    snd e = FileType_File)
      /\ (forall libDir e,
            readDirectory fs (Uri_joinPath fs baseUri [js "lib"]) = Some libDir ->
            In e libDir -> filterBlockTests blocks (fst e) = true ->
            RegExp E (ModuleTree.cppTestPattern block) <> None).
Proof.
  split.
  - intros [items Hok].
    destruct (@getBlockFilesTree_Ok_inv fs E blocks block baseUri moduleName
                items Hok)
      as (grcDir & cppDir & pyDir & libDir & sel & Hgrc & Hcpp & Hpy & Hlib
          & Hsel & F1 & F2 & F3 & F4 & F5 & F6 & _).
    assert (Hfile : forall l e, forallb ModuleTree.isFile l = true ->
                                In e l -> snd e = FileType_File).
    { intros l e Hl He. rewrite forallb_forall in Hl.
      specialize (Hl e He). unfold ModuleTree.isFile in Hl.
      now apply N.eqb_eq in Hl. }
    split; [|split].
    + intros d [<-|[<-|[<-|[<-|[]]]]]; congruence.
    + intros e [d Hd He Hf|d Hd He Hf|d Hd He Hf|d Hd He Hf|d Hd He Hf|d Hd He Hf];
        apply readdir_Ok in Hd.
      * assert (d = grcDir) by congruence. subst d.
        apply (Hfile _ e F1). now apply filter_In.
      * assert (d = cppDir) by congruence. subst d.
        apply (Hfile _ e F2). now apply filter_In.
      * assert (d = pyDir) by congruence. subst d.
        apply (Hfile _ e F3). now apply filter_In.
      * assert (d = pyDir) by congruence. subst d.
        apply (Hfile _ e F4). now apply filter_In.
      * assert (d = libDir) by congruence. subst d.
        apply (Hfile _ e F5). now apply filter_In.
      * assert (d = libDir) by congruence. subst d.
        apply (Hfile _ e F6).
        now apply (@filterM_isCppTestFile_In E blocks block libDir sel e Hsel).
    + intros libDir' e Hlib' He Hft Hnone.
      assert (libDir' = libDir) by congruence. subst libDir'.
      rewrite filterM_isCppTestFile, Hnone in Hsel.
      assert (Hex : existsb (fun v => filterBlockTests blocks (fst v)) libDir = true)
        by (apply existsb_exists; now exists e).
      rewrite Hex in Hsel. discriminate.
  - intros (Hdirs & Hfiles & Hre).
    assert (Hd : forall d, In d (ModuleTree.facetDirs moduleName) ->
                 exists l, readDirectory fs (Uri_joinPath fs baseUri d) = Some l).
    { intros d Hd. specialize (Hdirs d Hd).
      destruct (readDirectory fs (Uri_joinPath fs baseUri d)) as [l|];
        [now exists l|congruence]. }
    destruct (Hd [js "grc"]) as [grcDir Hgrc]; [now left|].
    destruct (Hd [js "include"; js "gnuradio"; moduleName]) as [cppDir Hcpp];
      [now right; left|].
    destruct (Hd [js "python"; moduleName]) as [pyDir Hpy];
      [now right; right; left|].
    destruct (Hd [js "lib"]) as [libDir Hlib];
      [now right; right; right; left|].
    assert (Hstage : forall (f : dirent -> bool) (d : list dirent),
      (forall e, In e d -> f e = true ->
                 ModuleTree.matchesBlock fs E blocks block baseUri moduleName e) ->
      forallb ModuleTree.isFile (filter f d) = true).
    { intros f d Hm. apply forallb_forall. intros e He.
      apply filter_In in He as [He Hf].
      unfold ModuleTree.isFile. apply N.eqb_eq. apply Hfiles. now apply Hm. }
    rewrite (getBlockFilesTree_listed fs E blocks block baseUri moduleName
               Hgrc Hcpp Hpy Hlib).
    cbv zeta.
    rewrite (Hstage (ModuleTree.isGrcFile blocks block moduleName) grcDir)
      by (intros e He Hf; apply ModuleTree.matches_grc with (d := grcDir);
          [now apply readdir_Ok|assumption|assumption]).
    rewrite (Hstage (ModuleTree.isCppFile blocks block) cppDir)
      by (intros e He Hf; apply ModuleTree.matches_cpp with (d := cppDir);
          [now apply readdir_Ok|assumption|assumption]).
    rewrite (Hstage (ModuleTree.isPyFile blocks block) pyDir)
      by (intros e He Hf; apply ModuleTree.matches_py with (d := pyDir);
          [now apply readdir_Ok|assumption|assumption]).
    rewrite (Hstage (ModuleTree.isPyTestFile blocks block) pyDir)
      by (intros e He Hf; apply ModuleTree.matches_pyTest with (d := pyDir);
          [now apply readdir_Ok|assumption|assumption]).
    rewrite (Hstage (ModuleTree.isCppImplFile blocks block) libDir)
      by (intros e He Hf; apply ModuleTree.matches_cppImpl with (d := libDir);
          [now apply readdir_Ok|assumption|assumption]).
    cbn [andb].
    destruct (filterM (ModuleTree.isCppTestFile E blocks block) libDir)
      as [sel|x] eqn:Hsel; cbn [bind].
    + assert (F6 : forallb ModuleTree.isFile sel = true).
      { apply forallb_forall. intros e He.
        apply (@filterM_isCppTestFile_In E blocks block libDir sel e Hsel) in He
          as [He Ht].
        unfold ModuleTree.isFile. apply N.eqb_eq. apply Hfiles.
        apply ModuleTree.matches_cppTest with (d := libDir);
          [now apply readdir_Ok|assumption|assumption]. }
      rewrite F6. eexists. reflexivity.
    + apply filterM_isCppTestFile_Err in Hsel as (_ & Hnone & e & He & Hft).
      now destruct (Hre libDir e Hlib He Hft).
Qed.

(** X5: what a returned correlation holds, exactly: an item is in the list
    iff it is the item of a regular file that is listed in a facet directory
    and passes the filter of one of the six sections, under the label of
    that section. *)
Theorem getBlockFilesTree_lists_exactly
    (fs : FileSystem) (E : RegExpEngine) (blocks : BlockFilter)
    (block : jsstring) (baseUri : Uri fs) (moduleName : jsstring)
    (items : list (ModuleTree.TreeItem (Uri fs))) :
  ModuleTree.getBlockFilesTree fs E blocks block baseUri moduleName = Ok items ->
  let listed (segs : list jsstring) (passes : dirent -> Prop)
             (mk : jsstring -> ModuleTree.TreeItem (Uri fs))
             (it : ModuleTree.TreeItem (Uri fs)) :=
    exists d e,
      readDirectory fs (Uri_joinPath fs baseUri segs) = Some d
      /\ In e d /\ passes e /\ snd e = FileType_File /\ it = mk (fst e) in
  let item := ModuleTree.treeItem fs baseUri in
  forall it,
    In it items
    <-> listed [js "grc"]
          (fun e => ModuleTree.isGrcFile blocks block moduleName e = true)
          (item (js "Block definition") [js "grc"]) it
        \/ listed [js "python"; moduleName]
             (fun e => ModuleTree.isPyFile blocks block e = true)
             (item (js "Implementation") [js "python"; moduleName]) it
        \/ listed [js "include"; js "gnuradio"; moduleName]
             (fun e => ModuleTree.isCppFile blocks block e = true)
             (item (js "Public header") [js "include"; js "gnuradio"; moduleName])
             it
        \/ listed [js "lib"]
             (fun e => ModuleTree.isCppImplFile blocks block e = true)
             (ModuleTree.cppImplItem fs baseUri) it
        \/ listed [js "python"; moduleName]
             (fun e => ModuleTree.isPyTestFile blocks block e = true)
             (item (js "Python Tests") [js "python"; moduleName]) it
        \/ listed [js "lib"]
             (fun e => ModuleTree.isCppTestFile E blocks block e = Ok true)
             (item (js "C++ Tests") [js "lib"]) it.
Proof.
  intros Hok listed item it. subst item.
  destruct (@getBlockFilesTree_Ok_inv fs E blocks block baseUri moduleName
              items Hok)
    as (grcDir & cppDir & pyDir & libDir & sel & Hgrc & Hcpp & Hpy & Hlib
        & Hsel & F1 & F2 & F3 & F4 & F5 & F6 & ->).
  assert (Hfile : forall l e, forallb ModuleTree.isFile l = true ->
                              In e l -> snd e = FileType_File).
  { intros l e Hl He. rewrite forallb_forall in Hl.
    specialize (Hl e He). unfold ModuleTree.isFile in Hl.
    now apply N.eqb_eq in Hl. }
  assert (Hsec : forall segs (f : dirent -> bool) mk d,
    readDirectory fs (Uri_joinPath fs baseUri segs) = Some d ->
    forallb ModuleTree.isFile (filter f d) = true ->
    (In it (List.map (fun e => mk (fst e)) (filter f d))
     <-> listed segs (fun e => f e = true) mk it)).
  { intros segs f mk d Hd Hf. rewrite in_map_iff. split.
    - intros [e [<- He]]. exists d, e.
      pose proof (Hfile _ e Hf He) as Hty.
      apply filter_In in He as [He Hp]. now repeat split.
    - intros (d' & e & Hd' & He & Hp & _ & ->).
      assert (d' = d) by congruence. subst d'.
      exists e. split; [reflexivity|]. now apply filter_In. }
  assert (Htest :
    In it (List.map (fun e => ModuleTree.treeItem fs baseUri (js "C++ Tests") [js "lib"] (fst e)) sel)
    <-> listed [js "lib"]
          (fun e => ModuleTree.isCppTestFile E blocks block e = Ok true)
          (ModuleTree.treeItem fs baseUri (js "C++ Tests") [js "lib"]) it).
  { rewrite in_map_iff. split.
    - intros [e [<- He]]. exists libDir, e.
      pose proof (Hfile _ e F6 He) as Hty.
      apply (@filterM_isCppTestFile_In E blocks block libDir sel e Hsel) in He
        as [He Hp].
      now repeat split.
    - intros (d' & e & Hd' & He & Hp & _ & ->).
      assert (d' = libDir) by congruence. subst d'.
      exists e. split; [reflexivity|].
      now apply (@filterM_isCppTestFile_In E blocks block libDir sel e Hsel). }
  rewrite !in_app_iff.
  rewrite (Hsec _ _ (ModuleTree.treeItem fs baseUri (js "Block definition") [js "grc"]) _ Hgrc F1).
  rewrite (Hsec _ _ (ModuleTree.treeItem fs baseUri (js "Implementation") [js "python"; moduleName]) _ Hpy F3).
  rewrite (Hsec _ _ (ModuleTree.treeItem fs baseUri (js "Public header")
                       [js "include"; js "gnuradio"; moduleName]) _ Hcpp F2).
  rewrite (Hsec _ _ (ModuleTree.cppImplItem fs baseUri) _ Hlib F5).
  rewrite (Hsec _ _ (ModuleTree.treeItem fs baseUri (js "Python Tests") [js "python"; moduleName]) _ Hpy F4).
  rewrite Htest. reflexivity.
Qed.

(** X6: every item of a returned correlation is shown with its resource as
    description and opens that same resource with [vscode.open]. *)
Theorem getBlockFilesTree_items_open_their_resource
    (fs : FileSystem) (E : RegExpEngine) (blocks : BlockFilter)
    (block : jsstring) (baseUri : Uri fs) (moduleName : jsstring)
    (items : list (ModuleTree.TreeItem (Uri fs))) :
  ModuleTree.getBlockFilesTree fs E blocks block baseUri moduleName = Ok items ->
  Forall (fun it =>
    ModuleTree.description it = true
    /\ ModuleTree.title (ModuleTree.item_command it) = js "open"
    /\ ModuleTree.command (ModuleTree.item_command it) = js "vscode.open"
    /\ ModuleTree.arguments (ModuleTree.item_command it)
       = [ModuleTree.resourceUri it]) items.
Proof.
  intros Hok.
  destruct (@getBlockFilesTree_Ok_inv fs E blocks block baseUri moduleName
              items Hok)
    as (grcDir & cppDir & pyDir & libDir & sel & _ & _ & _ & _
        & _ & _ & _ & _ & _ & _ & _ & ->).
  rewrite !Forall_app.
  repeat split; apply Forall_forall; intros it Hit;
    apply in_map_iff in Hit as [e [<- _]]; now repeat split.
Qed.

(** X7: the query fails with the first failure in the order of its scan.
    A [grc] that cannot be listed gives the listing error; a matching entry
    of [grc] that is no regular file gives the sanity-check error even when
    the later directories are missing; a missing header directory gives the
    listing error once [grc] is clean; and a matching entry of [lib] that is
    no regular file gives the sanity-check error before the test pattern is
    ever built. *)
Theorem getBlockFilesTree_first_failure_wins
    (fs : FileSystem) (E : RegExpEngine) (blocks : BlockFilter)
    (block : jsstring) (baseUri : Uri fs) (moduleName : jsstring) :
  let result :=
    ModuleTree.getBlockFilesTree fs E blocks block baseUri moduleName in
  let listing segs := readDirectory fs (Uri_joinPath fs baseUri segs) in
  let clean (f : dirent -> bool) d :=
    forallb ModuleTree.isFile (filter f d) = true in
  (listing [js "grc"] = None -> result = Err FileNotFound)
  /\ (forall grcDir e,
        listing [js "grc"] = Some grcDir -> In e grcDir ->
        ModuleTree.isGrcFile blocks block moduleName e = true ->
        snd e <> FileType_File ->
        result = Err (Error (js "Expected a file, got something else")))
  /\ (forall grcDir,
        listing [js "grc"] = Some grcDir ->
        clean (ModuleTree.isGrcFile blocks block moduleName) grcDir ->
        listing [js "include"; js "gnuradio"; moduleName] = None ->
        result = Err FileNotFound)
  /\ (forall grcDir cppDir pyDir libDir e,
        listing [js "grc"] = Some grcDir ->
        listing [js "include"; js "gnuradio"; moduleName] = Some cppDir ->
        listing [js "python"; moduleName] = Some pyDir ->
        listing [js "lib"] = Some libDir ->
        clean (ModuleTree.isGrcFile blocks block moduleName) grcDir ->
        clean (ModuleTree.isCppFile blocks block) cppDir ->
        clean (ModuleTree.isPyFile blocks block) pyDir ->
        clean (ModuleTree.isPyTestFile blocks block) pyDir ->
        In e libDir -> ModuleTree.isCppImplFile blocks block e = true ->
        snd e <> FileType_File ->
        result = Err (Error (js "Expected a file, got something else"))).
Proof.
  intros result listing clean. unfold result, listing, clean.
  split; [|split; [|split]].
  - intros Hgrc. unfold ModuleTree.getBlockFilesTree, ModuleTree.readdir.
    now rewrite Hgrc.
  - intros grcDir e Hgrc He Hf Hty.
    unfold ModuleTree.getBlockFilesTree, ModuleTree.readdir.
    rewrite Hgrc. cbn [bind]. rewrite mapM_mapBlockToTreeItem.
    rewrite (@forallb_isFile_false
               (filter (ModuleTree.isGrcFile blocks block moduleName) grcDir) e);
      [reflexivity|apply filter_In; now split|assumption].
  - intros grcDir Hgrc Hclean Hcpp.
    unfold ModuleTree.getBlockFilesTree, ModuleTree.readdir.
    rewrite Hgrc. cbn [bind]. rewrite mapM_mapBlockToTreeItem, Hclean.
    cbn [bind]. now rewrite Hcpp.
  - intros grcDir cppDir pyDir libDir e Hgrc Hcpp Hpy Hlib C1 C2 C3 C4 He Hf Hty.
    rewrite (getBlockFilesTree_listed fs E blocks block baseUri moduleName
               Hgrc Hcpp Hpy Hlib).
    cbv zeta. rewrite C1, C2, C3, C4.
    rewrite (@forallb_isFile_false
               (filter (ModuleTree.isCppImplFile blocks block) libDir) e);
      [reflexivity|apply filter_In; now split|assumption].
Qed.

(** X8: a block name that is no pattern the engine accepts breaks the
    correlation only through the test files of [lib].  With the four
    directories listed and the other five sections clean, the query throws
    the [SyntaxError] of the pattern [<block>.(cc|cpp|cxx)] when some entry
    of [lib] passes [filterBlockTests], and otherwise returns a list without
    any "C++ Tests" item. *)
Theorem rejected_pattern_needs_a_test_file
    (fs : FileSystem) (E : RegExpEngine) (blocks : BlockFilter)
    (block : jsstring) (baseUri : Uri fs) (moduleName : jsstring)
    (grcDir cppDir pyDir libDir : list dirent) :
  readDirectory fs (Uri_joinPath fs baseUri [js "grc"]) = Some grcDir ->
  readDirectory fs (Uri_joinPath fs baseUri
                      [js "include"; js "gnuradio"; moduleName]) = Some cppDir ->
  readDirectory fs (Uri_joinPath fs baseUri [js "python"; moduleName])
  = Some pyDir ->
  readDirectory fs (Uri_joinPath fs baseUri [js "lib"]) = Some libDir ->
  forallb ModuleTree.isFile
    (filter (ModuleTree.isGrcFile blocks block moduleName) grcDir) = true ->
  forallb ModuleTree.isFile
    (filter (ModuleTree.isCppFile blocks block) cppDir) = true ->
  forallb ModuleTree.isFile
    (filter (ModuleTree.isPyFile blocks block) pyDir) = true ->
  forallb ModuleTree.isFile
    (filter (ModuleTree.isPyTestFile blocks block) pyDir) = true ->
  forallb ModuleTree.isFile
    (filter (ModuleTree.isCppImplFile blocks block) libDir) = true ->
  RegExp E (block ++ js ".(cc|cpp|cxx)") = None ->
  ((exists e, In e libDir /\ filterBlockTests blocks (fst e) = true) ->
   ModuleTree.getBlockFilesTree fs E blocks block baseUri moduleName
   = Err (SyntaxError (block ++ js ".(cc|cpp|cxx)")))
  /\ ((forall e, In e libDir -> filterBlockTests blocks (fst e) = false) ->
      exists items,
        ModuleTree.getBlockFilesTree fs E blocks block baseUri moduleName
        = Ok items
        /\ Forall (fun it => ModuleTree.label it <> js "C++ Tests") items).
Proof.
  intros Hgrc Hcpp Hpy Hlib C1 C2 C3 C4 C5 Hre.
  rewrite (getBlockFilesTree_listed fs E blocks block baseUri moduleName
             Hgrc Hcpp Hpy Hlib).
  cbv zeta. rewrite C1, C2, C3, C4, C5. cbn [andb].
  rewrite filterM_isCppTestFile.
  change (ModuleTree.cppTestPattern block) with (block ++ js ".(cc|cpp|cxx)").
  rewrite Hre. split.
  - intros [e [He Hft]].
    assert (Hex : existsb (fun v => filterBlockTests blocks (fst v)) libDir = true)
      by (apply existsb_exists; now exists e).
    now rewrite Hex.
  - intros Hnone.
    assert (Hex : existsb (fun v => filterBlockTests blocks (fst v)) libDir = false).
    { destruct (existsb (fun v => filterBlockTests blocks (fst v)) libDir) eqn:Hex;
        [|reflexivity].
      apply existsb_exists in Hex as [e [He Hft]].
      rewrite (Hnone e He) in Hft. discriminate. }
    rewrite Hex. cbn [bind forallb List.map].
    eexists. split; [reflexivity|].
    rewrite !Forall_app. repeat split; try apply Forall_nil;
      apply Forall_forall; intros it Hit;
      apply in_map_iff in Hit as [e [<- _]].
    + intros H. cbv in H. discriminate H.
    + intros H. cbv in H. discriminate H.
    + intros H. cbv in H. discriminate H.
    + destruct (cppImplItem_label fs baseUri (fst e)) as [-> | ->];
        intros H; cbv in H; discriminate H.
    + intros H. cbv in H. discriminate H.
Qed.

Lemma endsWith_trans_under (s b a t : jsstring) :
  endsWith s (b ++ t) = true -> endsWith b a = true ->
  endsWith s (a ++ t) = true.
Proof.
  unfold endsWith. rewrite !rev_app_distr. intros Hs Hb.
  apply startsWith_trans_under with (b := rev b); assumption.
Qed.

(** X9: the Python tests are matched by the end of the file name: when the
    block [a] is a suffix of the block [b], every Python test of [b] is
    listed as a Python test of [a] too. *)
Theorem suffix_block_collects_longer_block_tests
    (fs : FileSystem) (E : RegExpEngine) (blocks : BlockFilter)
    (a b : jsstring) (baseUri : Uri fs) (moduleName : jsstring)
    (la : list (ModuleTree.TreeItem (Uri fs))) :
  endsWith b a = true ->
  ModuleTree.getBlockFilesTree fs E blocks a baseUri moduleName = Ok la ->
  forall d e,
    readDirectory fs (Uri_joinPath fs baseUri [js "python"; moduleName]) = Some d ->
    In e d -> ModuleTree.isPyTestFile blocks b e = true ->
    In (ModuleTree.treeItem fs baseUri (js "Python Tests")
          [js "python"; moduleName] (fst e)) la.
Proof.
  intros Hab Hok d e Hd He Hf.
  destruct (@getBlockFilesTree_Ok_inv fs E blocks a baseUri moduleName la Hok)
    as (grcDir & cppDir & pyDir & libDir & sel & _ & _ & Hpy & _
        & _ & _ & _ & _ & _ & _ & _ & ->).
  assert (d = pyDir) by congruence. subst d.
  do 4 (apply in_or_app; right). apply in_or_app. left.
  apply (in_map (fun e => ModuleTree.treeItem fs baseUri _ _ (fst e))).
  apply filter_In. split; [assumption|].
  unfold ModuleTree.isPyTestFile in *.
  apply andb_true_iff in Hf as [Hft Hend].
  apply andb_true_iff. split; [assumption|].
  now apply endsWith_trans_under with (b := b).
Qed.

(** ** The picker with a regular-expression entry *)

Lemma onDidChangeValue_cases (U : Type) (items : list jsstring)
    (current : list (QuickPick.QuickPickItem U)) (value : jsstring) :
  QuickPick.onDidChangeValue items current value
  = if Modtool.has items value then current
    else QuickPick.regexPick U value :: QuickPick.initialItems U items.
Proof.
  unfold QuickPick.onDidChangeValue, QuickPick.initialItems.
  now destruct (Modtool.has items value).
Qed.

(** X10: the list the picker shows after any sequence of typed values is
    the plain items, preceded by one regular-expression entry when some
    typed value was no item: the entry of the last such value, which stays
    in place while the user goes on to type the name of an item.  The entry
    is never appended after the items. *)
Theorem regex_entry_follows_last_unknown_value
    (U : Type) (items values : list jsstring) :
  QuickPick.itemsAfter U items values
  = match find (fun v => negb (Modtool.has items v)) (rev values) with
    | Some v => QuickPick.regexPick U v :: QuickPick.initialItems U items
    | None => QuickPick.initialItems U items
    end.
Proof.
  unfold QuickPick.itemsAfter.
  induction values as [|v values IH] using rev_ind; [reflexivity|].
  rewrite fold_left_app, rev_app_distr. cbn [fold_left rev app find].
  rewrite onDidChangeValue_cases, IH.
  now destruct (Modtool.has items v).
Qed.

Lemma itemsAfter_In (U : Type) (items values : list jsstring)
    (selection : QuickPick.QuickPickItem U) :
  In selection (QuickPick.itemsAfter U items values) ->
  (exists b, In b items /\ selection = QuickPick.plainItem U b)
  \/ (exists v, ~ In v items /\ selection = QuickPick.regexPick U v).
Proof.
  assert (Hplain : In selection (QuickPick.initialItems U items) ->
                   exists b, In b items /\ selection = QuickPick.plainItem U b).
  { unfold QuickPick.initialItems. intros H.
    apply in_map_iff in H as [b [<- Hb]]. now exists b. }
  unfold QuickPick.itemsAfter.
  induction values as [|v values IH] using rev_ind.
  - intros H. left. now apply Hplain.
  - rewrite fold_left_app. cbn [fold_left].
    rewrite onDidChangeValue_cases.
    destruct (Modtool.has items v) eqn:Hv; [exact IH|].
    apply has_false in Hv.
    intros [<-|H]; [right; now exists v|left; now apply Hplain].
Qed.

(** X11: what the picker resolves to decides the branch of [disableBlock].
    With the inventory as items, and no block name empty or starting with a
    dot: accepting a plain entry resolves to a block of the inventory, and
    [disableBlock] asks about that single block; accepting the
    regular-expression entry of [v] resolves to [.*v.*], which is no block
    of the inventory, so [disableBlock] compiles it and asks about the
    blocks it finds (or throws the [SyntaxError] of the pattern). *)
Theorem picker_choice_decides_branch
    (U : Type) (E : RegExpEngine) (blocks : BlockFilter)
    (cwd moduleName : jsstring) (S values : list jsstring)
    (selection : QuickPick.QuickPickItem U) :
  getAllBlocks blocks cwd moduleName = Ok S ->
  (forall b, In b S -> b <> [] /\ startsWith b (js ".") = false) ->
  In selection (QuickPick.itemsAfter U S values) ->
  let chosen := QuickPick.onDidAccept selection in
  chosen <> []
  /\ (QuickPick.description selection = None ->
      In chosen S
      /\ Modtool.disableBlock E blocks cwd moduleName chosen
         = Ok {| Modtool.warningMessage :=
                   js "Are you sure you want to disable "
                   ++ Modtool.quoted chosen ++ js "?";
                 Modtool.detailMessage := [];
                 Modtool.successMessage :=
                   js "Block " ++ Modtool.quoted chosen ++ js " was disabled";
                 Modtool.toolArgument := chosen |})
  /\ (QuickPick.description selection <> None ->
      chosen = js ".*" ++ QuickPick.label selection ++ js ".*"
      /\ ~ In chosen S
      /\ Modtool.disableBlock E blocks cwd moduleName chosen
         = match RegExp E chosen with
           | None => Err (SyntaxError chosen)
           | Some re =>
               Ok {| Modtool.warningMessage :=
                       js "Are you sure you want to disable multiple blocks?";
                     Modtool.detailMessage :=
                       js "The following blocks will be disabled:"
                       :: List.map Modtool.quoted (filter (RegExp_test E re) S);
                     Modtool.successMessage :=
                       js "Matching blocks were disabled: ";
                     Modtool.toolArgument := chosen |}
           end).
Proof.
  intros HS Hnames Hsel chosen.
  assert (Hdot : forall v, ~ In (js ".*" ++ v ++ js ".*") S).
  { intros v Hin. destruct (Hnames _ Hin) as [_ Hd].
    change (js ".*" ++ v ++ js ".*") with (js "." ++ (js "*" ++ v ++ js ".*")) in Hd.
    now rewrite startsWith_app in Hd. }
  destruct (@itemsAfter_In U S values selection Hsel)
    as [(b & Hb & ->)|(v & Hv & ->)].
  - change (QuickPick.onDidAccept (QuickPick.plainItem U b)) with b in chosen.
    subst chosen. split; [now apply Hnames|]. split.
    + intros _. split; [assumption|].
      unfold Modtool.disableBlock. rewrite HS. cbn [bind].
      apply has_In in Hb. now rewrite Hb.
    + intros H. now destruct H.
  - assert (Hc : chosen = js ".*" ++ v ++ js ".*") by reflexivity.
    clearbody chosen. subst chosen. split; [discriminate|]. split.
    + intros H. discriminate H.
    + intros _. split; [reflexivity|]. split; [apply Hdot|].
      unfold Modtool.disableBlock. rewrite HS. cbn [bind].
      pose proof (Hdot v) as Hnot. apply has_false in Hnot. rewrite Hnot.
      destruct (RegExp E (js ".*" ++ v ++ js ".*")) as [re|]; [|reflexivity].
      now rewrite pushMatching_filter.
Qed.

(** ** The tree data provider *)

(** X12: the root of the tree shows the inventory, one collapsed item per
    block in the order of the set, and the context value of an item tells
    which inventories hold the block: it starts with [block.cpp] iff the
    block has a public header and ends with [.xml] iff it has a legacy
    definition. *)
Theorem getChildren_root_shows_inventory
    (fs : FileSystem) (E : RegExpEngine) (blocks : BlockFilter)
    (cwd moduleName : jsstring) (allBlocks cppBlocks xmlBlocks : list jsstring) :
  getCppBlocks blocks cwd moduleName = Ok cppBlocks ->
  getXmlBlocks blocks cwd moduleName = Ok xmlBlocks ->
  getAllBlocks blocks cwd moduleName = Ok allBlocks ->
  exists items,
    TreeProvider.getChildren fs E blocks cwd moduleName None
    = Ok (TreeProvider.Blocks items)
    /\ List.map TreeProvider.label items = allBlocks
    /\ Forall (fun it =>
         TreeProvider.collapsibleState it = TreeProvider.Collapsed
         /\ In (TreeProvider.contextValue it)
               [js "block"; js "block.cpp"; js "block.xml"; js "block.cpp.xml"]
         /\ (startsWith (TreeProvider.contextValue it) (js "block.cpp") = true
             <-> In (TreeProvider.label it) cppBlocks)
         /\ (endsWith (TreeProvider.contextValue it) (js ".xml") = true
             <-> In (TreeProvider.label it) xmlBlocks)) items.
Proof.
  intros Hcpp Hxml Hall.
  unfold TreeProvider.getChildren. rewrite Hcpp, Hxml, Hall. cbn [bind].
  eexists. split; [reflexivity|]. split.
  - rewrite map_map. cbn [TreeProvider.label TreeProvider.blockItem].
    apply map_id.
  - apply Forall_forall. intros it Hit.
    apply in_map_iff in Hit as [name [<- _]].
    unfold TreeProvider.blockItem.
    cbn [TreeProvider.label TreeProvider.contextValue
         TreeProvider.collapsibleState].
    rewrite <- !has_In.
    destruct (Modtool.has cppBlocks name), (Modtool.has xmlBlocks name);
      (split; [reflexivity|]); (split; [cbn; tauto|]);
      split; split; intros H; try reflexivity; try discriminate H;
      vm_compute in H; discriminate H.
Qed.

(** ** The steps of [createBlock] *)

Section CreateBlockFacts.

Variable fs : FileSystem.
Variable extRoot : Uri fs.

Lemma isString_cpp_not_python (a : option jsstring) :
  CreateBlock.isString a "cpp" = true -> CreateBlock.isString a "python" = false.
Proof.
  destruct a as [s|]; [|discriminate]. unfold CreateBlock.isString.
  intros H. apply streq_true in H. subst s. reflexivity.
Qed.

(** The loop of [pickTests] only ever sets the two flags. *)
Lemma fold_markPick (picks : list (CreateBlock.Item fs)) (st : CreateBlock.State fs) :
  let st' := fold_left (@CreateBlock.markPick fs) picks st in
  CreateBlock.title st' = CreateBlock.title st
  /\ CreateBlock.step st' = CreateBlock.step st
  /\ CreateBlock.totalSteps st' = CreateBlock.totalSteps st
  /\ CreateBlock.copyright st' = CreateBlock.copyright st
  /\ CreateBlock.name st' = CreateBlock.name st
  /\ CreateBlock.blockType st' = CreateBlock.blockType st
  /\ CreateBlock.language st' = CreateBlock.language st
  /\ CreateBlock.finished st' = CreateBlock.finished st
  /\ CreateBlock.addCppTest st'
     = (if CreateBlock.picksCpp picks then Some true else CreateBlock.addCppTest st)
  /\ CreateBlock.addPythonTest st'
     = (if CreateBlock.picksPython picks then Some true else CreateBlock.addPythonTest st).
Proof.
  revert st. induction picks as [|p picks IH]; intros st.
  - cbn. repeat split.
  - cbn [fold_left]. specialize (IH (CreateBlock.markPick st p)).
    cbv zeta in IH. destruct IH as (H1 & H2 & H3 & H4 & H5 & H6 & H7 & H8 & H9 & H10).
    cbv zeta. rewrite H1, H2, H3, H4, H5, H6, H7, H8, H9, H10.
    unfold CreateBlock.picksCpp, CreateBlock.picksPython. cbn [existsb].
    fold (CreateBlock.picksCpp picks). fold (CreateBlock.picksPython picks).
    unfold CreateBlock.markPick.
    destruct (CreateBlock.isString (QuickPick.description p) "cpp") eqn:Hc.
    + rewrite (isString_cpp_not_python _ Hc). cbn.
      repeat split. now destruct (CreateBlock.picksCpp picks).
    + destruct (CreateBlock.isString (QuickPick.description p) "python");
        cbn; repeat split. now destruct (CreateBlock.picksPython picks).
Qed.

End CreateBlockFacts.

Lemma isString_streq (a : option jsstring) (lit : string) :
  CreateBlock.isString a lit = true <-> a = Some (js lit).
Proof.
  destruct a as [s|]; unfold CreateBlock.isString.
  - rewrite streq_true. split; congruence.
  - split; discriminate.
Qed.

Lemma pickLanguage_eq (fs : FileSystem) (st : CreateBlock.State fs)
    (pick : list (CreateBlock.Item fs)) :
  CreateBlock.pickLanguage st pick
  = if CreateBlock.isString (CreateBlock.blockTypeLabel st) "noblock"
       && CreateBlock.isString
            (match hd_error pick with
             | Some it => QuickPick.description it
             | None => None
             end) "python"
    then
      CreateBlock.Continue
        {| CreateBlock.title := CreateBlock.title st;
           CreateBlock.step := CreateBlock.step st;
           CreateBlock.totalSteps := CreateBlock.totalSteps st;
           CreateBlock.copyright := CreateBlock.copyright st;
           CreateBlock.name := CreateBlock.name st;
           CreateBlock.blockType := CreateBlock.blockType st;
           CreateBlock.language := hd_error pick;
           CreateBlock.addCppTest := CreateBlock.addCppTest st;
           CreateBlock.addPythonTest := CreateBlock.addPythonTest st;
           CreateBlock.finished := true |}
        None
    else
      CreateBlock.Continue
        {| CreateBlock.title := CreateBlock.title st;
           CreateBlock.step := CreateBlock.step st;
           CreateBlock.totalSteps := 5;
           CreateBlock.copyright := CreateBlock.copyright st;
           CreateBlock.name := CreateBlock.name st;
           CreateBlock.blockType := CreateBlock.blockType st;
           CreateBlock.language := hd_error pick;
           CreateBlock.addCppTest := CreateBlock.addCppTest st;
           CreateBlock.addPythonTest := CreateBlock.addPythonTest st;
           CreateBlock.finished := CreateBlock.finished st |}
        (Some CreateBlock.PickTests).
Proof. reflexivity. Qed.

(** X13: what [pickLanguage] hands over.  For a language picked among the
    two offered, the step ends the input (and marks it finished) exactly
    when the block type is [noblock] and the language is Python; in every
    other case it hands over to [pickTests] with five steps in total, and
    the list of test languages [pickTests] will offer is not empty. *)
Theorem pickLanguage_hands_over
    (fs : FileSystem) (extRoot : Uri fs) (st st' : CreateBlock.State fs)
    (lang : CreateBlock.Item fs) (rest : list (CreateBlock.Item fs))
    (next : option (CreateBlock.Step)) :
  In lang (CreateBlock.languageItems fs extRoot) ->
  CreateBlock.pickLanguage st (lang :: rest) = CreateBlock.Continue st' next ->
  CreateBlock.language st' = Some lang
  /\ (next = None
      <-> CreateBlock.blockTypeLabel st = Some (js "noblock")
          /\ lang = CreateBlock.pythonItem fs extRoot)
  /\ (next = None -> CreateBlock.finished st' = true)
  /\ (next <> None ->
      next = Some CreateBlock.PickTests
      /\ CreateBlock.totalSteps st' = 5%nat
      /\ CreateBlock.finished st' = CreateBlock.finished st
      /\ CreateBlock.testLanguages extRoot st' <> []).
Proof.
  intros Hlang. rewrite pickLanguage_eq. cbn [hd_error].
  destruct (CreateBlock.isString (CreateBlock.blockTypeLabel st) "noblock") eqn:Hty.
  - destruct Hlang as [<-|[<-|[]]].
    + change (CreateBlock.isString (QuickPick.description (CreateBlock.pythonItem fs extRoot)) "python") with true.
      cbn [andb]. intros [= <- <-]. cbn [CreateBlock.language CreateBlock.finished].
      apply isString_streq in Hty.
      repeat split; try tauto; try congruence.
    + change (CreateBlock.isString (QuickPick.description (CreateBlock.cppItem fs extRoot)) "python") with false.
      cbn [andb]. intros [= <- <-].
      cbn [CreateBlock.language CreateBlock.finished CreateBlock.totalSteps].
      split; [reflexivity|]. split.
      * split; [discriminate|]. intros [_ H].
        apply (f_equal (@QuickPick.label _)) in H. vm_compute in H. discriminate H.
      * split; [discriminate|]. intros _. repeat split.
        unfold CreateBlock.testLanguages.
        cbn [CreateBlock.languageDescription CreateBlock.language].
        change (CreateBlock.isString (QuickPick.description (CreateBlock.cppItem fs extRoot)) "cpp") with true.
        intros H. apply app_eq_nil in H as [_ H]. discriminate H.
  - cbn [andb]. intros [= <- <-].
    cbn [CreateBlock.language CreateBlock.finished CreateBlock.totalSteps].
    split; [reflexivity|]. split.
    + split; [discriminate|]. intros [H _].
      apply isString_streq in H. congruence.
    + split; [discriminate|]. intros _. repeat split.
      unfold CreateBlock.testLanguages.
      match goal with
      | |- context [CreateBlock.blockTypeLabel ?r] =>
          change (CreateBlock.blockTypeLabel r)
            with (CreateBlock.blockTypeLabel st)
      end.
      rewrite Hty. cbn [negb app]. discriminate.
Qed.

Lemma incl_nil_inv {A} (l : list A) : incl l [] -> l = [].
Proof.
  destruct l as [|a l]; [reflexivity|]. intros H.
  destruct (H a (or_introl eq_refl)).
Qed.

(** X14: the arguments of [gr_modtool add] after a complete input.  With
    the language picked among the two offered and the test picks among the
    entries [pickTests] offers, [createBlock] calls the tool with the name,
    the block type and the language, then [--copyright] and the answer of
    the author prompt when that answer is not empty (the name read from git
    is only the default of the prompt), then the QA flags of the picks.
    Python QA is never requested for a [noblock], C++ QA never for a Python
    block, and the file to open is the Python file or the public header. *)
Theorem createBlock_arguments
    (fs : FileSystem) (extRoot : Uri fs) (cwd moduleName : jsstring)
    (gitUserName : option jsstring) (author blockName : jsstring)
    (ty lang : CreateBlock.Item fs) (testPicks : list (CreateBlock.Item fs)) :
  In lang (CreateBlock.languageItems fs extRoot) ->
  incl testPicks
    ((if streq (QuickPick.label ty) (js "noblock") then []
      else [CreateBlock.pythonItem fs extRoot])
     ++ (if CreateBlock.isString (QuickPick.description lang) "cpp"
         then [CreateBlock.cppItem fs extRoot] else [])) ->
  exists langName,
    QuickPick.description lang = Some langName
    /\ CreateBlock.createBlock cwd moduleName gitUserName author blockName
         [ty] [lang] testPicks
       = CreateBlock.Add
           ([blockName; js "--block-type"; QuickPick.label ty; js "--lang"; langName]
            ++ (match author with
                | [] => []
                | _ :: _ => [js "--copyright"; author]
                end)
            ++ (if CreateBlock.picksCpp testPicks then [js "--add-cpp-qa"] else [])
            ++ (if CreateBlock.picksPython testPicks
                then [js "--add-python-qa"] else []))
           (if CreateBlock.isString (QuickPick.description lang) "python"
            then [cwd; js "python"; moduleName; blockName ++ js ".py"]
            else [cwd; js "include"; js "gnuradio"; moduleName;
                  blockName ++ js ".h"])
    /\ (CreateBlock.picksPython testPicks = true ->
        QuickPick.label ty <> js "noblock")
    /\ (CreateBlock.picksCpp testPicks = true ->
        lang = CreateBlock.cppItem fs extRoot).
Proof.
  intros Hlang Hpicks.
  (* what the offered entries allow *)
  assert (Hpy : CreateBlock.picksPython testPicks = true ->
                QuickPick.label ty <> js "noblock").
  { intros Hp Hty. apply streq_true in Hty. rewrite Hty in Hpicks.
    unfold CreateBlock.picksPython in Hp.
    apply existsb_exists in Hp as [p [Hin Hd]].
    apply Hpicks in Hin. cbn [app] in Hin.
    destruct (CreateBlock.isString (QuickPick.description lang) "cpp");
      [|destruct Hin].
    destruct Hin as [<-|[]]. discriminate Hd. }
  assert (Hcpp : CreateBlock.picksCpp testPicks = true ->
                 lang = CreateBlock.cppItem fs extRoot).
  { intros Hp. unfold CreateBlock.picksCpp in Hp.
    apply existsb_exists in Hp as [p [Hin Hd]].
    apply Hpicks in Hin.
    destruct Hlang as [<-|[<-|[]]]; [|reflexivity].
    change (CreateBlock.isString
              (QuickPick.description (CreateBlock.pythonItem fs extRoot)) "cpp")
      with false in Hin.
    rewrite app_nil_r in Hin.
    destruct (streq (QuickPick.label ty) (js "noblock")); [destruct Hin|].
    destruct Hin as [<-|[]]. discriminate Hd. }
  pose proof (@fold_markPick fs testPicks) as Hfold. cbv zeta in Hfold.
  unfold CreateBlock.createBlock, CreateBlock.runForward,
    CreateBlock.inputAuthor, CreateBlock.inputName, CreateBlock.pickBlockType.
  rewrite pickLanguage_eq. cbn [hd_error].
  match goal with
  | |- context [CreateBlock.blockTypeLabel ?r] =>
      change (CreateBlock.blockTypeLabel r) with (Some (QuickPick.label ty))
  end.
  cbn [CreateBlock.isString CreateBlock.title CreateBlock.step
       CreateBlock.totalSteps CreateBlock.copyright CreateBlock.name
       CreateBlock.blockType CreateBlock.language CreateBlock.addCppTest
       CreateBlock.addPythonTest CreateBlock.finished CreateBlock.initialState].
  destruct Hlang as [<-|[<-|[]]].
  - exists (js "python"). split; [reflexivity|].
    change (CreateBlock.isString
              (QuickPick.description (CreateBlock.pythonItem fs extRoot)) "python")
      with true in *.
    change (CreateBlock.isString
              (QuickPick.description (CreateBlock.pythonItem fs extRoot)) "cpp")
      with false in *.
    destruct (streq (QuickPick.label ty) (js "noblock")) eqn:Hty; cbn [andb].
    + apply incl_nil_inv in Hpicks. subst testPicks.
      split; [|split; assumption].
      destruct author; reflexivity.
    + split; [|split; assumption].
      unfold CreateBlock.pickTests, CreateBlock.afterSteps,
        CreateBlock.addArguments, CreateBlock.languageDescription.
      cbn [CreateBlock.finished negb CreateBlock.name CreateBlock.blockType
           CreateBlock.language CreateBlock.copyright CreateBlock.addCppTest
           CreateBlock.addPythonTest].
      match goal with
      | |- context [fold_left _ testPicks ?s] =>
          destruct (Hfold s) as (_ & _ & _ & H4 & H5 & H6 & H7 & _ & H9 & H10)
      end.
      rewrite H4, H5, H6, H7, H9, H10.
      cbn [CreateBlock.name CreateBlock.blockType CreateBlock.language
           CreateBlock.copyright CreateBlock.addCppTest
           CreateBlock.addPythonTest].
      destruct (CreateBlock.picksCpp testPicks) eqn:Hc.
      { specialize (Hcpp eq_refl).
        apply (f_equal (@QuickPick.label _)) in Hcpp.
        vm_compute in Hcpp. discriminate Hcpp. }
      destruct (CreateBlock.picksPython testPicks), author; reflexivity.
  - exists (js "cpp"). split; [reflexivity|].
    change (CreateBlock.isString
              (QuickPick.description (CreateBlock.cppItem fs extRoot)) "python")
      with false in *.
    rewrite andb_false_r.
    split; [|split; assumption].
    unfold CreateBlock.pickTests, CreateBlock.afterSteps,
      CreateBlock.addArguments, CreateBlock.languageDescription.
    cbn [CreateBlock.finished negb CreateBlock.name CreateBlock.blockType
         CreateBlock.language CreateBlock.copyright CreateBlock.addCppTest
         CreateBlock.addPythonTest].
    match goal with
    | |- context [fold_left _ testPicks ?s] =>
        destruct (Hfold s) as (_ & _ & _ & H4 & H5 & H6 & H7 & _ & H9 & H10)
    end.
    rewrite H4, H5, H6, H7, H9, H10.
    cbn [CreateBlock.name CreateBlock.blockType CreateBlock.language
         CreateBlock.copyright CreateBlock.addCppTest
         CreateBlock.addPythonTest].
    destruct (CreateBlock.picksCpp testPicks),
      (CreateBlock.picksPython testPicks), author; reflexivity.
Qed.

(** X15: [pickTests] only ever raises the QA flags.  After the step the
    input is finished, nothing follows, and a flag is set iff it was set
    before or a pick of its language is among the picks: a flag set by an
    earlier pass through the step is kept when the pick is dropped. *)
Theorem pickTests_only_raises_flags
    (fs : FileSystem) (st : CreateBlock.State fs)
    (picks : list (CreateBlock.Item fs)) :
  exists st',
    CreateBlock.pickTests st picks = CreateBlock.Continue st' None
    /\ CreateBlock.finished st' = true
    /\ CreateBlock.name st' = CreateBlock.name st
    /\ CreateBlock.blockType st' = CreateBlock.blockType st
    /\ CreateBlock.language st' = CreateBlock.language st
    /\ (CreateBlock.addCppTest st' = Some true
        <-> CreateBlock.addCppTest st = Some true
            \/ CreateBlock.picksCpp picks = true)
    /\ (CreateBlock.addPythonTest st' = Some true
        <-> CreateBlock.addPythonTest st = Some true
            \/ CreateBlock.picksPython picks = true).
Proof.
  unfold CreateBlock.pickTests. eexists. split; [reflexivity|].
  destruct (@fold_markPick fs picks st)
    as (_ & _ & _ & _ & H5 & H6 & H7 & _ & H9 & H10).
  cbn [CreateBlock.finished CreateBlock.name CreateBlock.blockType
       CreateBlock.language CreateBlock.addCppTest CreateBlock.addPythonTest].
  rewrite H5, H6, H7, H9, H10.
  repeat (split; [reflexivity|]).
  destruct (CreateBlock.picksCpp picks), (CreateBlock.picksPython picks);
    intuition discriminate.
Qed.

(** ** The texts made of a failure of the tool *)

Lemma splitLines_nonempty (s : jsstring) : ShellErrors.splitLines s <> [].
Proof.
  induction s as [|c s IH]; cbn; [discriminate|].
  destruct (c =? 10)%N; [discriminate|].
  destruct (ShellErrors.splitLines s); discriminate.
Qed.

Lemma splitLines_no_EOL (s : jsstring) :
  Forall (fun line => ~ In 10%N line) (ShellErrors.splitLines s).
Proof.
  induction s as [|c s IH]; cbn.
  - constructor; [intros []|constructor].
  - destruct (N.eqb_spec c 10).
    + constructor; [intros []|exact IH].
    + destruct (ShellErrors.splitLines s) as [|line lines].
      * constructor; [|constructor]. intros [H|[]]. congruence.
      * inversion IH as [|? ? Hl Hls]; subst.
        constructor; [|assumption]. intros [H|H]; [congruence|contradiction].
Qed.

Lemma join_cons (sep x : jsstring) (l : list jsstring) :
  l <> [] -> join sep (x :: l) = x ++ sep ++ join sep l.
Proof. destruct l; [congruence|reflexivity]. Qed.

Lemma join_splitLines (s : jsstring) :
  join ShellErrors.EOL (ShellErrors.splitLines s) = s.
Proof.
  induction s as [|c s IH]; [reflexivity|]. cbn [ShellErrors.splitLines].
  destruct (N.eqb_spec c 10) as [->|Hc].
  - rewrite join_cons by apply splitLines_nonempty. now rewrite IH.
  - pose proof (splitLines_nonempty s) as Hne.
    destruct (ShellErrors.splitLines s) as [|line lines]; [congruence|].
    destruct lines as [|l2 lines].
    + cbn in *. now rewrite IH.
    + rewrite join_cons by discriminate.
      rewrite join_cons in IH by discriminate.
      cbn [app]. now rewrite IH.
Qed.







Lemma trimEnd_solid_last (t : jsstring) (c : char16) :
  isWhiteSpace c = false -> trimEnd (t ++ [c]) = t ++ [c].
Proof.
  intros Hc. unfold trimEnd. rewrite rev_app_distr. cbn [rev app].
  rewrite trimStart_fixed by assumption.
  cbn [rev]. now rewrite rev_involutive.
Qed.

(** The last line of a text: it has no line break, and the text is that
    line alone or ends with a line break followed by it. *)
Lemma pop_splitLines (s : jsstring) :
  exists line,
    ShellErrors.pop (ShellErrors.splitLines s) = Some line
    /\ ~ In 10%N line
    /\ (s = line \/ exists before, s = before ++ 10%N :: line).
Proof.
  pose proof (splitLines_nonempty s) as Hne.
  pose proof (splitLines_no_EOL s) as Hno.
  pose proof (join_splitLines s) as Hjoin.
  unfold ShellErrors.pop.
  destruct (rev (ShellErrors.splitLines s)) as [|line r] eqn:Hrev.
  - apply (f_equal (@rev _)) in Hrev. rewrite rev_involutive in Hrev.
    cbn in Hrev. congruence.
  - apply (f_equal (@rev _)) in Hrev. rewrite rev_involutive in Hrev.
    cbn [rev] in Hrev. rewrite Hrev in *.
    exists line. split; [reflexivity|]. split.
    + rewrite Forall_app in Hno. destruct Hno as [_ Hno].
      now inversion Hno.
    + clear Hrev Hne Hno. revert Hjoin. generalize (rev r) as init.
      intros init. revert s.
      induction init as [|x init IH]; intros s Hjoin.
      * left. now symmetry.
      * right. cbn [app] in Hjoin.
        rewrite join_cons in Hjoin by (destruct init; discriminate).
        destruct (IH (join ShellErrors.EOL (init ++ [line])) eq_refl)
          as [Heq|[before Heq]].
        -- exists x. rewrite <- Hjoin, Heq. reflexivity.
        -- exists (x ++ 10%N :: before). rewrite <- Hjoin, Heq.
           rewrite <- app_assoc. reflexivity.
Qed.

Example split_overlap :
  ShellErrors.split (js "aaa") (js "aa") = [[]; js "a"].
Proof. reflexivity. Qed.

Example split_crlf :
  ShellErrors.split (js "a" ++ ShellErrors.EOL_win32 ++ ShellErrors.EOL)
    ShellErrors.EOL_win32
  = [js "a"; ShellErrors.EOL].
Proof. reflexivity. Qed.

Example split_empty : ShellErrors.split [] ShellErrors.EOL = [[]].
Proof. reflexivity. Qed.

Lemma pop_cons (x : jsstring) (l : list jsstring) (line : jsstring) :
  ShellErrors.pop l = Some line -> ShellErrors.pop (x :: l) = Some line.
Proof.
  unfold ShellErrors.pop. cbn [rev].
  destruct (rev l) as [|y r]; [discriminate|]. now intros [= ->].
Qed.

Lemma includes_false (s p : jsstring) :
  ShellErrors.includes s p = false <->
  forall i, (i <= List.length s)%nat -> startsWith (skipn i s) p = false.
Proof.
  unfold ShellErrors.includes. split.
  - intros H i Hi.
    destruct (startsWith (skipn i s) p) eqn:Hs; [|reflexivity].
    rewrite <- H. symmetry. apply existsb_exists. exists i. split; [|assumption].
    apply in_seq. lia.
  - intros H.
    destruct (existsb _ _) eqn:Hex; [|reflexivity].
    apply existsb_exists in Hex as [i [Hi Hs]]. apply in_seq in Hi.
    rewrite H in Hs by lia. discriminate.
Qed.

Lemma includes_single (s : jsstring) (c : char16) :
  ShellErrors.includes s [c] = false -> ~ In c s.
Proof.
  intros H Hin. apply in_split in Hin as (l1 & l2 & ->).
  rewrite includes_false in H.
  specialize (H (List.length l1)).
  rewrite skipn_app, skipn_all, Nat.sub_diag in H. cbn in H.
  rewrite N.eqb_refl in H. rewrite length_app in H. cbn in H.
  assert (false = true) by (rewrite <- H by lia; reflexivity). discriminate.
Qed.

(** The last piece [split] finds: it holds no separator, and the text is
    that piece alone or ends with a separator followed by it. *)
Lemma pop_splitFrom (separator : jsstring) :
  separator <> [] ->
  forall (fuel : nat) (piece s : jsstring),
    (List.length s <= fuel)%nat ->
    (forall i, (i < List.length piece)%nat ->
               startsWith (skipn i (rev piece ++ s)) separator = false) ->
    exists line,
      ShellErrors.pop (ShellErrors.splitFrom fuel separator piece s) = Some line
      /\ (rev piece ++ s = line
          \/ exists before, rev piece ++ s = before ++ separator ++ line)
      /\ ShellErrors.includes line separator = false.
Proof.
  intros Hsep fuel.
  induction fuel as [|fuel IH]; intros piece s Hlen Hinv.
  - destruct s as [|c s]; [|cbn in Hlen; lia].
    cbn [ShellErrors.splitFrom]. exists (rev piece).
    rewrite app_nil_r in *. split; [reflexivity|]. split; [now left|].
    apply includes_false. intros i Hi. rewrite length_rev in Hi.
    destruct (Nat.eq_dec i (List.length piece)) as [->|Hne].
    + rewrite skipn_all2 by (rewrite length_rev; lia).
      destruct separator; [congruence|reflexivity].
    + apply Hinv. lia.
  - destruct s as [|c s].
    + cbn [ShellErrors.splitFrom]. exists (rev piece).
      rewrite app_nil_r in *. split; [reflexivity|]. split; [now left|].
      apply includes_false. intros i Hi. rewrite length_rev in Hi.
      destruct (Nat.eq_dec i (List.length piece)) as [->|Hne].
      * rewrite skipn_all2 by (rewrite length_rev; lia).
        destruct separator; [congruence|reflexivity].
      * apply Hinv. lia.
    + cbn [ShellErrors.splitFrom].
      destruct (startsWith (c :: s) separator) eqn:Hs.
      * apply startsWith_inv in Hs as [t Ht]. rewrite Ht.
        rewrite skipn_app, skipn_all, Nat.sub_diag. cbn [app skipn].
        assert (Hlt : (List.length t <= fuel)%nat).
        { apply (f_equal (@List.length _)) in Ht. rewrite length_app in Ht.
          cbn [List.length] in *. destruct separator; [congruence|].
          cbn [List.length] in Ht. lia. }
        destruct (IH [] t Hlt) as (line & Hpop & Hshape & Hno).
        { intros i Hi. cbn in Hi. lia. }
        exists line. split; [now apply pop_cons|]. split; [|assumption].
        right. cbn [rev app] in Hshape.
        destruct Hshape as [->|[before ->]].
        -- now exists (rev piece).
        -- exists (rev piece ++ separator ++ before).
           now rewrite <- !app_assoc.
      * assert (Heq : rev (c :: piece) ++ s = rev piece ++ c :: s).
        { cbn [rev]. now rewrite <- app_assoc. }
        destruct (IH (c :: piece) s) as (line & Hpop & Hshape & Hno).
        { cbn in Hlen. lia. }
        { intros i Hi. rewrite Heq. cbn [List.length] in Hi.
          destruct (Nat.eq_dec i (List.length piece)) as [->|Hne].
          - rewrite skipn_app, skipn_all2 by (rewrite length_rev; lia).
            rewrite length_rev, Nat.sub_diag. exact Hs.
          - apply Hinv. lia. }
        rewrite Heq in Hshape. now exists line.
Qed.

Lemma pop_split (s separator : jsstring) :
  separator <> [] ->
  exists line,
    ShellErrors.pop (ShellErrors.split s separator) = Some line
    /\ (s = line \/ exists before, s = before ++ separator ++ line)
    /\ ShellErrors.includes line separator = false.
Proof.
  intros Hsep.
  destruct (@pop_splitFrom separator Hsep (List.length s) [] s) as (line & H).
  - lia.
  - intros i Hi. cbn in Hi. lia.
  - exists line. unfold ShellErrors.split.
    destruct separator; [congruence|exact H].
Qed.

(** On POSIX, [split] gives the lines of [splitLines]. *)
Lemma splitFrom_EOL (s : jsstring) :
  forall (fuel : nat) (piece : jsstring),
    (List.length s <= fuel)%nat ->
    ShellErrors.splitFrom fuel ShellErrors.EOL piece s
    = match ShellErrors.splitLines s with
      | line :: lines => (rev piece ++ line) :: lines
      | [] => [rev piece]
      end.
Proof.
  induction s as [|c s IH]; intros fuel piece Hlen.
  - destruct fuel; cbn; now rewrite app_nil_r.
  - destruct fuel as [|fuel]; [cbn in Hlen; lia|].
    cbn [ShellErrors.splitFrom ShellErrors.splitLines].
    change (startsWith (c :: s) ShellErrors.EOL) with ((c =? 10)%N && true)%bool.
    change (List.length ShellErrors.EOL) with 1%nat.
    rewrite andb_true_r.
    assert (Hs : (List.length s <= fuel)%nat) by (cbn in Hlen; lia).
    destruct (c =? 10)%N.
    + cbn [List.length skipn]. rewrite (IH fuel [] Hs). cbn [rev app].
      rewrite app_nil_r.
      pose proof (splitLines_nonempty s) as Hne.
      now destruct (ShellErrors.splitLines s).
    + rewrite (IH fuel (c :: piece) Hs). cbn [rev].
      pose proof (splitLines_nonempty s) as Hne.
      destruct (ShellErrors.splitLines s); [congruence|].
      now rewrite <- app_assoc.
Qed.

Lemma split_EOL (s : jsstring) :
  ShellErrors.split s ShellErrors.EOL = ShellErrors.splitLines s.
Proof.
  change (ShellErrors.split s ShellErrors.EOL)
    with (ShellErrors.splitFrom (List.length s) ShellErrors.EOL [] s).
  rewrite splitFrom_EOL by lia.
  pose proof (splitLines_nonempty s) as Hne.
  now destruct (ShellErrors.splitLines s).
Qed.

(** X16: the message [convertXmlToYaml] throws for a failure of the tool,
    on a host whose [os.EOL] is the line feed (POSIX) or carriage return and
    line feed (Windows).  Without a log it is the message of the failure.
    With a log it is the last line of the log once its trailing white space
    is cut: the trimmed log is that line alone, or ends with an [EOL]
    followed by it, and the line holds no [EOL] (on POSIX, no line feed at
    all); so it ends the trimmed log, has no trailing white space, and is
    empty exactly when the log is blank, in which case the message of the
    failure is not used. *)
Theorem lastLogLine_is_last_line
    (eol : jsstring) (e : ShellErrors.PythonShellError) :
  In eol [ShellErrors.EOL; ShellErrors.EOL_win32] ->
  (ShellErrors.log e = None ->
   ShellErrors.lastLogLine eol e = ShellErrors.message e)
  /\ (forall l, ShellErrors.log e = Some l ->
        let m := ShellErrors.lastLogLine eol e in
        (trimEnd l = m \/ exists before, trimEnd l = before ++ eol ++ m)
        /\ ShellErrors.includes m eol = false
        /\ (eol = ShellErrors.EOL -> ~ In 10%N m)
        /\ endsWith (trimEnd l) m = true
        /\ trimEnd m = m
        /\ (m = [] <-> trimEnd l = [])).
Proof.
  intros Heol.
  assert (Hlast : exists init, eol = init ++ [10%N]).
  { destruct Heol as [<-|[<-|[]]]; [now exists []|now exists [13%N]]. }
  destruct Hlast as [init Hinit].
  assert (Hsep : eol <> []) by (rewrite Hinit; now destruct init).
  split.
  - unfold ShellErrors.lastLogLine. now intros ->.
  - intros l Hl m. unfold m, ShellErrors.lastLogLine. rewrite Hl.
    destruct (@pop_split (trimEnd l) eol Hsep) as (line & -> & Hshape & Hno).
    split; [exact Hshape|]. split; [exact Hno|].
    split; [intros ->; now apply includes_single|].
    assert (Hend : endsWith (trimEnd l) line = true).
    { unfold endsWith. destruct Hshape as [<-|[before ->]].
      - apply startsWith_iff. exists []. now rewrite app_nil_r.
      - rewrite !rev_app_distr. rewrite <- app_assoc.
        apply startsWith_app. }
    split; [assumption|].
    destruct (trimEnd_last l) as [Hnil|(t & c & Ht & Hc)].
    + rewrite Hnil in *.
      assert (line = []).
      { destruct Hshape as [<-|[before Hb]]; [reflexivity|].
        symmetry in Hb. apply app_eq_nil in Hb as [_ Hb].
        apply app_eq_nil in Hb as [Hb _]. congruence. }
      subst line. split; [reflexivity|tauto].
    + rewrite Ht in *.
      assert (Hline : exists t', line = t' ++ [c]).
      { destruct Hshape as [<-|[before Hb]]; [now exists t|].
        destruct line as [|x line _] using rev_ind.
        - rewrite Hinit, app_nil_r, app_assoc in Hb.
          apply app_inj_tail in Hb as [_ Hc10]. subst c. discriminate Hc.
        - exists line. f_equal.
          rewrite !app_assoc in Hb.
          now apply app_inj_tail in Hb as [_ ->]. }
      destruct Hline as [t' ->]. split.
      * now apply trimEnd_solid_last.
      * split; intros H; [destruct t'|destruct t]; discriminate H.
Qed.


(** ** The file lists of the confirmations *)

Lemma concat_sep_join (sep x : jsstring) (l : list jsstring) :
  List.concat (List.map (fun seg => sep ++ seg) (x :: l)) = sep ++ join sep (x :: l).
Proof.
  revert x. induction l as [|y l IH]; intros x.
  - cbn. now rewrite app_nil_r.
  - rewrite join_cons by discriminate.
    cbn [List.map List.concat]. cbn [List.map List.concat] in IH.
    rewrite IH, <- !app_assoc. reflexivity.
Qed.

Lemma slice_relative (cwd : jsstring) (segs : list jsstring) (name : jsstring) :
  slice (cwd ++ List.concat (List.map (fun seg => js "/" ++ seg) (segs ++ [name])))
        (List.length cwd + 1)
  = join (js "/") (segs ++ [name]).
Proof.
  destruct (segs ++ [name]) as [|x l] eqn:Hs;
    [destruct segs; discriminate Hs|].
  rewrite concat_sep_join. unfold slice.
  rewrite app_assoc, skipn_app.
  rewrite skipn_all2 by (rewrite length_app; cbn; lia).
  rewrite length_app. cbn [List.length js List.map list_ascii_of_string].
  now rewrite Nat.sub_diag.
Qed.

(** X18: the confirmations of [removeBlock] and [renameBlock] list the
    files of the block by their paths relative to the project root.  On a
    platform where a path joined to the root is the root, a slash and the
    segments joined by slashes, each line after the heading is
    [<facet directory>/<file name>], and the two dialogs list the same
    files in the same order. *)
Theorem confirmations_list_relative_paths
    (fs : FileSystem) (E : RegExpEngine) (blocks : BlockFilter)
    (cwd moduleName b newName : jsstring) (S : list jsstring)
    (items : list (ModuleTree.TreeItem (Uri fs))) :
  (forall segs,
     Uri_fsPath fs (Uri_joinPath fs (Uri_file fs cwd) segs)
     = cwd ++ List.concat (List.map (fun seg => js "/" ++ seg) segs)) ->
  getAllBlocks blocks cwd moduleName = Ok S ->
  In b S ->
  newName <> [] ->
  ModuleTree.getBlockFilesTree fs E blocks b (Uri_file fs cwd) moduleName
  = Ok items ->
  exists removal renaming paths,
    Modtool.removeBlock fs E blocks cwd moduleName b = Ok removal
    /\ RenameBlock.renameBlock fs E blocks cwd moduleName b (Some newName)
       = Ok (Some renaming)
    /\ Modtool.detailMessage removal
       = js "The following files will be deleted:" :: paths
    /\ RenameBlock.detailMessage renaming
       = js "The following files will be renamed:" :: paths
    /\ RenameBlock.toolArguments renaming = [b; newName]
    /\ List.length paths = List.length items
    /\ Forall (fun path =>
         exists dir name,
           In dir (ModuleTree.facetDirs moduleName)
           /\ path = join (js "/") (dir ++ [name])) paths.
Proof.
  intros Hfs HS Hin Hnew Hitems.
  unfold Modtool.removeBlock, RenameBlock.renameBlock.
  rewrite HS. cbn [bind]. apply has_In in Hin. rewrite Hin, Hitems. cbn [bind].
  destruct newName as [|c newName]; [congruence|].
  do 3 eexists. split; [reflexivity|]. split; [reflexivity|].
  cbn [Modtool.detailMessage RenameBlock.detailMessage RenameBlock.toolArguments].
  split; [reflexivity|]. split; [reflexivity|]. split; [reflexivity|].
  split; [apply length_map|].
  destruct (@getBlockFilesTree_Ok_inv fs E blocks b (Uri_file fs cwd) moduleName
              items Hitems)
    as (grcDir & cppDir & pyDir & libDir & sel & _ & _ & _ & _
        & _ & _ & _ & _ & _ & _ & _ & ->).
  apply Forall_forall. intros path Hpath.
  apply in_map_iff in Hpath as [it [<- Hit]].
  assert (Hsec : forall lbl segs (l : list dirent),
    In segs (ModuleTree.facetDirs moduleName) ->
    In it (List.map (fun e => ModuleTree.treeItem fs (Uri_file fs cwd) lbl segs (fst e)) l) ->
    exists dir name,
      In dir (ModuleTree.facetDirs moduleName)
      /\ slice (Uri_fsPath fs (ModuleTree.resourceUri it)) (List.length cwd + 1)
         = join (js "/") (dir ++ [name])).
  { intros lbl segs l Hsegs Hl. apply in_map_iff in Hl as [e [<- _]].
    exists segs, (fst e). split; [assumption|].
    cbn [ModuleTree.resourceUri ModuleTree.treeItem].
    rewrite Hfs. apply slice_relative. }
  repeat (apply in_app_or in Hit as [Hit|Hit]).
  - apply (Hsec _ _ _ (or_introl eq_refl) Hit).
  - apply (Hsec _ _ _ (or_intror (or_intror (or_introl eq_refl))) Hit).
  - apply (Hsec _ _ _ (or_intror (or_introl eq_refl)) Hit).
  - apply in_map_iff in Hit as [e [<- _]].
    exists [js "lib"], (fst e).
    split; [now right; right; right; left|].
    cbn [ModuleTree.resourceUri ModuleTree.cppImplItem ModuleTree.treeItem].
    rewrite Hfs. apply slice_relative.
  - apply (Hsec _ _ _ (or_intror (or_intror (or_introl eq_refl))) Hit).
  - apply (Hsec _ _ _ (or_intror (or_intror (or_intror (or_introl eq_refl)))) Hit).
Qed.

(** ** The further properties at the scenarios *)

(** X5 at the correlation of [foo]: the header [foobar.h] is listed. *)
Lemma getBlockFilesTree_lists_exactly_witness :
  In (ModuleTree.treeItem Scenario.prefixed
        (Uri_file Scenario.prefixed Scenario.cwd) (js "Public header")
        [js "include"; js "gnuradio"; Scenario.moduleName] (js "foobar.h"))
     Scenario.fooItems.
Proof.
  assert (Hres :
    ModuleTree.getBlockFilesTree Scenario.prefixed FragmentRegExp.engine
      (BlockFilterSpec.specBlocks Scenario.prefixed) (js "foo")
      (Uri_file Scenario.prefixed Scenario.cwd) Scenario.moduleName
    = Ok Scenario.fooItems) by (vm_compute; reflexivity).
  apply (@getBlockFilesTree_lists_exactly
           Scenario.prefixed FragmentRegExp.engine
           (BlockFilterSpec.specBlocks Scenario.prefixed) (js "foo")
           (Uri_file Scenario.prefixed Scenario.cwd) Scenario.moduleName
           Scenario.fooItems Hres).
  right. right. left.
  exists Scenario.prefixedInclude, (Scenario.file "foobar.h").
  split; [vm_compute; reflexivity|].
  split; [right; left; reflexivity|].
  split; [vm_compute; reflexivity|].
  split; reflexivity.
Defined.

(** X6 at the correlation of [foo]. *)
Lemma getBlockFilesTree_items_open_their_resource_witness :
  Forall (fun it =>
    ModuleTree.description it = true
    /\ ModuleTree.title (ModuleTree.item_command it) = js "open"
    /\ ModuleTree.command (ModuleTree.item_command it) = js "vscode.open"
    /\ ModuleTree.arguments (ModuleTree.item_command it)
       = [ModuleTree.resourceUri it]) Scenario.fooItems.
Proof.
  apply (@getBlockFilesTree_items_open_their_resource
           Scenario.prefixed FragmentRegExp.engine
           (BlockFilterSpec.specBlocks Scenario.prefixed) (js "foo")
           (Uri_file Scenario.prefixed Scenario.cwd) Scenario.moduleName).
  vm_compute. reflexivity.
Defined.

(** X8 at the block name [(]: with the test file [qa_foo.cc] in [lib] the
    pattern is built and rejected. *)
Lemma rejected_pattern_needs_a_test_file_witness :
  ModuleTree.getBlockFilesTree Scenario.libOnly FragmentRegExp.engine
    (BlockFilterSpec.specBlocks Scenario.libOnly) (js "(")
    (Uri_file Scenario.libOnly Scenario.cwd) Scenario.moduleName
  = Err (SyntaxError (js "(" ++ js ".(cc|cpp|cxx)")).
Proof.
  destruct (@rejected_pattern_needs_a_test_file
              Scenario.libOnly FragmentRegExp.engine
              (BlockFilterSpec.specBlocks Scenario.libOnly) (js "(")
              (Uri_file Scenario.libOnly Scenario.cwd) Scenario.moduleName
              [] [] [] [Scenario.file "foo_impl.cc"; Scenario.file "qa_foo.cc"])
    as [Hthrows _].
  - vm_compute. reflexivity.
  - vm_compute. reflexivity.
  - vm_compute. reflexivity.
  - vm_compute. reflexivity.
  - vm_compute. reflexivity.
  - vm_compute. reflexivity.
  - vm_compute. reflexivity.
  - vm_compute. reflexivity.
  - vm_compute. reflexivity.
  - vm_compute. reflexivity.
  - apply Hthrows. exists (Scenario.file "qa_foo.cc").
    split; [right; left; reflexivity|vm_compute; reflexivity].
Defined.

(** X9 at the blocks [bar] and [foobar]. *)
Lemma suffix_block_collects_longer_block_tests_witness :
  In (ModuleTree.treeItem Scenario.prefixed
        (Uri_file Scenario.prefixed Scenario.cwd) (js "Python Tests")
        [js "python"; Scenario.moduleName] (js "qa_foobar.py"))
     MoreScenarios.barItems.
Proof.
  apply (@suffix_block_collects_longer_block_tests
           Scenario.prefixed FragmentRegExp.engine
           (BlockFilterSpec.specBlocks Scenario.prefixed)
           (js "bar") (js "foobar")
           (Uri_file Scenario.prefixed Scenario.cwd) Scenario.moduleName
           MoreScenarios.barItems) with
    (d := Scenario.prefixedPython) (e := Scenario.file "qa_foobar.py").
  - vm_compute. reflexivity.
  - vm_compute. reflexivity.
  - vm_compute. reflexivity.
  - do 4 right. left. reflexivity.
  - vm_compute. reflexivity.
Defined.

(** X11 at the entry of the typed fragment [fo]. *)
Lemma picker_choice_decides_branch_witness :
  QuickPick.onDidAccept (QuickPick.regexPick unit (js "fo")) = js ".*fo.*"
  /\ ~ In (js ".*fo.*") [js "foo"; js "foobar"].
Proof.
  destruct (@picker_choice_decides_branch
              unit FragmentRegExp.engine
              (BlockFilterSpec.specBlocks Scenario.prefixed)
              Scenario.cwd Scenario.moduleName [js "foo"; js "foobar"]
              [js "fo"] (QuickPick.regexPick unit (js "fo")))
    as (_ & _ & Hregex).
  - vm_compute. reflexivity.
  - intros b [<-|[<-|[]]]; split; (discriminate || reflexivity).
  - left. reflexivity.
  - destruct Hregex as (Heq & Hnot & _); [discriminate|].
    split; [reflexivity|exact Hnot].
Defined.

(** X12 at the project with the blocks [foo] and [foobar]. *)
Lemma getChildren_root_shows_inventory_witness :
  exists items,
    TreeProvider.getChildren Scenario.prefixed FragmentRegExp.engine
      (BlockFilterSpec.specBlocks Scenario.prefixed)
      Scenario.cwd Scenario.moduleName None
    = Ok (TreeProvider.Blocks items)
    /\ List.map TreeProvider.label items = [js "foo"; js "foobar"]
    /\ List.map TreeProvider.contextValue items
       = [js "block.cpp"; js "block.cpp"].
Proof.
  destruct (@getChildren_root_shows_inventory
              Scenario.prefixed FragmentRegExp.engine
              (BlockFilterSpec.specBlocks Scenario.prefixed)
              Scenario.cwd Scenario.moduleName
              [js "foo"; js "foobar"] [js "foo"; js "foobar"] [])
    as (items & Hres & Hlabels & _).
  - vm_compute. reflexivity.
  - vm_compute. reflexivity.
  - vm_compute. reflexivity.
  - exists items. split; [exact Hres|]. split; [exact Hlabels|].
    assert (Heval :
      TreeProvider.getChildren Scenario.prefixed FragmentRegExp.engine
        (BlockFilterSpec.specBlocks Scenario.prefixed)
        Scenario.cwd Scenario.moduleName None
      = Ok (TreeProvider.Blocks
              (List.map (TreeProvider.blockItem [js "foo"; js "foobar"] [])
                        [js "foo"; js "foobar"])))
      by (vm_compute; reflexivity).
    rewrite Heval in Hres. injection Hres as <-.
    vm_compute. reflexivity.
Defined.

(** X13 at a [noblock] for which C++ is picked. *)
Lemma pickLanguage_hands_over_witness :
  exists st',
    CreateBlock.pickLanguage MoreScenarios.noblockPicked
      [CreateBlock.cppItem Scenario.prefixed MoreScenarios.extRoot]
    = CreateBlock.Continue st' (Some CreateBlock.PickTests)
    /\ CreateBlock.testLanguages MoreScenarios.extRoot st' <> [].
Proof.
  eexists. split; [reflexivity|].
  eapply (@pickLanguage_hands_over
            Scenario.prefixed MoreScenarios.extRoot MoreScenarios.noblockPicked
            _ (CreateBlock.cppItem Scenario.prefixed MoreScenarios.extRoot) []
            (Some CreateBlock.PickTests)).
  - right. left. reflexivity.
  - reflexivity.
  - discriminate.
Defined.

(** X14 at a [noblock] in C++ with the C++ test picked. *)
Lemma createBlock_arguments_witness :
  CreateBlock.createBlock Scenario.cwd Scenario.moduleName
    (Some (js "Git Name")) (js "A. Author") (js "helper")
    [CreateBlock.noblockItem Scenario.prefixed]
    [CreateBlock.cppItem Scenario.prefixed MoreScenarios.extRoot]
    [CreateBlock.cppItem Scenario.prefixed MoreScenarios.extRoot]
  = CreateBlock.Add
      [js "helper"; js "--block-type"; js "noblock"; js "--lang"; js "cpp";
       js "--copyright"; js "A. Author"; js "--add-cpp-qa"]
      [Scenario.cwd; js "include"; js "gnuradio"; Scenario.moduleName;
       js "helper.h"].
Proof.
  destruct (@createBlock_arguments
              Scenario.prefixed MoreScenarios.extRoot
              Scenario.cwd Scenario.moduleName
              (Some (js "Git Name")) (js "A. Author") (js "helper")
              (CreateBlock.noblockItem Scenario.prefixed)
              (CreateBlock.cppItem Scenario.prefixed MoreScenarios.extRoot)
              [CreateBlock.cppItem Scenario.prefixed MoreScenarios.extRoot])
    as (langName & Hlang & Hres & _).
  - right. left. reflexivity.
  - intros p [<-|[]]. vm_compute. left. reflexivity.
  - rewrite Hres. injection Hlang as <-. vm_compute. reflexivity.
Defined.

(** X18 at the block [foo] renamed to [baz]. *)
Lemma confirmations_list_relative_paths_witness :
  exists removal,
    Modtool.removeBlock Scenario.prefixed FragmentRegExp.engine
      (BlockFilterSpec.specBlocks Scenario.prefixed)
      Scenario.cwd Scenario.moduleName (js "foo") = Ok removal
    /\ exists paths,
         Modtool.detailMessage removal
         = js "The following files will be deleted:" :: paths
         /\ List.length paths = List.length Scenario.fooItems.
Proof.
  destruct (@confirmations_list_relative_paths
              Scenario.prefixed FragmentRegExp.engine
              (BlockFilterSpec.specBlocks Scenario.prefixed)
              Scenario.cwd Scenario.moduleName (js "foo") (js "baz")
              [js "foo"; js "foobar"] Scenario.fooItems)
    as (removal & renaming & paths & Hrm & _ & Hdetail & _ & _ & Hlen & _).
  - intros segs. reflexivity.
  - vm_compute. reflexivity.
  - left. reflexivity.
  - discriminate.
  - vm_compute. reflexivity.
  - exists removal. split; [exact Hrm|]. exists paths. now split.
Defined.

(** X16 at a failure on Windows whose log has two lines. *)
Lemma lastLogLine_is_last_line_witness :
  In ShellErrors.EOL_win32 [ShellErrors.EOL; ShellErrors.EOL_win32]
  /\ ShellErrors.lastLogLine ShellErrors.EOL_win32 MoreScenarios.crlfFailure
     = js "ModToolException: no block found"
  /\ ShellErrors.includes
       (ShellErrors.lastLogLine ShellErrors.EOL_win32 MoreScenarios.crlfFailure)
       ShellErrors.EOL_win32 = false.
Proof.
  assert (Hin : In ShellErrors.EOL_win32
                  [ShellErrors.EOL; ShellErrors.EOL_win32]) by (right; now left).
  split; [exact Hin|]. split; [vm_compute; reflexivity|].
  destruct (@lastLogLine_is_last_line ShellErrors.EOL_win32
              MoreScenarios.crlfFailure Hin) as [_ H].
  exact (proj1 (proj2 (H _ eq_refl))).
Defined.
